(** * Google Home Exposure Manager: override propagation and auto-aliases

    A shallow embedding of the panel logic of
    [frontend/alias-suggestions.js] (the concatenated panel sources):
    override normalisation ([_getEntityOverrideInfo],
    [_getDeviceOverrideInfo]), the device/entity propagation state machine
    ([_setEntityOverride], [_setDeviceOverride],
    [_propagateDeviceToEntities], [_recalculateDeviceState] and the two
    button handlers), and the auto-alias pass ([_applyAutoAliases],
    [generateAliasSuggestions]).

    Modelling conventions.
    - Stored configuration is JSON: a value is a [val].  Property reads that
      miss give [VUndef], as in JavaScript.
    - A JavaScript object used as a dictionary is a [gmap string _]; an
      absent dictionary ([entity_overrides] missing from the document) is
      the empty map, which is what [x || {}] makes of it.  Identifiers are
      registry identifiers; the special key [__proto__] is outside the model.
    - Methods mutate [this]; here they take the panel state and return the
      new one.  Operations that can raise a [TypeError] live in [exc].
    - Strings are sequences of ASCII characters ([toLowerCase] and the
      case-insensitive match act on [A-Z] only). *)

From Stdlib Require Import ZArith String Ascii List Bool Lia.
From stdpp Require Import base option gmap strings list.

Set Warnings "-register-all".
Local Open Scope string_scope.
Local Open Scope list_scope.

(** ** JavaScript values and exceptions *)

Inductive val : Type :=
| VUndef
| VNull
| VBool (b : bool)
| VNum (n : Z)
| VStr (s : string)
| VArr (items : list val)
| VObj (fields : list (string * val)).

Inductive jstype : Set := TUndefined | TObject | TBoolean | TNumber | TString.

Inductive JsError : Set := TypeError (msg : string).

Inductive exc (A : Type) : Type :=
| Ok (a : A)
| Throw (e : JsError).
Arguments Ok {A} a.
Arguments Throw {A} e.

#[global] Instance exc_ret : MRet exc := fun A a => Ok a.
#[global] Instance exc_bind : MBind exc := fun A B f m =>
  match m with
  | Ok a => f a
  | Throw e => Throw e
  end.

Definition returns {A} (m : exc A) : Prop := exists a, m = Ok a.

(** [typeof v]; [typeof null] and arrays are ["object"]. *)
Definition typeof (v : val) : jstype :=
  match v with
  | VUndef => TUndefined
  | VNull | VArr _ | VObj _ => TObject
  | VBool _ => TBoolean
  | VNum _ => TNumber
  | VStr _ => TString
  end.

(** Truthiness: [undefined], [null], [false], [0] and [""] are falsy. *)
Definition truthy (v : val) : bool :=
  match v with
  | VUndef | VNull => false
  | VBool b => b
  | VNum n => negb (n =? 0)%Z
  | VStr s => negb (String.eqb s "")
  | VArr _ | VObj _ => true
  end.

(** Own property of an object literal, first binding of the key. *)
Fixpoint field (k : string) (fields : list (string * val)) : option val :=
  match fields with
  | [] => None
  | (k', v) :: rest => if String.eqb k k' then Some v else field k rest
  end.

(** [v.k] for a key that is neither an index nor [length]: reading a
    property of [undefined] or [null] raises, a missing one is [undefined]. *)
Definition js_get (v : val) (k : string) : exc val :=
  match v with
  | VUndef | VNull => Throw (TypeError "Cannot read properties of undefined")
  | VObj fields => Ok (default VUndef (field k fields))
  | _ => Ok VUndef
  end.

(** [k in v] for a key that is neither an index nor [length] nor inherited:
    the operator raises on anything that is not an object. *)
Definition js_in (k : string) (v : val) : exc bool :=
  match v with
  | VObj fields => Ok (bool_decide (is_Some (field k fields)))
  | VArr _ => Ok false
  | _ => Throw (TypeError "Cannot use 'in' operator")
  end.

(** [a === b].  Primitives compare by value.  Objects and arrays compare by
    reference: the operands compared by the panel are read from different
    places of a parsed JSON document, which are distinct references. *)
Definition strict_eq (a b : val) : bool :=
  match a, b with
  | VUndef, VUndef | VNull, VNull => true
  | VBool x, VBool y => Bool.eqb x y
  | VNum x, VNum y => (x =? y)%Z
  | VStr x, VStr y => String.eqb x y
  | _, _ => false
  end.

(** [a || b] on values. *)
Definition js_or (a b : val) : val := if truthy a then a else b.

(** ** Data model *)

(** The result of normalisation, [{ expose, source }]. *)
Record OverrideInfo : Type := { expose : val; source : val }.

(** The object literal [{ expose, source }] as stored in the document. *)
Definition override_obj (e : val) (s : val) : val :=
  VObj [("expose", e); ("source", s)].

Record Entity : Type := {
  entity_id : string;
  name : option string;
  device_id : option string
}.

Record EntityConfig : Type := {
  ec_name : option string;
  ec_aliases : option (list string);
  ec_room : option string
}.

Record Config : Type := {
  entity_overrides : gmap string val;
  device_overrides : gmap string val;
  filtered_entities : list string;
  filtered_devices : list string;
  entity_config : gmap string EntityConfig;
  auto_aliases : option bool
}.

(** The fields of the panel element the modelled methods read or write;
    [_preview_exposed] is [this._preview?.exposed || []]. *)
Record Panel : Type := {
  _entities : list Entity;
  _pendingConfig : Config;
  _preview_exposed : list string;
  _hasChanges : bool
}.

Definition set_entity_overrides (m : gmap string val) (c : Config) : Config :=
  {| entity_overrides := m;
     device_overrides := device_overrides c;
     filtered_entities := filtered_entities c;
     filtered_devices := filtered_devices c;
     entity_config := entity_config c;
     auto_aliases := auto_aliases c |}.

Definition set_device_overrides (m : gmap string val) (c : Config) : Config :=
  {| entity_overrides := entity_overrides c;
     device_overrides := m;
     filtered_entities := filtered_entities c;
     filtered_devices := filtered_devices c;
     entity_config := entity_config c;
     auto_aliases := auto_aliases c |}.

Definition set_entity_config (m : gmap string EntityConfig) (c : Config) : Config :=
  {| entity_overrides := entity_overrides c;
     device_overrides := device_overrides c;
     filtered_entities := filtered_entities c;
     filtered_devices := filtered_devices c;
     entity_config := m;
     auto_aliases := auto_aliases c |}.

Definition with_config (c : Config) (p : Panel) : Panel :=
  {| _entities := _entities p;
     _pendingConfig := c;
     _preview_exposed := _preview_exposed p;
     _hasChanges := _hasChanges p |}.

Definition mark_changed (p : Panel) : Panel :=
  {| _entities := _entities p;
     _pendingConfig := _pendingConfig p;
     _preview_exposed := _preview_exposed p;
     _hasChanges := true |}.

(** ** Override normalisation *)

(** The body shared by [_getEntityOverrideInfo] and [_getDeviceOverrideInfo],
    applied to the stored value [override]; [None] is [null]. *)
Definition overrideInfo (override : val) : exc (option OverrideInfo) :=
  if negb (truthy override) then Ok None
  else
    has ← match typeof override with
          | TObject => js_in "expose" override
          | _ => Ok false
          end;
    if has : bool then
      e ← js_get override "expose";
      s ← js_get override "source";
      Ok (Some {| expose := e; source := js_or s (VStr "selected") |})
    else
      match typeof override with
      | TBoolean => Ok (Some {| expose := override; source := VStr "selected" |})
      | _ => Ok None
      end.

(** [m?.[k]]: a missing key reads as [undefined]. *)
Definition stored (m : gmap string val) (k : string) : val :=
  default VUndef (m !! k).

Definition _getEntityOverrideInfo (entityId : string) (p : Panel)
  : exc (option OverrideInfo) :=
  overrideInfo (stored (entity_overrides (_pendingConfig p)) entityId).

Definition _getDeviceOverrideInfo (deviceId : string) (p : Panel)
  : exc (option OverrideInfo) :=
  overrideInfo (stored (device_overrides (_pendingConfig p)) deviceId).

(** [info?.source === s] for a string literal [s]. *)
Definition source_is (info : option OverrideInfo) (s : string) : bool :=
  match info with
  | Some i => strict_eq (source i) (VStr s)
  | None => false
  end.

(** [info?.expose === b] for a boolean [b]. *)
Definition expose_is (info : option OverrideInfo) (b : bool) : bool :=
  match info with
  | Some i => strict_eq (expose i) (VBool b)
  | None => false
  end.

Definition _isEntityFiltered (entityId : string) (p : Panel) : bool :=
  bool_decide (entityId ∈ filtered_entities (_pendingConfig p)).

Definition _isDeviceFiltered (deviceId : string) (p : Panel) : bool :=
  bool_decide (deviceId ∈ filtered_devices (_pendingConfig p)).

(** ** The propagation state machine *)

(** [e.device_id === deviceId] *)
Definition owned_by (deviceId : string) (e : Entity) : bool :=
  bool_decide (device_id e = Some deviceId).

(** [this._entities.filter(e => e.device_id === deviceId)] *)
Definition deviceEntities (deviceId : string) (p : Panel) : list Entity :=
  List.filter (owned_by deviceId) (_entities p).

(** [deviceEntities.filter(e => !this._isEntityFiltered(e.entity_id))] *)
Definition activeEntities (deviceId : string) (p : Panel) : list Entity :=
  List.filter (fun e => negb (_isEntityFiltered (entity_id e) p))
              (deviceEntities deviceId p).

(** The loop of [_propagateDeviceToEntities] over the owned entities.  The
    current override of each entity is read from the document, the edits go
    to the local copy [overrides]; [expose = None] is [null]. *)
Fixpoint propagate_loop (p : Panel) (expose : option bool)
    (es : list Entity) (overrides : gmap string val) : exc (gmap string val) :=
  match es with
  | [] => Ok overrides
  | entity :: rest =>
      if _isEntityFiltered (entity_id entity) p then
        propagate_loop p expose rest overrides
      else
        currentOverride ← _getEntityOverrideInfo (entity_id entity) p;
        match expose with
        | None =>
            if source_is currentOverride "implied"
            then propagate_loop p expose rest (delete (entity_id entity) overrides)
            else propagate_loop p expose rest overrides
        | Some b =>
            if negb (bool_decide (is_Some currentOverride))
               || source_is currentOverride "implied"
            then propagate_loop p expose rest
                   (<[entity_id entity := override_obj (VBool b) (VStr "implied")]>
                      overrides)
            else propagate_loop p expose rest overrides
        end
  end.

Definition _propagateDeviceToEntities (deviceId : string) (expose : option bool)
    (deviceSource : string) (p : Panel) : exc Panel :=
  overrides ← propagate_loop p expose (deviceEntities deviceId p)
                 (entity_overrides (_pendingConfig p));
  Ok (with_config (set_entity_overrides overrides (_pendingConfig p)) p).

(** The three locals of the scan in [_recalculateDeviceState]. *)
Record Scan : Type := {
  allSelected : bool;
  allSameValue : bool;
  firstValue : val
}.

(** The [for] loop of [_recalculateDeviceState]; a [break] returns the
    locals as they stand. *)
Fixpoint scan_loop (p : Panel) (es : list Entity) (st : Scan) : exc Scan :=
  match es with
  | [] => Ok st
  | entity :: rest =>
      override ← _getEntityOverrideInfo (entity_id entity) p;
      match override with
      | None =>
          Ok {| allSelected := false; allSameValue := allSameValue st;
                firstValue := firstValue st |}
      | Some o =>
          if negb (strict_eq (source o) (VStr "selected")) then
            Ok {| allSelected := false; allSameValue := allSameValue st;
                  firstValue := firstValue st |}
          else if strict_eq (firstValue st) VNull then
            scan_loop p rest
              {| allSelected := allSelected st; allSameValue := allSameValue st;
                 firstValue := expose o |}
          else if negb (strict_eq (expose o) (firstValue st)) then
            Ok {| allSelected := allSelected st; allSameValue := false;
                  firstValue := firstValue st |}
          else scan_loop p rest st
      end
  end.

Definition _recalculateDeviceState (deviceId : string) (p : Panel) : exc Panel :=
  let active := activeEntities deviceId p in
  if (length active =? 0)%nat then Ok p
  else
    deviceOverride ← _getDeviceOverrideInfo deviceId p;
    if source_is deviceOverride "selected" then Ok p
    else
      st ← scan_loop p active
             {| allSelected := true; allSameValue := true; firstValue := VNull |};
      let overrides := device_overrides (_pendingConfig p) in
      let overrides' :=
        if allSelected st && allSameValue st
           && negb (strict_eq (firstValue st) VNull)
        then <[deviceId := override_obj (firstValue st) (VStr "implied")]> overrides
        else if source_is deviceOverride "implied"
             then delete deviceId overrides
             else overrides in
      Ok (with_config (set_device_overrides overrides' (_pendingConfig p)) p).

(** [this._entities.find(e => e.entity_id === entityId)] *)
Definition find_entity (entityId : string) (p : Panel) : option Entity :=
  List.find (fun e => bool_decide (entity_id e = entityId)) (_entities p).

(** [entity?.device_id] when it is truthy. *)
Definition owner (entityId : string) (p : Panel) : option string :=
  match find_entity entityId p with
  | Some e =>
      match device_id e with
      | Some d => if String.eqb d "" then None else Some d
      | None => None
      end
  | None => None
  end.

Definition _setEntityOverride (entityId : string) (expose : option bool)
    (source : string) (p : Panel) : exc Panel :=
  let overrides := entity_overrides (_pendingConfig p) in
  let overrides' :=
    match expose with
    | None => delete entityId overrides
    | Some b => <[entityId := override_obj (VBool b) (VStr source)]> overrides
    end in
  let p1 := with_config (set_entity_overrides overrides' (_pendingConfig p)) p in
  p2 ← match owner entityId p1 with
       | Some d => _recalculateDeviceState d p1
       | None => Ok p1
       end;
  Ok (mark_changed p2).

Definition _setDeviceOverride (deviceId : string) (expose : option bool)
    (source : string) (p : Panel) : exc Panel :=
  let overrides := device_overrides (_pendingConfig p) in
  let overrides' :=
    match expose with
    | None => delete deviceId overrides
    | Some b => <[deviceId := override_obj (VBool b) (VStr source)]> overrides
    end in
  let p1 := with_config (set_device_overrides overrides' (_pendingConfig p)) p in
  p2 ← _propagateDeviceToEntities deviceId expose source p1;
  Ok (mark_changed p2).

Definition _handleEntityButtonClick (entityId : string) (targetExpose : bool)
    (p : Panel) : exc Panel :=
  currentOverride ← _getEntityOverrideInfo entityId p;
  if expose_is currentOverride targetExpose && source_is currentOverride "selected"
  then _setEntityOverride entityId None "selected" p
  else _setEntityOverride entityId (Some targetExpose) "selected" p.

Definition _handleDeviceButtonClick (deviceId : string) (targetExpose : bool)
    (p : Panel) : exc Panel :=
  currentOverride ← _getDeviceOverrideInfo deviceId p;
  if expose_is currentOverride targetExpose && source_is currentOverride "selected"
  then _setDeviceOverride deviceId None "selected" p
  else _setDeviceOverride deviceId (Some targetExpose) "selected" p.

(** A user edit, and a sequence of edits run from left to right. *)
Inductive Edit : Type :=
| EntityClick (entityId : string) (targetExpose : bool)
| DeviceClick (deviceId : string) (targetExpose : bool).

Definition apply_edit (ed : Edit) (p : Panel) : exc Panel :=
  match ed with
  | EntityClick e b => _handleEntityButtonClick e b p
  | DeviceClick d b => _handleDeviceButtonClick d b p
  end.

Fixpoint run (eds : list Edit) (p : Panel) : exc Panel :=
  match eds with
  | [] => Ok p
  | ed :: rest => p' ← apply_edit ed p; run rest p'
  end.

(** ** Alias suggestions *)

Module Str.

(** [c.toLowerCase()] on one character. *)
Definition lower_char (c : ascii) : ascii :=
  let n := nat_of_ascii c in
  if (65 <=? n)%nat && (n <=? 90)%nat then ascii_of_nat (n + 32) else c.

Fixpoint toLowerCase (s : string) : string :=
  match s with
  | EmptyString => EmptyString
  | String c s' => String (lower_char c) (toLowerCase s')
  end.

Definition startsWith (s pre : string) : bool := String.prefix pre s.

Definition endsWith (s suf : string) : bool :=
  (String.length suf <=? String.length s)%nat
  && String.eqb
       (String.substring (String.length s - String.length suf)
                         (String.length suf) s) suf.

(** [s.slice(0, -k)] *)
Definition dropEnd (k : nat) (s : string) : string :=
  String.substring 0 (String.length s - k) s.

(** [s.slice(k)] *)
Definition dropStart (k : nat) (s : string) : string :=
  String.substring k (String.length s - k) s.

(** [s.includes(sub)] *)
Fixpoint includes (s sub : string) : bool :=
  String.prefix sub s
  || match s with
     | EmptyString => false
     | String _ s' => includes s' sub
     end.

(** [s.replace(new RegExp(word, "i"), by)] for a [word] of letters and
    spaces: the first case-insensitive occurrence is replaced. *)
Fixpoint replace_ci (word by_ : string) (s : string) : string :=
  if String.prefix (toLowerCase word) (toLowerCase s)
  then by_ ++ dropStart (String.length word) s
  else match s with
       | EmptyString => EmptyString
       | String c s' => String c (replace_ci word by_ s')
       end.

(** [s.split(/\s+/)]: the head of the result is the word being read. *)
Fixpoint split_ws_go (in_sep : bool) (s : string) : list string :=
  match s with
  | EmptyString => [EmptyString]
  | String c s' =>
      if Ascii.is_space c then
        if in_sep then split_ws_go true s'
        else EmptyString :: split_ws_go true s'
      else
        match split_ws_go false s' with
        | w :: r => String c w :: r
        | [] => [String c EmptyString]
        end
  end.

Definition split_ws (s : string) : list string := split_ws_go false s.

(** [s.split(sep)] for a one-character separator. *)
Fixpoint split_char (sep : ascii) (s : string) : list string :=
  match s with
  | EmptyString => [EmptyString]
  | String c s' =>
      if Ascii.eqb c sep then EmptyString :: split_char sep s'
      else match split_char sep s' with
           | w :: r => String c w :: r
           | [] => [String c EmptyString]
           end
  end.

(** [s.replace(/_/g, " ")] *)
Fixpoint underscores_to_spaces (s : string) : string :=
  match s with
  | EmptyString => EmptyString
  | String c s' =>
      String (if Ascii.eqb c "_"%char then " "%char else c)
             (underscores_to_spaces s')
  end.

End Str.

Definition pluralize (word : string) : string :=
  let lower := Str.toLowerCase word in
  if Str.endsWith lower "y"
     && negb (existsb (fun v => Str.endsWith lower v) ["ay"; "ey"; "iy"; "oy"; "uy"])
  then Str.dropEnd 1 word ++ "ies"
  else if Str.endsWith lower "s" || Str.endsWith lower "x"
          || Str.endsWith lower "ch" || Str.endsWith lower "sh"
  then word ++ "es"
  else if Str.endsWith lower "f" then Str.dropEnd 1 word ++ "ves"
  else if Str.endsWith lower "fe" then Str.dropEnd 2 word ++ "ves"
  else word ++ "s".

Definition singularize (word : string) : string :=
  let lower := Str.toLowerCase word in
  if Str.endsWith lower "ies" then Str.dropEnd 3 word ++ "y"
  else if Str.endsWith lower "ves" then Str.dropEnd 3 word ++ "f"
  else if Str.endsWith lower "es"
          && (Str.endsWith lower "sses" || Str.endsWith lower "xes"
              || Str.endsWith lower "ches" || Str.endsWith lower "shes")
  then Str.dropEnd 2 word
  else if Str.endsWith lower "s" && negb (Str.endsWith lower "ss")
  then Str.dropEnd 1 word
  else word.

Definition WORD_SYNONYMS : list (string * list string) :=
  [ ("light", ["lamp"; "lights"]);
    ("lamp", ["light"; "lamps"]);
    ("lights", ["light"; "lamps"]);
    ("fan", ["fans"; "ceiling fan"]);
    ("fans", ["fan"; "ceiling fans"]);
    ("switch", ["switches"]);
    ("switches", ["switch"]);
    ("outlet", ["plug"; "socket"]);
    ("plug", ["outlet"; "socket"]);
    ("tv", ["television"; "telly"; "screen"]);
    ("television", ["tv"; "telly"]);
    ("ac", ["air conditioner"; "air conditioning"; "cooling"]);
    ("air conditioner", ["ac"; "cooling"]);
    ("heater", ["heating"; "heat"]);
    ("heating", ["heater"; "heat"]);
    ("thermostat", ["temperature"]);
    ("blind", ["blinds"; "shade"; "shades"; "window cover"]);
    ("blinds", ["blind"; "shades"; "window covers"]);
    ("shade", ["shades"; "blind"; "blinds"]);
    ("shades", ["shade"; "blinds"]);
    ("curtain", ["curtains"; "drapes"]);
    ("curtains", ["curtain"; "drapes"]);
    ("drape", ["drapes"; "curtains"]);
    ("drapes", ["drape"; "curtains"]);
    ("door", ["doors"]);
    ("doors", ["door"]);
    ("lock", ["locks"; "door lock"]);
    ("locks", ["lock"; "door locks"]);
    ("camera", ["cameras"; "cam"]);
    ("cameras", ["camera"; "cams"]);
    ("speaker", ["speakers"; "music"]);
    ("speakers", ["speaker"]);
    ("vacuum", ["vacuums"; "robot vacuum"; "roomba"]);
    ("roomba", ["vacuum"; "robot vacuum"]);
    ("garage", ["garage door"]);
    ("garage door", ["garage"]) ].

Definition ROOM_ALTERNATIVES : list (string * list string) :=
  [ ("living room", ["front room"; "lounge"; "family room"]);
    ("family room", ["living room"; "lounge"]);
    ("lounge", ["living room"; "front room"]);
    ("bedroom", ["bed room"]);
    ("bed room", ["bedroom"]);
    ("bathroom", ["bath"; "washroom"; "restroom"]);
    ("bath", ["bathroom"]);
    ("master bedroom", ["main bedroom"; "primary bedroom"]);
    ("master bathroom", ["main bathroom"; "primary bathroom"]);
    ("kids room", ["children's room"; "kid's room"]);
    ("guest room", ["spare room"; "guest bedroom"]);
    ("spare room", ["guest room"]);
    ("dining room", ["dining area"]);
    ("back yard", ["backyard"; "garden"]);
    ("backyard", ["back yard"; "garden"]);
    ("front yard", ["front garden"]);
    ("patio", ["deck"; "terrace"]);
    ("deck", ["patio"; "terrace"]);
    ("basement", ["downstairs"]);
    ("upstairs", ["second floor"; "upper floor"]);
    ("downstairs", ["first floor"; "ground floor"; "basement"]) ].

(** [set.add(x)] on a [Set] kept in insertion order. *)
Definition set_add (x : string) (set : list string) : list string :=
  if bool_decide (x ∈ set) then set else set ++ [x].

(** The two table loops of [generateAliasSuggestions]: for every entry whose
    key occurs in the lower-cased name, each alternative replaces the first
    occurrence of the key in the name. *)
Definition add_variations (table : list (string * list string))
    (baseName : string) (suggestions : list string) : list string :=
  fold_left
    (fun acc entry =>
       if Str.includes (Str.toLowerCase baseName) (fst entry)
       then fold_left
              (fun acc' syn => set_add (Str.replace_ci (fst entry) syn baseName) acc')
              (snd entry) acc
       else acc)
    table suggestions.

Definition generateAliasSuggestions (baseName : string)
    (existingAliases : list string) (maxSuggestions : nat) : list string :=
  let existingLower := List.map Str.toLowerCase existingAliases in
  let lowerBaseName := Str.toLowerCase baseName in
  let words := Str.split_ws baseName in
  let lastWord := List.last words EmptyString in
  let pluralLast := pluralize lastWord in
  let singularLast := singularize lastWord in
  let s0 : list string := [] in
  let s1 :=
    if negb (String.eqb (Str.toLowerCase pluralLast) (Str.toLowerCase lastWord))
    then set_add (String.concat " " (List.removelast words ++ [pluralLast])) s0
    else s0 in
  let s2 :=
    if negb (String.eqb (Str.toLowerCase singularLast) (Str.toLowerCase lastWord))
    then set_add (String.concat " " (List.removelast words ++ [singularLast])) s1
    else s1 in
  let s3 := add_variations WORD_SYNONYMS baseName s2 in
  let s4 := add_variations ROOM_ALTERNATIVES baseName s3 in
  let s5 :=
    if negb (Str.startsWith lowerBaseName "the ")
    then set_add ("the " ++ baseName) s4
    else set_add (Str.dropStart 4 baseName) s4 in
  let filtered :=
    List.filter
      (fun s => negb (String.eqb (Str.toLowerCase s) lowerBaseName)
                && negb (bool_decide (Str.toLowerCase s ∈ existingLower)))
      s5 in
  List.firstn maxSuggestions filtered.

(** ** The auto-alias pass *)

(** [{}] as an entity configuration. *)
Definition empty_entity_config : EntityConfig :=
  {| ec_name := None; ec_aliases := None; ec_room := None |}.

(** [c.aliases = suggestions] *)
Definition set_aliases (suggestions : list string) (c : EntityConfig) : EntityConfig :=
  {| ec_name := ec_name c; ec_aliases := Some suggestions; ec_room := ec_room c |}.

(** [c.aliases && c.aliases.length > 0] *)
Definition has_aliases (c : EntityConfig) : bool :=
  match ec_aliases c with
  | Some l => (0 <? length l)%nat
  | None => false
  end.

(** A string operand of [||]: absent and empty are falsy. *)
Definition nonempty (s : option string) : option string :=
  match s with
  | Some x => if String.eqb x "" then None else Some x
  | None => None
  end.

(** [entityId.split(".")[1].replace(/_/g, " ")]; an identifier without a
    dot has no second component and the call on [undefined] raises. *)
Definition fallback_name (entityId : string) : exc string :=
  match nth_error (Str.split_char "."%char entityId) 1 with
  | Some objectId => Ok (Str.underscores_to_spaces objectId)
  | None => Throw (TypeError "Cannot read properties of undefined")
  end.

(** [existingConfig.name || entity.name || entityId.split(".")[1]...] *)
Definition base_name (existingConfig : EntityConfig) (entity : Entity)
    (entityId : string) : exc string :=
  match nonempty (ec_name existingConfig) with
  | Some n => Ok n
  | None =>
      match nonempty (name entity) with
      | Some n => Ok n
      | None => fallback_name entityId
      end
  end.

(** The loop of [_applyAutoAliases] over the exposed identifiers, on the
    [entity_config] of the cloned document. *)
Fixpoint autoAlias_loop (p : Panel) (exposedEntities : list string)
    (entity_config : gmap string EntityConfig) : exc (gmap string EntityConfig) :=
  match exposedEntities with
  | [] => Ok entity_config
  | entityId :: rest =>
      let existingConfig := default empty_entity_config (entity_config !! entityId) in
      if has_aliases existingConfig then autoAlias_loop p rest entity_config
      else
        match find_entity entityId p with
        | None => autoAlias_loop p rest entity_config
        | Some entity =>
            baseName ← base_name existingConfig entity entityId;
            let suggestions := generateAliasSuggestions baseName [] 5 in
            if (0 <? length suggestions)%nat
            then autoAlias_loop p rest
                   (<[entityId := set_aliases suggestions existingConfig]> entity_config)
            else autoAlias_loop p rest entity_config
        end
  end.

Definition _applyAutoAliases (config : Config) (p : Panel) : exc Config :=
  if bool_decide (auto_aliases config = Some false) then Ok config
  else if (length (_preview_exposed p) =? 0)%nat then Ok config
  else
    ec ← autoAlias_loop p (_preview_exposed p) (entity_config config);
    Ok (set_entity_config ec config).

(** * Vocabulary of the statements and sample panels *)

(** The states of the propagation state machine, as normalised overrides. *)
Definition selected (b : bool) : OverrideInfo :=
  {| expose := VBool b; source := VStr "selected" |}.

Definition implied (b : bool) : OverrideInfo :=
  {| expose := VBool b; source := VStr "implied" |}.

(** The value [overrideInfo] computes, by cases on the stored value. *)
Definition info_of (v : val) : option OverrideInfo :=
  match v with
  | VBool true => Some (selected true)
  | VObj fields =>
      match field "expose" fields with
      | Some e =>
          Some {| expose := e;
                  source := js_or (default VUndef (field "source" fields))
                                  (VStr "selected") |}
      | None => None
      end
  | _ => None
  end.

Definition entityInfo (p : Panel) (entityId : string) : option OverrideInfo :=
  info_of (stored (entity_overrides (_pendingConfig p)) entityId).

Definition deviceInfo (p : Panel) (deviceId : string) : option OverrideInfo :=
  info_of (stored (device_overrides (_pendingConfig p)) deviceId).

(** A stored value is recognised when it is a boolean or an object with an
    [expose] key. *)
Definition is_boolean (v : val) : Prop := exists b, v = VBool b.

Definition has_expose_key (v : val) : Prop :=
  exists fields e, v = VObj fields /\ field "expose" fields = Some e.

Definition unrecognized (v : val) : Prop := ~ is_boolean v /\ ~ has_expose_key v.

(** A panel whose document holds the given override dictionaries. *)
Definition panel_of (es : list Entity) (eo do : gmap string val)
    (fe fd : list string) : Panel :=
  {| _entities := es;
     _pendingConfig :=
       {| entity_overrides := eo; device_overrides := do;
          filtered_entities := fe; filtered_devices := fd;
          entity_config := ∅; auto_aliases := None |};
     _preview_exposed := [];
     _hasChanges := false |}.

(** The normalised override of an entity or device has source [s]. *)
Definition entity_source_is (p : Panel) (entityId : string) (s : string) : Prop :=
  exists i, _getEntityOverrideInfo entityId p = Ok (Some i) /\ source i = VStr s.

Definition device_source_is (p : Panel) (deviceId : string) (s : string) : Prop :=
  exists i, _getDeviceOverrideInfo deviceId p = Ok (Some i) /\ source i = VStr s.

(** Every non-filtered owned entity is selected with the value [b]. *)
Definition all_active_selected (p : Panel) (deviceId : string) (b : bool) : Prop :=
  forall e, e ∈ activeEntities deviceId p ->
    _getEntityOverrideInfo (entity_id e) p = Ok (Some (selected b)).

(** The selected overrides of the non-filtered owned entities carry
    booleans, as the data model has them. *)
Definition boolean_exposes (p : Panel) (deviceId : string) : Prop :=
  forall e i, e ∈ activeEntities deviceId p ->
    _getEntityOverrideInfo (entity_id e) p = Ok (Some i) ->
    source i = VStr "selected" -> exists b, expose i = VBool b.

Definition agreed (st : Scan) : bool :=
  allSelected st && allSameValue st && negb (strict_eq (firstValue st) VNull).

(** Three panels on the topology of the spec's scenario C: device [d1] owns
    [light.e1] and [light.e2]. *)
Definition e1 : Entity :=
  {| entity_id := "light.e1"; name := Some "Desk Light"; device_id := Some "d1" |}.

Definition e2 : Entity :=
  {| entity_id := "light.e2"; name := None; device_id := Some "d1" |}.

Definition stored_selected (b : bool) : val := override_obj (VBool b) (VStr "selected").

Definition stored_implied (b : bool) : val := override_obj (VBool b) (VStr "implied").

(** Both entities selected for exposure, the device implied for exclusion. *)
Definition panel_agree : Panel :=
  panel_of [e1; e2]
    {["light.e1" := stored_selected true; "light.e2" := stored_selected true]}
    {["d1" := stored_implied false]} [] [].

(** The entities disagree, the device is implied. *)
Definition panel_mixed : Panel :=
  panel_of [e1; e2]
    {["light.e1" := stored_selected true; "light.e2" := stored_selected false]}
    {["d1" := stored_implied true]} [] [].

(** Both entities are filtered, the device is implied. *)
Definition panel_all_filtered : Panel :=
  panel_of [e1; e2] ∅ {["d1" := stored_implied true]} ["light.e1"; "light.e2"] [].

(** C3 as the claim words it, without the side condition on the number of
    non-filtered owned entities. *)
Definition recompute_claim_as_stated (p : Panel) (d : string) : Prop :=
  exists p', _recalculateDeviceState d p = Ok p'
    /\ (device_source_is p d "selected" -> p' = p)
    /\ (~ device_source_is p d "selected" ->
        (forall b, all_active_selected p d b ->
           device_overrides (_pendingConfig p') !! d
           = Some (override_obj (VBool b) (VStr "implied")))
        /\ (~ (exists b, all_active_selected p d b) ->
            (device_source_is p d "implied" ->
               device_overrides (_pendingConfig p') !! d = None)
            /\ (device_overrides (_pendingConfig p) !! d = None ->
               device_overrides (_pendingConfig p') !! d = None))).

(** Every entity the device owns is in [filtered_entities]. *)
Definition all_owned_filtered (p : Panel) (d : string) : Prop :=
  forall e, e ∈ _entities p -> device_id e = Some d ->
    entity_id e ∈ filtered_entities (_pendingConfig p).

(** The entity dictionary after a click on [e] with target [b]. *)
Definition clicked_entity_overrides (e : string) (b : bool) (p : Panel)
  : gmap string val :=
  if expose_is (entityInfo p e) b && source_is (entityInfo p e) "selected"
  then delete e (entity_overrides (_pendingConfig p))
  else <[e := stored_selected b]> (entity_overrides (_pendingConfig p)).

(** A second device [d2] with one entity, next to [d1]. *)
Definition e3 : Entity :=
  {| entity_id := "switch.e3"; name := Some "Fan Switch"; device_id := Some "d2" |}.

Definition panel_two_devices : Panel :=
  panel_of [e1; e2; e3]
    {["light.e2" := stored_selected true; "switch.e3" := stored_implied false]}
    {["d2" := stored_selected false]} [] [].

(** What propagation with target [x] makes of the stored override [old] of
    a non-filtered owned entity whose normalised override is [cur]. *)
Definition propagated (x : option bool) (cur : option OverrideInfo)
    (old : option val) : option val :=
  match x with
  | None => if source_is cur "implied" then None else old
  | Some b =>
      if negb (bool_decide (is_Some cur)) || source_is cur "implied"
      then Some (stored_implied b) else old
  end.

(** One turn of the loop on the local copy of the dictionary. *)
Definition propagate_step (p : Panel) (x : option bool) (e : Entity)
    (m : gmap string val) : gmap string val :=
  if _isEntityFiltered (entity_id e) p then m
  else match propagated x (entityInfo p (entity_id e)) (m !! entity_id e) with
       | Some v => <[entity_id e := v]> m
       | None => delete (entity_id e) m
       end.

(** An entity is owned by the device and not filtered. *)
Definition propagation_target (p : Panel) (d : string) (k : string) : Prop :=
  (exists e, e ∈ _entities p /\ device_id e = Some d /\ entity_id e = k)
  /\ k ∉ filtered_entities (_pendingConfig p).

Definition targeted (p : Panel) (es : list Entity) (k : string) : bool :=
  bool_decide (k ∈ List.map entity_id es) && negb (_isEntityFiltered k p).

(** The device dictionary after a click on [d] with target [b], and the
    value handed to the propagation. *)
Definition device_selected_with (p : Panel) (d : string) (b : bool) : bool :=
  expose_is (deviceInfo p d) b && source_is (deviceInfo p d) "selected".

Definition clicked_device_overrides (d : string) (b : bool) (p : Panel)
  : gmap string val :=
  if device_selected_with p d b
  then delete d (device_overrides (_pendingConfig p))
  else <[d := stored_selected b]> (device_overrides (_pendingConfig p)).

Definition clicked_device_target (d : string) (b : bool) (p : Panel) : option bool :=
  if device_selected_with p d b then None else Some b.

(** Scenario C of the specification: [light.e1] is selected for exposure,
    [light.e2] is unset, the device has no override. *)
Definition panel_scenario : Panel :=
  panel_of [e1; e2] {["light.e1" := stored_selected true]} ∅ [] [].

(** The device is selected for exclusion and has implied it on [light.e2]. *)
Definition panel_device_selected : Panel :=
  panel_of [e1; e2]
    {["light.e1" := stored_selected true; "light.e2" := stored_implied false]}
    {["d1" := stored_selected false]} [] [].

(** The panel with another [filtered_devices] list. *)
Definition with_filtered_devices (fd : list string) (p : Panel) : Panel :=
  with_config
    {| entity_overrides := entity_overrides (_pendingConfig p);
       device_overrides := device_overrides (_pendingConfig p);
       filtered_entities := filtered_entities (_pendingConfig p);
       filtered_devices := fd;
       entity_config := entity_config (_pendingConfig p);
       auto_aliases := auto_aliases (_pendingConfig p) |} p.

(** Device [d1] is in [filtered_devices]; it owns [light.e1], which is not
    filtered; nothing has an override. *)
Definition panel_filtered_device : Panel := panel_of [e1] ∅ ∅ [] ["d1"].

(** Device [d1] is in [filtered_devices] and selected for exclusion. *)
Definition panel_filtered_selected : Panel :=
  panel_of [e1; e2] ∅ {["d1" := stored_selected false]} [] ["d1"].

(** C5 as the claim words it. *)
Definition filtered_device_claim_as_stated : Prop :=
  forall p d e b p',
    d ∈ filtered_devices (_pendingConfig p) ->
    owner e p = Some d ->
    _handleEntityButtonClick e b p = Ok p' ->
    device_overrides (_pendingConfig p') !! d
    = device_overrides (_pendingConfig p) !! d.

(** The entry of an identifier, [{}] when it has none. *)
Definition entry_of (ec : gmap string EntityConfig) (k : string) : EntityConfig :=
  default empty_entity_config (ec !! k).

(** The identifier has a second dot-separated component. *)
Definition has_object_id (entityId : string) : Prop :=
  is_Some (nth_error (Str.split_char "."%char entityId) 1).

(** [light.e2] carries a manual alias, [light.e1] has no entry; both are
    exposed in the preview. *)
Definition manual_entry : EntityConfig :=
  {| ec_name := None; ec_aliases := Some ["hall lamp"]; ec_room := Some "Hall" |}.

Definition config_manual (auto : option bool) : Config :=
  {| entity_overrides := ∅; device_overrides := ∅;
     filtered_entities := []; filtered_devices := [];
     entity_config := {["light.e2" := manual_entry]};
     auto_aliases := auto |}.

Definition panel_preview : Panel :=
  {| _entities := [e1; e2];
     _pendingConfig := config_manual None;
     _preview_exposed := ["light.e1"; "light.e2"];
     _hasChanges := true |}.

(** * Vocabulary of the further properties *)

(** The device dictionary the recompute writes when it gets past its two
    early returns and the scan ends in [st]. *)
Definition recalculated_overrides (p : Panel) (d : string) (st : Scan)
  : gmap string val :=
  if agreed st
  then <[d := override_obj (firstValue st) (VStr "implied")]>
         (device_overrides (_pendingConfig p))
  else if source_is (deviceInfo p d) "implied"
       then delete d (device_overrides (_pendingConfig p))
       else device_overrides (_pendingConfig p).

(** A stored override of the current format: [{expose, source}] with a
    boolean and one of the two sources. *)
Definition well_formed_override (v : val) : Prop :=
  exists b s, v = override_obj (VBool b) (VStr s) /\ (s = "selected" \/ s = "implied").

Definition well_formed_document (p : Panel) : Prop :=
  (forall k v, entity_overrides (_pendingConfig p) !! k = Some v ->
     well_formed_override v)
  /\ (forall k v, device_overrides (_pendingConfig p) !! k = Some v ->
     well_formed_override v).

(** * The rest of the panel element *)

(** ** Filtering items from the list *)

Definition set_filtered_entities (l : list string) (c : Config) : Config :=
  {| entity_overrides := entity_overrides c;
     device_overrides := device_overrides c;
     filtered_entities := l;
     filtered_devices := filtered_devices c;
     entity_config := entity_config c;
     auto_aliases := auto_aliases c |}.

Definition set_filtered_devices (l : list string) (c : Config) : Config :=
  {| entity_overrides := entity_overrides c;
     device_overrides := device_overrides c;
     filtered_entities := filtered_entities c;
     filtered_devices := l;
     entity_config := entity_config c;
     auto_aliases := auto_aliases c |}.

(** [l.splice(l.indexOf(x), 1)] for an [x] that occurs: its first
    occurrence is removed. *)
Fixpoint remove_first (x : string) (l : list string) : list string :=
  match l with
  | [] => []
  | y :: rest => if bool_decide (y = x) then rest else y :: remove_first x rest
  end.

(** The body shared by [_toggleEntityFiltered] and [_toggleDeviceFiltered] on
    the copied list: [indexOf], then [splice] or [push]. *)
Definition toggle_member (x : string) (l : list string) : list string :=
  if bool_decide (x ∈ l) then remove_first x l else l ++ [x].

(** Both toggles end in [_updatePendingConfig] with a path of one key: the
    field is assigned and the panel marked as changed. *)
Definition _toggleEntityFiltered (entityId : string) (p : Panel) : Panel :=
  mark_changed
    (with_config
       (set_filtered_entities
          (toggle_member entityId (filtered_entities (_pendingConfig p)))
          (_pendingConfig p)) p).

Definition _toggleDeviceFiltered (deviceId : string) (p : Panel) : Panel :=
  mark_changed
    (with_config
       (set_filtered_devices
          (toggle_member deviceId (filtered_devices (_pendingConfig p)))
          (_pendingConfig p)) p).


(** ** Tabs and unsaved changes *)

(** The panel together with the fields the navigation methods use:
    [_pendingNavigation] is [null] or [{type: "tab", tab}]. *)
Record Nav : Type := {
  nav_panel : Panel;
  _config : Config;
  _activeTab : string;
  _pendingNavigation : option string;
  _showUnsavedDialog : bool;
  _migrationNeeded : bool
}.

Definition _setTab (tab : string) (n : Nav) : Nav :=
  if _migrationNeeded n && negb (String.eqb tab "migration") then n
  else if _hasChanges (nav_panel n) && negb (String.eqb tab (_activeTab n)) then
    {| nav_panel := nav_panel n; _config := _config n; _activeTab := _activeTab n;
       _pendingNavigation := Some tab; _showUnsavedDialog := true;
       _migrationNeeded := _migrationNeeded n |}
  else
    {| nav_panel := nav_panel n; _config := _config n; _activeTab := tab;
       _pendingNavigation := _pendingNavigation n;
       _showUnsavedDialog := _showUnsavedDialog n;
       _migrationNeeded := _migrationNeeded n |}.

(** The pending document becomes a deep copy of the persisted one. *)
Definition _confirmNavigation (n : Nav) : Nav :=
  {| nav_panel :=
       {| _entities := _entities (nav_panel n);
          _pendingConfig := _config n;
          _preview_exposed := _preview_exposed (nav_panel n);
          _hasChanges := false |};
     _config := _config n;
     _activeTab := match _pendingNavigation n with
                   | Some tab => tab
                   | None => _activeTab n
                   end;
     _pendingNavigation := None;
     _showUnsavedDialog := false;
     _migrationNeeded := _migrationNeeded n |}.

Definition _cancelNavigation (n : Nav) : Nav :=
  {| nav_panel := nav_panel n; _config := _config n; _activeTab := _activeTab n;
     _pendingNavigation := None; _showUnsavedDialog := false;
     _migrationNeeded := _migrationNeeded n |}.

(** ** The entity configuration dialog *)

(** [s.trim()] on ASCII white space. *)
Fixpoint trimStart (s : string) : string :=
  match s with
  | EmptyString => EmptyString
  | String c s' => if Ascii.is_space c then trimStart s' else s
  end.

Fixpoint trimEnd (s : string) : string :=
  match s with
  | EmptyString => EmptyString
  | String c s' =>
      if Ascii.is_space c && String.eqb (trimEnd s') EmptyString
      then EmptyString
      else String c (trimEnd s')
  end.

Definition trim (s : string) : string := trimEnd (trimStart s).

(** [_entityConfigDraft]; [{}] has every field [undefined]. *)
Record Draft : Type := {
  draft_name : option string;
  draft_aliases : option (list string);
  draft_room : option string;
  _newAlias : option string
}.

Definition empty_draft : Draft :=
  {| draft_name := None; draft_aliases := None; draft_room := None;
     _newAlias := None |}.

(** [{ ...draft, aliases }] *)
Definition with_aliases (l : list string) (d : Draft) : Draft :=
  {| draft_name := draft_name d; draft_aliases := Some l;
     draft_room := draft_room d; _newAlias := _newAlias d |}.

(** The panel together with the two fields of the dialog. *)
Record Dialog : Type := {
  dlg_panel : Panel;
  _editingEntity : option Entity;
  _entityConfigDraft : Draft
}.

Definition with_draft (d : Draft) (g : Dialog) : Dialog :=
  {| dlg_panel := dlg_panel g; _editingEntity := _editingEntity g;
     _entityConfigDraft := d |}.

Definition _getEntityConfig (entityId : string) (p : Panel) : EntityConfig :=
  default empty_entity_config (entity_config (_pendingConfig p) !! entityId).

(** The truthiness of what [_hasEntityConfig] returns. *)
Definition _hasEntityConfig (entityId : string) (p : Panel) : bool :=
  let config := _getEntityConfig entityId p in
  bool_decide (is_Some (nonempty (ec_name config)))
  || has_aliases config
  || bool_decide (is_Some (nonempty (ec_room config))).

Definition _openEntityConfigDialog (entity : Entity) (g : Dialog) : Dialog :=
  let currentConfig := _getEntityConfig (entity_id entity) (dlg_panel g) in
  {| dlg_panel := dlg_panel g;
     _editingEntity := Some entity;
     _entityConfigDraft :=
       {| draft_name := Some (default EmptyString (nonempty (ec_name currentConfig)));
          draft_aliases := Some (default [] (ec_aliases currentConfig));
          draft_room := Some (default EmptyString (nonempty (ec_room currentConfig)));
          _newAlias := Some EmptyString |} |}.

Definition _closeEntityConfigDialog (g : Dialog) : Dialog :=
  {| dlg_panel := dlg_panel g; _editingEntity := None;
     _entityConfigDraft := empty_draft |}.

(** [draft.aliases] where a method is called on it: [undefined] raises. *)
Definition aliases_of (d : Draft) : exc (list string) :=
  match draft_aliases d with
  | Some l => Ok l
  | None => Throw (TypeError "Cannot read properties of undefined")
  end.

Definition _addAlias (g : Dialog) : exc Dialog :=
  let draft := _entityConfigDraft g in
  match nonempty (trim <$> _newAlias draft) with
  | None => Ok g
  | Some alias =>
      aliases ← aliases_of draft;
      if bool_decide (alias ∈ aliases) then Ok g
      else Ok (with_draft
                 {| draft_name := draft_name draft;
                    draft_aliases := Some (aliases ++ [alias]);
                    draft_room := draft_room draft;
                    _newAlias := Some EmptyString |} g)
  end.

Definition _removeAlias (alias : string) (g : Dialog) : exc Dialog :=
  aliases ← aliases_of (_entityConfigDraft g);
  Ok (with_draft
        (with_aliases (List.filter (fun a => negb (String.eqb a alias)) aliases)
                      (_entityConfigDraft g)) g).

Definition _addSuggestedAlias (alias : string) (g : Dialog) : exc Dialog :=
  aliases ← aliases_of (_entityConfigDraft g);
  if bool_decide (alias ∈ aliases) then Ok g
  else Ok (with_draft (with_aliases (aliases ++ [alias]) (_entityConfigDraft g)) g).

(** [draft.name || entity.name || entity.entity_id.split(".")[1]...]: the
    entity is only read when the draft has no name, and reading a property
    of [null] raises. *)
Definition _generateAliasSuggestions (g : Dialog) : exc (list string) :=
  let draft := _entityConfigDraft g in
  baseName ← match nonempty (draft_name draft) with
             | Some n => Ok n
             | None =>
                 match _editingEntity g with
                 | None => Throw (TypeError "Cannot read properties of null")
                 | Some entity =>
                     match nonempty (name entity) with
                     | Some n => Ok n
                     | None => fallback_name (entity_id entity)
                     end
                 end
             end;
  Ok (generateAliasSuggestions baseName (default [] (draft_aliases draft)) 8).

(** The object literal built by [_saveEntityConfig], [None] when it has no
    key. *)
Definition draft_entry (name : option string) (aliases : list string)
    (room : option string) : option EntityConfig :=
  let c := {| ec_name := nonempty name;
              ec_aliases := if (0 <? length aliases)%nat then Some aliases else None;
              ec_room := nonempty room |} in
  if bool_decide (is_Some (ec_name c)) || bool_decide (is_Some (ec_aliases c))
     || bool_decide (is_Some (ec_room c))
  then Some c else None.

Definition _saveEntityConfig (g : Dialog) : exc Dialog :=
  match _editingEntity g with
  | None => Throw (TypeError "Cannot read properties of null")
  | Some entity =>
      let entityId := entity_id entity in
      let draft := _entityConfigDraft g in
      aliases ← aliases_of draft;
      let entityConfig := entity_config (_pendingConfig (dlg_panel g)) in
      let entityConfig' :=
        match draft_entry (draft_name draft) aliases (draft_room draft) with
        | Some config => <[entityId := config]> entityConfig
        | None => delete entityId entityConfig
        end in
      Ok (_closeEntityConfigDialog
            {| dlg_panel :=
                 mark_changed
                   (with_config (set_entity_config entityConfig'
                                   (_pendingConfig (dlg_panel g))) (dlg_panel g));
               _editingEntity := _editingEntity g;
               _entityConfigDraft := draft |})
  end.

(** An entry as [_saveEntityConfig] writes it: no empty name, alias list or
    room, and at least one of the three. *)
Definition normal_entry (c : EntityConfig) : Prop :=
  ec_name c <> Some EmptyString /\ ec_aliases c <> Some []
  /\ ec_room c <> Some EmptyString /\ c <> empty_entity_config.

(** ** The device and entity list *)










(** A run of tab requests, in order. *)
Definition setTabs (tabs : list string) (n : Nav) : Nav :=
  fold_left (fun n tab => _setTab tab n) tabs n.


(** * Properties *)

(** ** Normalisation *)

Lemma bind_Ok {A B} (a : A) (f : A -> exc B) : (Ok a ≫= f) = f a.
Proof. reflexivity. Qed.

Lemma overrideInfo_eq (v : val) : overrideInfo v = Ok (info_of v).
Proof.
  destruct v as [| | [|] | n | s | items | fields]; try reflexivity.
  - unfold overrideInfo; simpl. destruct (n =? 0)%Z; reflexivity.
  - unfold overrideInfo; simpl. destruct (String.eqb s ""); reflexivity.
  - unfold overrideInfo; simpl.
    destruct (field "expose" fields) as [e|] eqn:He.
    + rewrite bool_decide_eq_true_2 by eauto. reflexivity.
    + rewrite bool_decide_eq_false_2 by (intros [? ?]; discriminate). reflexivity.
Qed.

Lemma getEntityInfo_eq p id : _getEntityOverrideInfo id p = Ok (entityInfo p id).
Proof. apply overrideInfo_eq. Qed.

Lemma getDeviceInfo_eq p id : _getDeviceOverrideInfo id p = Ok (deviceInfo p id).
Proof. apply overrideInfo_eq. Qed.

Lemma js_or_truthy (a : val) : truthy (js_or a (VStr "selected")) = true.
Proof. unfold js_or. destruct (truthy a) eqn:E; [exact E | reflexivity]. Qed.

Lemma info_of_source_truthy v i : info_of v = Some i -> truthy (source i) = true.
Proof.
  destruct v as [| | [|] | | | |fields]; simpl; try discriminate.
  - intros [= <-]. reflexivity.
  - destruct (field "expose" fields); [|discriminate].
    intros [= <-]. apply js_or_truthy.
Qed.

(** Normalising the stored form of a normalised override gives it back. *)
Lemma overrideInfo_idempotent (v : val) (i : OverrideInfo) :
  overrideInfo v = Ok (Some i) ->
  overrideInfo (override_obj (expose i) (source i)) = Ok (Some i).
Proof.
  rewrite overrideInfo_eq. intros [= H].
  rewrite overrideInfo_eq. simpl. unfold js_or.
  rewrite (info_of_source_truthy _ _ H). destruct i; reflexivity.
Qed.

(** An object with [expose] and no [source] is a selected override. *)
Lemma overrideInfo_legacy_object (e : val) :
  overrideInfo (VObj [("expose", e)])
  = Ok (Some {| expose := e; source := VStr "selected" |}).
Proof. reflexivity. Qed.

Lemma overrideInfo_true : overrideInfo (VBool true) = Ok (Some (selected true)).
Proof. reflexivity. Qed.

Lemma overrideInfo_stored_obj (b : bool) (s : string) :
  s <> "" ->
  info_of (override_obj (VBool b) (VStr s))
  = Some {| expose := VBool b; source := VStr s |}.
Proof.
  intros Hs. simpl. unfold js_or. simpl.
  destruct (String.eqb s "") eqn:E; [apply String.eqb_eq in E; contradiction|].
  reflexivity.
Qed.

Lemma info_of_unrecognized v : unrecognized v -> info_of v = None.
Proof.
  intros [Hb Ho]. destruct v as [| |b| | | |fields]; try reflexivity.
  - exfalso. apply Hb. exists b. reflexivity.
  - simpl. destruct (field "expose" fields) as [e|] eqn:He; [|reflexivity].
    exfalso. apply Ho. exists fields, e. split; [reflexivity | exact He].
Qed.

(** C7: normalisation never raises.  For every document and identifier both
    getters return, the result is [null] or an [{expose, source}] object
    with a non-empty source, and a stored value that is neither a boolean
    nor an object with an [expose] key normalises to [null] (unset). *)
Theorem override_normalization_total (p : Panel) (id : string) :
  (exists r, _getEntityOverrideInfo id p = Ok r
     /\ (r = None \/ exists e s, r = Some {| expose := e; source := s |}
                                 /\ truthy s = true)
     /\ (unrecognized (stored (entity_overrides (_pendingConfig p)) id)
         -> r = None))
  /\ (exists r, _getDeviceOverrideInfo id p = Ok r
     /\ (r = None \/ exists e s, r = Some {| expose := e; source := s |}
                                 /\ truthy s = true)
     /\ (unrecognized (stored (device_overrides (_pendingConfig p)) id)
         -> r = None)).
Proof.
  split.
  - exists (entityInfo p id). split; [apply getEntityInfo_eq|]. split.
    + unfold entityInfo.
      destruct (info_of _) as [[e s]|] eqn:H; [right|left; reflexivity].
      exists e, s. split; [reflexivity|]. apply (info_of_source_truthy _ _ H).
    + apply info_of_unrecognized.
  - exists (deviceInfo p id). split; [apply getDeviceInfo_eq|]. split.
    + unfold deviceInfo.
      destruct (info_of _) as [[e s]|] eqn:H; [right|left; reflexivity].
      exists e, s. split; [reflexivity|]. apply (info_of_source_truthy _ _ H).
    + apply info_of_unrecognized.
Qed.

(** A document with a number stored as an entity override and an array
    stored as a device override: both read as unset. *)
Lemma override_normalization_total_witness :
  unrecognized (VNum 7) /\ unrecognized (VArr [VBool true])
  /\ _getEntityOverrideInfo "light.kitchen"
       (panel_of [] {["light.kitchen" := VNum 7]} {["light.kitchen" := VArr [VBool true]]} [] [])
     = Ok None
  /\ _getDeviceOverrideInfo "light.kitchen"
       (panel_of [] {["light.kitchen" := VNum 7]} {["light.kitchen" := VArr [VBool true]]} [] [])
     = Ok None.
Proof.
  assert (U1 : unrecognized (VNum 7)).
  { split; [intros [b H]; discriminate | intros (f & e & H & _); discriminate]. }
  assert (U2 : unrecognized (VArr [VBool true])).
  { split; [intros [b H]; discriminate | intros (f & e & H & _); discriminate]. }
  split; [exact U1|]. split; [exact U2|].
  destruct (override_normalization_total
              (panel_of [] {["light.kitchen" := VNum 7]}
                        {["light.kitchen" := VArr [VBool true]]} [] [])
              "light.kitchen")
    as [(r1 & E1 & _ & N1) (r2 & E2 & _ & N2)].
  split.
  - rewrite E1. f_equal. apply N1. exact U1.
  - rewrite E2. f_equal. apply N2. exact U2.
Defined.

(** C6, at the failing input: a bare [false] stored for an entity or a
    device is read as unset, not as a selected exclusion. *)
Theorem legacy_false_reads_as_unset :
  _getEntityOverrideInfo "light.kitchen"
    (panel_of [] {["light.kitchen" := VBool false]} ∅ [] []) = Ok None
  /\ _getDeviceOverrideInfo "d1"
       (panel_of [] ∅ {["d1" := VBool false]} [] []) = Ok None
  /\ Ok (A := option OverrideInfo) None <> Ok (Some (selected false)).
Proof. split; [reflexivity|]. split; [reflexivity|]. discriminate. Qed.

(** ** Reading the state of an item *)

Lemma strict_eq_str v s : strict_eq v (VStr s) = true <-> v = VStr s.
Proof.
  destruct v; simpl; try (split; [discriminate|intros [=]]).
  rewrite String.eqb_eq. split; [intros ->; reflexivity | intros [=]; assumption].
Qed.

Lemma strict_eq_bool v b : strict_eq v (VBool b) = true <-> v = VBool b.
Proof.
  destruct v as [| |b'| | | |]; simpl; try (split; [discriminate|intros [=]]).
  rewrite Bool.eqb_true_iff. split; [intros ->; reflexivity | intros [=]; assumption].
Qed.

Lemma source_is_true i s :
  source_is i s = true <-> exists o, i = Some o /\ source o = VStr s.
Proof.
  destruct i as [o|]; simpl.
  - rewrite strict_eq_str. split; [eauto | intros (o' & [= <-] & H); exact H].
  - split; [discriminate | intros (o & [=] & _)].
Qed.

Lemma entity_source_is_iff p e s :
  entity_source_is p e s <-> source_is (entityInfo p e) s = true.
Proof.
  unfold entity_source_is. rewrite getEntityInfo_eq, source_is_true.
  split; intros (i & H & Hs); exists i; split; congruence.
Qed.

Lemma device_source_is_iff p d s :
  device_source_is p d s <-> source_is (deviceInfo p d) s = true.
Proof.
  unfold device_source_is. rewrite getDeviceInfo_eq, source_is_true.
  split; intros (i & H & Hs); exists i; split; congruence.
Qed.

Lemma is_selected_iff i b :
  expose_is i b && source_is i "selected" = true <-> i = Some (selected b).
Proof.
  destruct i as [[e s]|]; simpl.
  - rewrite andb_true_iff, strict_eq_bool, strict_eq_str. unfold selected.
    split; [intros [-> ->]; reflexivity | intros [= -> ->]; auto].
  - split; [discriminate | intros [=]].
Qed.

(** Projections of a panel rebuilt by the setters. *)
Ltac read_fields :=
  cbn [_pendingConfig mark_changed with_config entity_overrides device_overrides
       set_device_overrides set_entity_overrides].

Lemma with_config_same (p : Panel) : with_config (_pendingConfig p) p = p.
Proof. destruct p; reflexivity. Qed.

Lemma set_device_overrides_same (c : Config) :
  set_device_overrides (device_overrides c) c = c.
Proof. destruct c; reflexivity. Qed.

Lemma set_entity_overrides_same (c : Config) :
  set_entity_overrides (entity_overrides c) c = c.
Proof. destruct c; reflexivity. Qed.

(** ** The upward recompute *)

Lemma scan_loop_returns p es st : exists st', scan_loop p es st = Ok st'.
Proof.
  revert st. induction es as [|e es IH]; intros st; simpl; [eauto|].
  rewrite getEntityInfo_eq, bind_Ok.
  destruct (entityInfo p (entity_id e)) as [o|]; [|eauto].
  destruct (negb (strict_eq (source o) (VStr "selected"))); [eauto|].
  destruct (strict_eq (firstValue st) VNull); [apply IH|].
  destruct (negb (strict_eq (expose o) (firstValue st))); [eauto | apply IH].
Qed.

Lemma scan_loop_agree p b es fv :
  (forall e, e ∈ es -> entityInfo p (entity_id e) = Some (selected b)) ->
  fv = VNull \/ fv = VBool b ->
  scan_loop p es {| allSelected := true; allSameValue := true; firstValue := fv |}
  = Ok {| allSelected := true; allSameValue := true;
          firstValue := match es with [] => fv | _ => VBool b end |}.
Proof.
  revert fv. induction es as [|e es IH]; intros fv Hall Hfv; simpl; [reflexivity|].
  rewrite getEntityInfo_eq, bind_Ok.
  rewrite (Hall e) by (left). simpl.
  assert (Hrest : forall e', e' ∈ es -> entityInfo p (entity_id e') = Some (selected b))
    by (intros e' He'; apply Hall; right; exact He').
  destruct Hfv as [-> | ->]; simpl.
  - rewrite (IH (VBool b) Hrest) by (right; reflexivity).
    destruct es; reflexivity.
  - rewrite Bool.eqb_reflx. simpl.
    rewrite (IH (VBool b) Hrest) by (right; reflexivity).
    destruct es; reflexivity.
Qed.

Lemma scan_loop_agreed_inv p es fv st' :
  (forall e i, e ∈ es -> entityInfo p (entity_id e) = Some i ->
     source i = VStr "selected" -> exists b, expose i = VBool b) ->
  fv = VNull \/ (exists b0, fv = VBool b0) ->
  scan_loop p es {| allSelected := true; allSameValue := true; firstValue := fv |}
  = Ok st' ->
  agreed st' = true ->
  exists b, firstValue st' = VBool b
    /\ (forall e, e ∈ es -> entityInfo p (entity_id e) = Some (selected b))
    /\ (forall b0, fv = VBool b0 -> b = b0).
Proof.
  revert fv. induction es as [|e es IH]; intros fv Hwt Hfv; simpl.
  - intros [= <-]. unfold agreed; simpl. intros Hag.
    destruct Hfv as [-> | [b0 ->]]; [discriminate|].
    exists b0. split; [reflexivity|]. split; [intros e He; inversion He|].
    intros b1 [=]; congruence.
  - rewrite getEntityInfo_eq, bind_Ok.
    destruct (entityInfo p (entity_id e)) as [o|] eqn:Ho;
      [|intros [= <-]; discriminate].
    destruct (strict_eq (source o) (VStr "selected")) eqn:Hs; simpl;
      [|intros [= <-]; discriminate].
    apply strict_eq_str in Hs.
    destruct (Hwt e o (list_elem_of_here _ _) Ho Hs) as [b1 Hb1].
    assert (Hsel : o = selected b1) by (destruct o; simpl in *; subst; reflexivity).
    assert (Hwt' : forall e' i, e' ∈ es -> entityInfo p (entity_id e') = Some i ->
              source i = VStr "selected" -> exists b, expose i = VBool b)
      by (intros e' i He'; apply Hwt; right; exact He').
    destruct Hfv as [-> | [b0 ->]]; simpl.
    + rewrite Hb1. intros Hscan Hag.
      destruct (IH (VBool b1) Hwt' (or_intror (ex_intro _ b1 eq_refl)) Hscan Hag)
        as (b & Hfv' & Hall & Hb).
      pose proof (Hb b1 eq_refl) as ->.
      exists b1. split; [exact Hfv'|]. split; [|intros b0 [=]].
      intros e' He'. apply elem_of_cons in He' as [-> | He'];
        [congruence | apply Hall; exact He'].
    + rewrite Hb1. simpl.
      destruct (Bool.eqb b1 b0) eqn:Hb; simpl; [|intros [= <-]; discriminate].
      apply Bool.eqb_prop in Hb. subst b1.
      intros Hscan Hag.
      destruct (IH (VBool b0) Hwt' (or_intror (ex_intro _ b0 eq_refl)) Hscan Hag)
        as (b & Hfv' & Hall & Hbb).
      pose proof (Hbb b0 eq_refl) as ->.
      exists b0. split; [exact Hfv'|]. split; [|intros b1 [=]; congruence].
      intros e' He'. apply elem_of_cons in He' as [-> | He'];
        [congruence | apply Hall; exact He'].
Qed.

(** The recompute returns, and writes at most the device's own key. *)
Lemma recalculate_shape d p :
  exists m',
    _recalculateDeviceState d p
    = Ok (with_config (set_device_overrides m' (_pendingConfig p)) p)
    /\ (forall d', d' <> d -> m' !! d' = device_overrides (_pendingConfig p) !! d')
    /\ (activeEntities d p = [] -> m' = device_overrides (_pendingConfig p))
    /\ (source_is (deviceInfo p d) "selected" = true ->
        m' = device_overrides (_pendingConfig p)).
Proof.
  unfold _recalculateDeviceState.
  assert (Hid : Ok p = Ok (with_config
             (set_device_overrides (device_overrides (_pendingConfig p))
                                   (_pendingConfig p)) p))
    by (rewrite set_device_overrides_same, with_config_same; reflexivity).
  destruct (activeEntities d p) as [|e0 es] eqn:Hact; simpl.
  { exists (device_overrides (_pendingConfig p)). rewrite Hid at 1. auto. }
  rewrite getDeviceInfo_eq, bind_Ok.
  destruct (source_is (deviceInfo p d) "selected") eqn:Hsel.
  { exists (device_overrides (_pendingConfig p)). rewrite Hid at 1. auto. }
  destruct (scan_loop_returns p (e0 :: es)
              {| allSelected := true; allSameValue := true; firstValue := VNull |})
    as [st Hst].
  simpl in Hst. rewrite Hst, bind_Ok.
  eexists. split; [reflexivity|]. split; [|split; [discriminate|discriminate]].
  intros d' Hd'.
  destruct (allSelected st && allSameValue st
            && negb (strict_eq (firstValue st) VNull)).
  - rewrite lookup_insert_ne by congruence. reflexivity.
  - destruct (source_is (deviceInfo p d) "implied").
    + rewrite lookup_delete_ne by congruence. reflexivity.
    + reflexivity.
Qed.

Lemma not_source_is_false p d s :
  ~ device_source_is p d s -> source_is (deviceInfo p d) s = false.
Proof.
  intros H. destruct (source_is (deviceInfo p d) s) eqn:E; [|reflexivity].
  exfalso. apply H, device_source_is_iff, E.
Qed.

(** C3, for a device with at least one non-filtered owned entity: a selected
    device is left as it is; otherwise, if every non-filtered owned entity
    is selected with the same value the device becomes implied with that
    value, and if not an implied device override is removed and an absent
    one stays absent. *)
Theorem recalculate_device_state (p : Panel) (d : string) :
  activeEntities d p <> [] ->
  exists p', _recalculateDeviceState d p = Ok p'
    /\ (device_source_is p d "selected" -> p' = p)
    /\ (~ device_source_is p d "selected" ->
        (forall b, all_active_selected p d b ->
           device_overrides (_pendingConfig p') !! d
           = Some (override_obj (VBool b) (VStr "implied")))
        /\ (boolean_exposes p d ->
            ~ (exists b, all_active_selected p d b) ->
            (device_source_is p d "implied" ->
               device_overrides (_pendingConfig p') !! d = None)
            /\ (device_overrides (_pendingConfig p) !! d = None ->
               device_overrides (_pendingConfig p') !! d = None))).
Proof.
  intros Hne. unfold _recalculateDeviceState.
  destruct (activeEntities d p) as [|e0 es] eqn:Hact; [contradiction|].
  cbn [length Nat.eqb]. rewrite getDeviceInfo_eq, bind_Ok.
  destruct (source_is (deviceInfo p d) "selected") eqn:Hsel.
  { exists p. split; [reflexivity|]. split; [reflexivity|].
    intros Hn. exfalso. apply Hn, device_source_is_iff, Hsel. }
  destruct (scan_loop_returns p (e0 :: es)
              {| allSelected := true; allSameValue := true; firstValue := VNull |})
    as [st Hst].
  rewrite Hst, bind_Ok. eexists. split; [reflexivity|]. split.
  { intros Hs. apply device_source_is_iff in Hs. congruence. }
  intros _. cbn [_pendingConfig with_config device_overrides set_device_overrides].
  split.
  - intros b Hall.
    assert (Hall' : forall e, e ∈ e0 :: es ->
              entityInfo p (entity_id e) = Some (selected b)).
    { intros e He. specialize (Hall e). rewrite Hact in Hall.
      specialize (Hall He). rewrite getEntityInfo_eq in Hall. congruence. }
    rewrite (scan_loop_agree p b (e0 :: es) VNull Hall' (or_introl eq_refl)) in Hst.
    injection Hst as <-. cbn. apply lookup_insert_eq.
  - intros Hwt Hno.
    assert (Hag : agreed st = false).
    { destruct (agreed st) eqn:Hag; [|reflexivity]. exfalso. apply Hno.
      destruct (scan_loop_agreed_inv p (e0 :: es) VNull st) as (b & _ & Hall & _).
      - intros e i He Hi Hs. apply (Hwt e i).
        + rewrite Hact. exact He.
        + rewrite getEntityInfo_eq. congruence.
        + exact Hs.
      - left. reflexivity.
      - exact Hst.
      - exact Hag.
      - exists b. intros e He. rewrite Hact in He.
        rewrite getEntityInfo_eq. f_equal. apply Hall, He. }
    unfold agreed in Hag. rewrite Hag. split.
    + intros Himp. apply device_source_is_iff in Himp. rewrite Himp.
      apply lookup_delete_eq.
    + intros Hnone. destruct (source_is (deviceInfo p d) "implied");
        [apply lookup_delete_eq | exact Hnone].
Qed.

Lemma active_panel_agree : activeEntities "d1" panel_agree = [e1; e2].
Proof. vm_compute. reflexivity. Qed.

Lemma active_panel_mixed : activeEntities "d1" panel_mixed = [e1; e2].
Proof. vm_compute. reflexivity. Qed.

Lemma active_panel_all_filtered : activeEntities "d1" panel_all_filtered = [].
Proof. vm_compute. reflexivity. Qed.

Lemma elem_of_pair {A} (x a b : A) : x ∈ [a; b] -> x = a \/ x = b.
Proof.
  intros H. apply elem_of_cons in H as [-> | H]; [left; reflexivity|].
  apply elem_of_cons in H as [-> | H]; [right; reflexivity | inversion H].
Qed.

(** On [panel_agree] the device becomes implied for exposure; on
    [panel_mixed] its implied override is removed. *)
Lemma recalculate_device_state_witness :
  activeEntities "d1" panel_agree <> []
  /\ (exists p', _recalculateDeviceState "d1" panel_agree = Ok p'
        /\ device_overrides (_pendingConfig p') !! "d1" = Some (stored_implied true))
  /\ (exists p', _recalculateDeviceState "d1" panel_mixed = Ok p'
        /\ device_overrides (_pendingConfig p') !! "d1" = None).
Proof.
  assert (N1 : activeEntities "d1" panel_agree <> [])
    by (rewrite active_panel_agree; discriminate).
  assert (N2 : activeEntities "d1" panel_mixed <> [])
    by (rewrite active_panel_mixed; discriminate).
  split; [exact N1|]. split.
  - destruct (recalculate_device_state panel_agree "d1" N1) as (p' & E & _ & H).
    exists p'. split; [exact E|].
    assert (Hn : ~ device_source_is panel_agree "d1" "selected").
    { intros Hs. apply device_source_is_iff in Hs. vm_compute in Hs. discriminate. }
    destruct (H Hn) as [Himp _]. apply Himp.
    intros e He. rewrite active_panel_agree in He.
    destruct (elem_of_pair _ _ _ He) as [-> | ->]; reflexivity.
  - destruct (recalculate_device_state panel_mixed "d1" N2) as (p' & E & _ & H).
    exists p'. split; [exact E|].
    assert (Hn : ~ device_source_is panel_mixed "d1" "selected").
    { intros Hs. apply device_source_is_iff in Hs. vm_compute in Hs. discriminate. }
    destruct (H Hn) as [_ Hother].
    assert (Hwt : boolean_exposes panel_mixed "d1").
    { intros e i He Hi _. rewrite active_panel_mixed in He.
      destruct (elem_of_pair _ _ _ He) as [-> | ->];
        vm_compute in Hi; injection Hi as <-; eexists; reflexivity. }
    assert (Hno : ~ (exists b, all_active_selected panel_mixed "d1" b)).
    { intros [b Hall].
      assert (H1 := Hall e1). assert (H2 := Hall e2).
      rewrite active_panel_mixed in H1, H2.
      specialize (H1 (list_elem_of_here _ _)).
      specialize (H2 (list_elem_of_further _ _ _ (list_elem_of_here _ _))).
      vm_compute in H1, H2. destruct b; discriminate. }
    destruct (Hother Hwt Hno) as [Hrem _]. apply Hrem.
    apply device_source_is_iff. vm_compute. reflexivity.
Defined.

(** C3 fails on a device whose owned entities are all filtered: the implied
    device override is neither rewritten to the (vacuously) agreed value nor
    removed; the recompute returns the panel as it was. *)
Lemma recompute_claim_fails_without_active_entities :
  activeEntities "d1" panel_all_filtered = []
  /\ device_source_is panel_all_filtered "d1" "implied"
  /\ _recalculateDeviceState "d1" panel_all_filtered = Ok panel_all_filtered
  /\ device_overrides (_pendingConfig panel_all_filtered) !! "d1"
     = Some (stored_implied true)
  /\ ~ recompute_claim_as_stated panel_all_filtered "d1".
Proof.
  split; [apply active_panel_all_filtered|].
  split; [apply device_source_is_iff; vm_compute; reflexivity|].
  split; [reflexivity|]. split; [reflexivity|].
  intros (p' & E & _ & H).
  assert (E' : _recalculateDeviceState "d1" panel_all_filtered = Ok panel_all_filtered)
    by reflexivity.
  rewrite E' in E. injection E as <-.
  assert (Hn : ~ device_source_is panel_all_filtered "d1" "selected").
  { intros Hs. apply device_source_is_iff in Hs. vm_compute in Hs. discriminate. }
  destruct (H Hn) as [Himp _].
  assert (Hvac : all_active_selected panel_all_filtered "d1" false).
  { intros e He. rewrite active_panel_all_filtered in He. inversion He. }
  specialize (Himp false Hvac). vm_compute in Himp. discriminate.
Qed.

(** ** The entity button *)

Lemma all_owned_filtered_active p d :
  all_owned_filtered p d -> activeEntities d p = [].
Proof.
  unfold all_owned_filtered, activeEntities, deviceEntities.
  generalize (_entities p) as l.
  induction l as [|e es IH]; intros H; [reflexivity|].
  simpl. unfold owned_by at 1. case_bool_decide as Hd; simpl.
  - unfold _isEntityFiltered at 1.
    rewrite bool_decide_eq_true_2 by (apply H; [left | exact Hd]).
    simpl. apply IH. intros e' He'. apply H. right. exact He'.
  - apply IH. intros e' He'. apply H. right. exact He'.
Qed.

Lemma setEntityOverride_shape e x p :
  exists m',
    _setEntityOverride e x "selected" p
    = Ok (mark_changed (with_config
            (set_device_overrides m'
               (set_entity_overrides
                  match x with
                  | None => delete e (entity_overrides (_pendingConfig p))
                  | Some b => <[e := stored_selected b]>
                                (entity_overrides (_pendingConfig p))
                  end (_pendingConfig p))) p))
    /\ (forall d', owner e p <> Some d' ->
          m' !! d' = device_overrides (_pendingConfig p) !! d')
    /\ (forall d, owner e p = Some d -> activeEntities d p = [] ->
          m' = device_overrides (_pendingConfig p))
    /\ (forall d, owner e p = Some d ->
          source_is (deviceInfo p d) "selected" = true ->
          m' = device_overrides (_pendingConfig p)).
Proof.
  unfold _setEntityOverride.
  set (p1 := with_config (set_entity_overrides _ (_pendingConfig p)) p).
  change (owner e p1) with (owner e p).
  destruct (owner e p) as [d|] eqn:Ho.
  - destruct (recalculate_shape d p1) as (m' & E & Hother & Hact & Hsel).
    rewrite E, bind_Ok. exists m'. split; [reflexivity|].
    split; [|split].
    + intros d' Hd'. apply Hother. congruence.
    + intros d0 [= <-]. exact Hact.
    + intros d0 [= <-]. exact Hsel.
  - rewrite bind_Ok. exists (device_overrides (_pendingConfig p)).
    split; [|split; [reflexivity | split; discriminate]].
    subst p1. destruct p as [es [eo do fe fd ec aa] pe hc]. reflexivity.
Qed.

Lemma entity_click_shape e b p :
  exists m',
    _handleEntityButtonClick e b p
    = Ok (mark_changed (with_config
            (set_device_overrides m'
               (set_entity_overrides (clicked_entity_overrides e b p)
                                     (_pendingConfig p))) p))
    /\ (forall d', owner e p <> Some d' ->
          m' !! d' = device_overrides (_pendingConfig p) !! d')
    /\ (forall d, owner e p = Some d -> activeEntities d p = [] ->
          m' = device_overrides (_pendingConfig p))
    /\ (forall d, owner e p = Some d ->
          source_is (deviceInfo p d) "selected" = true ->
          m' = device_overrides (_pendingConfig p)).
Proof.
  unfold _handleEntityButtonClick, clicked_entity_overrides.
  rewrite getEntityInfo_eq, bind_Ok.
  destruct (expose_is (entityInfo p e) b && source_is (entityInfo p e) "selected").
  - apply (setEntityOverride_shape e None p).
  - apply (setEntityOverride_shape e (Some b) p).
Qed.

(** C8: a device all of whose owned entities are filtered is left exactly as
    it was by the recompute (the whole panel is), and so a button click on
    any of its entities leaves the device overrides as they were. *)
Theorem recalculate_noop_when_all_filtered (p : Panel) (d : string) :
  all_owned_filtered p d ->
  _recalculateDeviceState d p = Ok p
  /\ forall e b, owner e p = Some d ->
       exists p', _handleEntityButtonClick e b p = Ok p'
         /\ device_overrides (_pendingConfig p') = device_overrides (_pendingConfig p).
Proof.
  intros H. pose proof (all_owned_filtered_active p d H) as Hact. split.
  - unfold _recalculateDeviceState. rewrite Hact. reflexivity.
  - intros e b Ho.
    destruct (entity_click_shape e b p) as (m' & E & _ & Hnoop & _).
    eexists. split; [exact E|]. cbn. apply (Hnoop d Ho Hact).
Qed.

Lemma recalculate_noop_when_all_filtered_witness :
  all_owned_filtered panel_all_filtered "d1"
  /\ _recalculateDeviceState "d1" panel_all_filtered = Ok panel_all_filtered
  /\ exists p', _handleEntityButtonClick "light.e1" true panel_all_filtered = Ok p'
       /\ device_overrides (_pendingConfig p')
          = device_overrides (_pendingConfig panel_all_filtered).
Proof.
  assert (H : all_owned_filtered panel_all_filtered "d1").
  { intros e He _. cbn in He.
    destruct (elem_of_pair _ _ _ He) as [-> | ->]; cbn.
    - left.
    - right. left. }
  split; [exact H|].
  destruct (recalculate_noop_when_all_filtered panel_all_filtered "d1" H) as [R C].
  split; [exact R|]. apply C. reflexivity.
Defined.

Lemma stored_lookup (m : gmap string val) k v : m !! k = Some v -> stored m k = v.
Proof. unfold stored. intros ->. reflexivity. Qed.

Lemma stored_lookup_None (m : gmap string val) k : m !! k = None -> stored m k = VUndef.
Proof. unfold stored. intros ->. reflexivity. Qed.

(** C4: the entity button toggles.  If the entity is selected with the
    clicked value its override is removed; in every other state it becomes
    selected with the clicked value. *)
Theorem entity_button_toggles (p : Panel) (e : string) (b : bool) :
  exists cur p',
    _getEntityOverrideInfo e p = Ok cur
    /\ _handleEntityButtonClick e b p = Ok p'
    /\ (cur = Some (selected b) ->
        entity_overrides (_pendingConfig p') !! e = None
        /\ _getEntityOverrideInfo e p' = Ok None)
    /\ (cur <> Some (selected b) ->
        entity_overrides (_pendingConfig p') !! e = Some (stored_selected b)
        /\ _getEntityOverrideInfo e p' = Ok (Some (selected b))).
Proof.
  destruct (entity_click_shape e b p) as (m' & E & _).
  exists (entityInfo p e). eexists.
  split; [apply getEntityInfo_eq|]. split; [exact E|].
  unfold _getEntityOverrideInfo. rewrite overrideInfo_eq.
  read_fields.
  unfold clicked_entity_overrides. split.
  - intros Hsel. apply is_selected_iff in Hsel. rewrite Hsel.
    rewrite (stored_lookup_None _ _ (lookup_delete_eq _ _)).
    split; [apply lookup_delete_eq | reflexivity].
  - intros Hn.
    destruct (expose_is (entityInfo p e) b && source_is (entityInfo p e) "selected")
      eqn:Hc; [apply is_selected_iff in Hc; contradiction|].
    rewrite (stored_lookup _ _ _ (lookup_insert_eq _ _ _)).
    split; [apply lookup_insert_eq | destruct b; reflexivity].
Qed.

(** Clicking "expose" on a selected-exposed entity clears it; clicking
    "exclude" on it selects the exclusion. *)
Lemma entity_button_toggles_witness :
  (exists p', _handleEntityButtonClick "light.e1" true panel_agree = Ok p'
     /\ entity_overrides (_pendingConfig p') !! "light.e1" = None)
  /\ (exists p', _handleEntityButtonClick "light.e1" false panel_agree = Ok p'
     /\ entity_overrides (_pendingConfig p') !! "light.e1" = Some (stored_selected false)).
Proof.
  split.
  - destruct (entity_button_toggles panel_agree "light.e1" true)
      as (cur & p' & Hcur & E & Hoff & _).
    exists p'. split; [exact E|]. apply Hoff.
    vm_compute in Hcur. injection Hcur as <-. reflexivity.
  - destruct (entity_button_toggles panel_agree "light.e1" false)
      as (cur & p' & Hcur & E & _ & Hon).
    exists p'. split; [exact E|]. apply Hon.
    vm_compute in Hcur. injection Hcur as <-. discriminate.
Defined.

(** C9: a click on an entity leaves the override of every other entity and
    of every device other than the entity's owner as it was. *)
Theorem entity_button_frame (p : Panel) (e : string) (b : bool) :
  exists p',
    _handleEntityButtonClick e b p = Ok p'
    /\ (forall e', e' <> e ->
          entity_overrides (_pendingConfig p') !! e'
          = entity_overrides (_pendingConfig p) !! e')
    /\ (forall d', owner e p <> Some d' ->
          device_overrides (_pendingConfig p') !! d'
          = device_overrides (_pendingConfig p) !! d').
Proof.
  destruct (entity_click_shape e b p) as (m' & E & Hother & _).
  eexists. split; [exact E|].
  read_fields.
  split; [|exact Hother].
  intros e' Hne. unfold clicked_entity_overrides.
  destruct (expose_is (entityInfo p e) b && source_is (entityInfo p e) "selected").
  - apply lookup_delete_ne. congruence.
  - apply lookup_insert_ne. congruence.
Qed.

Lemma entity_button_frame_witness :
  exists p', _handleEntityButtonClick "light.e1" true panel_two_devices = Ok p'
    /\ entity_overrides (_pendingConfig p') !! "switch.e3"
       = Some (stored_implied false)
    /\ device_overrides (_pendingConfig p') !! "d2" = Some (stored_selected false).
Proof.
  destruct (entity_button_frame panel_two_devices "light.e1" true)
    as (p' & E & He & Hd).
  exists p'. split; [exact E|]. split.
  - rewrite He by discriminate. reflexivity.
  - rewrite Hd by (vm_compute; discriminate). reflexivity.
Defined.

(** ** Downward propagation *)

Lemma propagated_idem x cur old :
  propagated x cur (propagated x cur old) = propagated x cur old.
Proof.
  unfold propagated. destruct x.
  - destruct (negb (bool_decide (is_Some cur)) || source_is cur "implied"); reflexivity.
  - destruct (source_is cur "implied"); reflexivity.
Qed.

Lemma propagate_loop_cons p x e es m :
  propagate_loop p x (e :: es) m = propagate_loop p x es (propagate_step p x e m).
Proof.
  simpl. unfold propagate_step, propagated.
  destruct (_isEntityFiltered (entity_id e) p); [reflexivity|].
  rewrite getEntityInfo_eq, bind_Ok.
  destruct x as [b|].
  - destruct (negb (bool_decide (is_Some (entityInfo p (entity_id e))))
              || source_is (entityInfo p (entity_id e)) "implied"); [reflexivity|].
    destruct (m !! entity_id e) as [v|] eqn:Hm.
    + rewrite insert_id by exact Hm. reflexivity.
    + rewrite delete_id by exact Hm. reflexivity.
  - destruct (source_is (entityInfo p (entity_id e)) "implied"); [reflexivity|].
    destruct (m !! entity_id e) as [v|] eqn:Hm.
    + rewrite insert_id by exact Hm. reflexivity.
    + rewrite delete_id by exact Hm. reflexivity.
Qed.

Lemma propagate_step_lookup p x e m k :
  propagate_step p x e m !! k
  = if bool_decide (k = entity_id e) && negb (_isEntityFiltered k p)
    then propagated x (entityInfo p k) (m !! k) else m !! k.
Proof.
  unfold propagate_step. case_bool_decide as Hk; simpl.
  - subst k. destruct (_isEntityFiltered (entity_id e) p); simpl; [reflexivity|].
    destruct (propagated x _ _) as [v|].
    + apply lookup_insert_eq.
    + apply lookup_delete_eq.
  - destruct (_isEntityFiltered (entity_id e) p); [reflexivity|].
    destruct (propagated x _ _) as [v|].
    + apply lookup_insert_ne. congruence.
    + apply lookup_delete_ne. congruence.
Qed.

Lemma propagate_loop_spec p x es m :
  exists m', propagate_loop p x es m = Ok m'
    /\ forall k, m' !! k
       = if targeted p es k then propagated x (entityInfo p k) (m !! k) else m !! k.
Proof.
  revert m. induction es as [|e es IH]; intros m.
  - exists m. split; [reflexivity|]. intros k. reflexivity.
  - rewrite propagate_loop_cons.
    destruct (IH (propagate_step p x e m)) as (m' & E & Hm').
    exists m'. split; [exact E|]. intros k.
    rewrite Hm', propagate_step_lookup. unfold targeted. simpl List.map.
    destruct (_isEntityFiltered k p); simpl.
    { rewrite !andb_false_r. reflexivity. }
    rewrite !andb_true_r.
    destruct (decide (k = entity_id e)) as [->|Hne].
    + rewrite (bool_decide_eq_true_2 (entity_id e = entity_id e)) by reflexivity.
      rewrite (bool_decide_eq_true_2 (entity_id e ∈ entity_id e :: _)) by left.
      rewrite propagated_idem.
      destruct (bool_decide (entity_id e ∈ List.map entity_id es)); reflexivity.
    + rewrite (bool_decide_eq_false_2 (k = entity_id e)) by exact Hne.
      destruct (decide (k ∈ List.map entity_id es)) as [Hin|Hnin].
      * rewrite !bool_decide_eq_true_2; [reflexivity | right; exact Hin | exact Hin].
      * rewrite !bool_decide_eq_false_2; [reflexivity | | exact Hnin].
        intros Hc. apply elem_of_cons in Hc as [?|?]; contradiction.
Qed.

Lemma targeted_iff p d k :
  targeted p (deviceEntities d p) k = true <-> propagation_target p d k.
Proof.
  unfold targeted, propagation_target, deviceEntities, _isEntityFiltered.
  rewrite andb_true_iff, negb_true_iff, bool_decide_eq_true, bool_decide_eq_false.
  rewrite list_elem_of_fmap.
  split; intros [Hin Hf]; (split; [|exact Hf]).
  - destruct Hin as (e & -> & He). apply list_elem_of_In, filter_In in He.
    destruct He as [He Ho]. exists e. split; [apply list_elem_of_In, He|].
    split; [|reflexivity]. unfold owned_by in Ho.
    apply bool_decide_eq_true in Ho. exact Ho.
  - destruct Hin as (e & He & Hd & <-). exists e. split; [reflexivity|].
    apply list_elem_of_In, filter_In. split; [apply list_elem_of_In, He|].
    unfold owned_by. apply bool_decide_eq_true. exact Hd.
Qed.

Lemma propagate_shape d x src p :
  exists m',
    _propagateDeviceToEntities d x src p
    = Ok (with_config (set_entity_overrides m' (_pendingConfig p)) p)
    /\ forall k, m' !! k
       = if targeted p (deviceEntities d p) k
         then propagated x (entityInfo p k) (entity_overrides (_pendingConfig p) !! k)
         else entity_overrides (_pendingConfig p) !! k.
Proof.
  unfold _propagateDeviceToEntities.
  destruct (propagate_loop_spec p x (deviceEntities d p)
              (entity_overrides (_pendingConfig p))) as (m' & E & H).
  rewrite E, bind_Ok. exists m'. split; [reflexivity | exact H].
Qed.

Lemma device_click_shape d b p :
  exists m',
    _handleDeviceButtonClick d b p
    = Ok (mark_changed (with_config
            (set_entity_overrides m'
               (set_device_overrides (clicked_device_overrides d b p)
                                     (_pendingConfig p))) p))
    /\ forall k, m' !! k
       = if targeted p (deviceEntities d p) k
         then propagated (clicked_device_target d b p) (entityInfo p k)
                (entity_overrides (_pendingConfig p) !! k)
         else entity_overrides (_pendingConfig p) !! k.
Proof.
  unfold _handleDeviceButtonClick, clicked_device_overrides, clicked_device_target,
    device_selected_with.
  rewrite getDeviceInfo_eq, bind_Ok.
  destruct (expose_is (deviceInfo p d) b && source_is (deviceInfo p d) "selected");
    unfold _setDeviceOverride;
    match goal with
    | |- context [_propagateDeviceToEntities d ?x ?s ?p1] =>
        destruct (propagate_shape d x s p1) as (m' & E & H);
        rewrite E, bind_Ok; exists m'; split; [reflexivity | exact H]
    end.
Qed.

(** C2: the device button.  Clicking the value the device is already
    selected with removes the device override and clears every non-filtered
    owned entity that is implied; any other click selects the device with
    the clicked value and makes every non-filtered owned entity that is
    unset or implied implied with that value.  Selected entities are never
    written. *)
Theorem device_button_propagates (p : Panel) (d : string) (b : bool) :
  exists cur p',
    _getDeviceOverrideInfo d p = Ok cur
    /\ _handleDeviceButtonClick d b p = Ok p'
    /\ (cur = Some (selected b) ->
        device_overrides (_pendingConfig p') !! d = None
        /\ forall k, propagation_target p d k -> entity_source_is p k "implied" ->
             entity_overrides (_pendingConfig p') !! k = None)
    /\ (cur <> Some (selected b) ->
        device_overrides (_pendingConfig p') !! d = Some (stored_selected b)
        /\ forall k, propagation_target p d k ->
             _getEntityOverrideInfo k p = Ok None \/ entity_source_is p k "implied" ->
             entity_overrides (_pendingConfig p') !! k = Some (stored_implied b))
    /\ (forall k, entity_source_is p k "selected" ->
          entity_overrides (_pendingConfig p') !! k
          = entity_overrides (_pendingConfig p) !! k)
    /\ (forall k, ~ propagation_target p d k ->
          entity_overrides (_pendingConfig p') !! k
          = entity_overrides (_pendingConfig p) !! k).
Proof.
  destruct (device_click_shape d b p) as (m' & E & Hm').
  exists (deviceInfo p d). eexists.
  split; [apply getDeviceInfo_eq|]. split; [exact E|].
  read_fields.
  unfold clicked_device_overrides, clicked_device_target in *.
  split; [|split; [|split]].
  - intros Hsel. apply is_selected_iff in Hsel.
    fold (device_selected_with p d b) in Hsel. rewrite Hsel in *.
    split; [apply lookup_delete_eq|].
    intros k Ht Himp. rewrite Hm'.
    apply targeted_iff in Ht. rewrite Ht.
    apply entity_source_is_iff in Himp. simpl. rewrite Himp. reflexivity.
  - intros Hn.
    destruct (device_selected_with p d b) eqn:Hc;
      [apply is_selected_iff in Hc; contradiction|].
    split; [apply lookup_insert_eq|].
    intros k Ht Hcur. rewrite Hm'.
    apply targeted_iff in Ht. rewrite Ht. simpl.
    destruct Hcur as [Hnone | Himp].
    + rewrite getEntityInfo_eq in Hnone. injection Hnone as ->. reflexivity.
    + apply entity_source_is_iff in Himp. rewrite Himp, orb_true_r. reflexivity.
  - intros k Hsel. rewrite Hm'.
    destruct (targeted p (deviceEntities d p) k); [|reflexivity].
    apply entity_source_is_iff, source_is_true in Hsel.
    destruct Hsel as (o & Ho & Hs). rewrite Ho.
    unfold propagated, source_is. rewrite Hs.
    rewrite (bool_decide_eq_true_2 (is_Some (Some o))) by eauto.
    destruct (device_selected_with p d b); reflexivity.
  - intros k Hnt. rewrite Hm'.
    destruct (targeted p (deviceEntities d p) k) eqn:Ht; [|reflexivity].
    apply targeted_iff in Ht. contradiction.
Qed.

Lemma target_e2 (eo do : gmap string val) :
  propagation_target (panel_of [e1; e2] eo do [] []) "d1" "light.e2".
Proof.
  split.
  - exists e2. split; [right; left|]. split; reflexivity.
  - cbn. apply not_elem_of_nil.
Qed.

Lemma device_button_propagates_witness :
  (exists p', _handleDeviceButtonClick "d1" false panel_scenario = Ok p'
     /\ device_overrides (_pendingConfig p') !! "d1" = Some (stored_selected false)
     /\ entity_overrides (_pendingConfig p') !! "light.e2" = Some (stored_implied false)
     /\ entity_overrides (_pendingConfig p') !! "light.e1" = Some (stored_selected true))
  /\ (exists p', _handleDeviceButtonClick "d1" false panel_device_selected = Ok p'
     /\ device_overrides (_pendingConfig p') !! "d1" = None
     /\ entity_overrides (_pendingConfig p') !! "light.e2" = None
     /\ entity_overrides (_pendingConfig p') !! "light.e1" = Some (stored_selected true)).
Proof.
  split.
  - destruct (device_button_propagates panel_scenario "d1" false)
      as (cur & p' & Hcur & E & _ & Hset & Hsel & _).
    exists p'. split; [exact E|].
    assert (Hn : cur <> Some (selected false))
      by (vm_compute in Hcur; injection Hcur as <-; discriminate).
    destruct (Hset Hn) as [Hd He]. split; [exact Hd|]. split.
    + apply He; [apply target_e2 | left; reflexivity].
    + rewrite Hsel; [reflexivity|].
      eexists. split; [reflexivity | reflexivity].
  - destruct (device_button_propagates panel_device_selected "d1" false)
      as (cur & p' & Hcur & E & Hoff & _ & Hsel & _).
    exists p'. split; [exact E|].
    assert (Hc : cur = Some (selected false))
      by (vm_compute in Hcur; injection Hcur as <-; reflexivity).
    destruct (Hoff Hc) as [Hd He]. split; [exact Hd|]. split.
    + apply He; [apply target_e2 |].
      eexists. split; [reflexivity | reflexivity].
    + rewrite Hsel; [reflexivity|].
      eexists. split; [reflexivity | reflexivity].
Defined.

(** A bare [false] stored for an entity reads as unset, so propagation
    treats it as unset too and writes an implied override over it. *)
Lemma legacy_false_overwritten_by_propagation :
  exists p',
    _handleDeviceButtonClick "d1" true
      (panel_of [e1] {["light.e1" := VBool false]} ∅ [] []) = Ok p'
    /\ entity_overrides (_pendingConfig p') !! "light.e1" = Some (stored_implied true).
Proof. eexists. split; [vm_compute; reflexivity | reflexivity]. Qed.

(** ** Selected overrides under propagation *)

Lemma propagated_selected x cur old :
  source_is cur "selected" = true -> propagated x cur old = old.
Proof.
  intros H. apply source_is_true in H as (o & -> & Hs).
  unfold propagated, source_is. rewrite Hs.
  rewrite (bool_decide_eq_true_2 (is_Some (Some o))) by eauto.
  destruct x; reflexivity.
Qed.

Lemma entity_source_is_lookup p p' k s :
  entity_overrides (_pendingConfig p') !! k = entity_overrides (_pendingConfig p) !! k ->
  entity_source_is p k s -> entity_source_is p' k s.
Proof.
  unfold entity_source_is, _getEntityOverrideInfo, stored. intros ->. auto.
Qed.

Lemma device_source_is_lookup p p' k s :
  device_overrides (_pendingConfig p') !! k = device_overrides (_pendingConfig p) !! k ->
  device_source_is p k s -> device_source_is p' k s.
Proof.
  unfold device_source_is, _getDeviceOverrideInfo, stored. intros ->. auto.
Qed.

Lemma propagate_preserves_selected p d x src :
  exists p', _propagateDeviceToEntities d x src p = Ok p'
    /\ device_overrides (_pendingConfig p') = device_overrides (_pendingConfig p)
    /\ forall k, entity_source_is p k "selected" ->
         entity_overrides (_pendingConfig p') !! k
         = entity_overrides (_pendingConfig p) !! k.
Proof.
  destruct (propagate_shape d x src p) as (m' & E & Hm').
  eexists. split; [exact E|]. split; [reflexivity|].
  intros k Hsel. cbn. rewrite Hm'.
  destruct (targeted p (deviceEntities d p) k); [|reflexivity].
  apply propagated_selected, entity_source_is_iff, Hsel.
Qed.

Lemma recalculate_preserves_selected p d :
  exists p', _recalculateDeviceState d p = Ok p'
    /\ entity_overrides (_pendingConfig p') = entity_overrides (_pendingConfig p)
    /\ forall k, device_source_is p k "selected" ->
         device_overrides (_pendingConfig p') !! k
         = device_overrides (_pendingConfig p) !! k.
Proof.
  destruct (recalculate_shape d p) as (m' & E & Hother & _ & Hsel).
  eexists. split; [exact E|]. split; [reflexivity|].
  intros k Hk. cbn. destruct (decide (k = d)) as [->|Hne].
  - rewrite Hsel; [reflexivity|]. apply device_source_is_iff, Hk.
  - apply Hother, Hne.
Qed.

Lemma apply_edit_preserves_selected ed p :
  exists p', apply_edit ed p = Ok p'
    /\ (forall k, entity_source_is p k "selected" ->
          (forall b, ed <> EntityClick k b) ->
          entity_overrides (_pendingConfig p') !! k
          = entity_overrides (_pendingConfig p) !! k)
    /\ (forall k, device_source_is p k "selected" ->
          (forall b, ed <> DeviceClick k b) ->
          device_overrides (_pendingConfig p') !! k
          = device_overrides (_pendingConfig p) !! k).
Proof.
  destruct ed as [e b | d b]; simpl.
  - destruct (entity_click_shape e b p) as (m' & E & Hother & _ & Hsel).
    eexists. split; [exact E|]. cbn. split.
    + intros k _ Hne. assert (k <> e) by (intros ->; apply (Hne b); reflexivity).
      unfold clicked_entity_overrides.
      destruct (expose_is _ _ && source_is _ _).
      * apply lookup_delete_ne. congruence.
      * apply lookup_insert_ne. congruence.
    + intros k Hk _. destruct (decide (owner e p = Some k)) as [Ho|Ho].
      * rewrite (Hsel k Ho); [reflexivity|]. apply device_source_is_iff, Hk.
      * apply Hother, Ho.
  - destruct (device_click_shape d b p) as (m' & E & Hm').
    eexists. split; [exact E|]. cbn. split.
    + intros k Hk _. rewrite Hm'.
      destruct (targeted p (deviceEntities d p) k); [|reflexivity].
      apply propagated_selected, entity_source_is_iff, Hk.
    + intros k _ Hne. assert (k <> d) by (intros ->; apply (Hne b); reflexivity).
      unfold clicked_device_overrides. destruct (device_selected_with p d b).
      * apply lookup_delete_ne. congruence.
      * apply lookup_insert_ne. congruence.
Qed.

(** C1: propagation never writes a selected override.  Downward propagation
    leaves every selected entity override (and every device override) as it
    was; the upward recompute leaves every selected device override (and
    every entity override) as it was; and along any sequence of button
    clicks an override that is selected stays exactly as stored as long as
    no click addresses that very entity or device. *)
Theorem selected_overrides_survive_propagation :
  (forall p d x src, exists p',
      _propagateDeviceToEntities d x src p = Ok p'
      /\ device_overrides (_pendingConfig p') = device_overrides (_pendingConfig p)
      /\ forall k, entity_source_is p k "selected" ->
           entity_overrides (_pendingConfig p') !! k
           = entity_overrides (_pendingConfig p) !! k)
  /\ (forall p d, exists p',
      _recalculateDeviceState d p = Ok p'
      /\ entity_overrides (_pendingConfig p') = entity_overrides (_pendingConfig p)
      /\ forall k, device_source_is p k "selected" ->
           device_overrides (_pendingConfig p') !! k
           = device_overrides (_pendingConfig p) !! k)
  /\ (forall eds p, exists p',
      run eds p = Ok p'
      /\ (forall k, entity_source_is p k "selected" ->
            (forall b, EntityClick k b ∉ eds) ->
            entity_overrides (_pendingConfig p') !! k
            = entity_overrides (_pendingConfig p) !! k)
      /\ (forall k, device_source_is p k "selected" ->
            (forall b, DeviceClick k b ∉ eds) ->
            device_overrides (_pendingConfig p') !! k
            = device_overrides (_pendingConfig p) !! k)).
Proof.
  split; [exact propagate_preserves_selected|].
  split; [exact recalculate_preserves_selected|].
  induction eds as [|ed eds IH]; intros p.
  - exists p. split; [reflexivity|]. split; reflexivity.
  - destruct (apply_edit_preserves_selected ed p) as (p1 & E1 & He1 & Hd1).
    destruct (IH p1) as (p' & E' & He' & Hd').
    exists p'. split; [simpl; rewrite E1; exact E'|]. split.
    + intros k Hk Hnot.
      assert (H1 : entity_overrides (_pendingConfig p1) !! k
                   = entity_overrides (_pendingConfig p) !! k).
      { apply He1; [exact Hk|]. intros b ->. apply (Hnot b). left. }
      rewrite <- H1. apply He'.
      * apply (entity_source_is_lookup p p1 k _ H1 Hk).
      * intros b Hin. apply (Hnot b). right. exact Hin.
    + intros k Hk Hnot.
      assert (H1 : device_overrides (_pendingConfig p1) !! k
                   = device_overrides (_pendingConfig p) !! k).
      { apply Hd1; [exact Hk|]. intros b ->. apply (Hnot b). left. }
      rewrite <- H1. apply Hd'.
      * apply (device_source_is_lookup p p1 k _ H1 Hk).
      * intros b Hin. apply (Hnot b). right. exact Hin.
Qed.

(** Along exclude-all, expose on the other entity, expose-all, the selected
    override of [light.e1] is never written. *)
Lemma selected_overrides_survive_propagation_witness :
  exists p',
    run [DeviceClick "d1" false; EntityClick "light.e2" true; DeviceClick "d1" true]
        panel_scenario = Ok p'
    /\ entity_overrides (_pendingConfig p') !! "light.e1" = Some (stored_selected true).
Proof.
  destruct selected_overrides_survive_propagation as (_ & _ & Hrun).
  destruct (Hrun [DeviceClick "d1" false; EntityClick "light.e2" true;
                  DeviceClick "d1" true] panel_scenario) as (p' & E & He & _).
  exists p'. split; [exact E|].
  rewrite He; [reflexivity | |].
  - eexists. split; [reflexivity | reflexivity].
  - intros b H. rewrite !elem_of_cons, elem_of_nil in H.
    destruct H as [H|[H|[H|H]]]; try discriminate H. exact H.
Defined.

(** ** Filtered devices *)

Lemma scan_loop_filtered_devices fd p es st :
  scan_loop (with_filtered_devices fd p) es st = scan_loop p es st.
Proof.
  revert st. induction es as [|e es IH]; intros st; [reflexivity|].
  simpl. change (_getEntityOverrideInfo (entity_id e) (with_filtered_devices fd p))
    with (_getEntityOverrideInfo (entity_id e) p).
  destruct (_getEntityOverrideInfo (entity_id e) p) as [[o|]|]; simpl; try reflexivity.
  destruct (negb (strict_eq (source o) (VStr "selected"))); [reflexivity|].
  destruct (strict_eq (firstValue st) VNull); [apply IH|].
  destruct (negb (strict_eq (expose o) (firstValue st))); [reflexivity | apply IH].
Qed.

Lemma recalculate_filtered_devices fd d p :
  _recalculateDeviceState d (with_filtered_devices fd p)
  = p' ← _recalculateDeviceState d p; Ok (with_filtered_devices fd p').
Proof.
  unfold _recalculateDeviceState.
  change (activeEntities d (with_filtered_devices fd p)) with (activeEntities d p).
  destruct (length (activeEntities d p) =? 0)%nat; [reflexivity|].
  change (_getDeviceOverrideInfo d (with_filtered_devices fd p))
    with (_getDeviceOverrideInfo d p).
  destruct (_getDeviceOverrideInfo d p) as [deviceOverride|]; [|reflexivity].
  rewrite !bind_Ok.
  destruct (source_is deviceOverride "selected"); [reflexivity|].
  rewrite scan_loop_filtered_devices.
  destruct (scan_loop p (activeEntities d p) _) as [st|]; reflexivity.
Qed.

Lemma setEntityOverride_filtered_devices fd e x src p :
  _setEntityOverride e x src (with_filtered_devices fd p)
  = p' ← _setEntityOverride e x src p; Ok (with_filtered_devices fd p').
Proof.
  set (m := match x with
            | Some b => <[e := override_obj (VBool b) (VStr src)]>
                          (entity_overrides (_pendingConfig p))
            | None => delete e (entity_overrides (_pendingConfig p))
            end).
  set (p1 := with_config (set_entity_overrides m (_pendingConfig p)) p).
  change (_setEntityOverride e x src (with_filtered_devices fd p))
    with (p2 ← match owner e p with
               | Some d => _recalculateDeviceState d (with_filtered_devices fd p1)
               | None => Ok (with_filtered_devices fd p1)
               end; Ok (mark_changed p2)).
  change (_setEntityOverride e x src p)
    with (p2 ← match owner e p with
               | Some d => _recalculateDeviceState d p1
               | None => Ok p1
               end; Ok (mark_changed p2)).
  destruct (owner e p) as [d|]; [|reflexivity].
  rewrite recalculate_filtered_devices.
  destruct (_recalculateDeviceState d p1); reflexivity.
Qed.

Lemma entity_click_filtered_devices fd e b p :
  _handleEntityButtonClick e b (with_filtered_devices fd p)
  = p' ← _handleEntityButtonClick e b p; Ok (with_filtered_devices fd p').
Proof.
  unfold _handleEntityButtonClick.
  change (_getEntityOverrideInfo e (with_filtered_devices fd p))
    with (_getEntityOverrideInfo e p).
  destruct (_getEntityOverrideInfo e p) as [cur|]; [|reflexivity].
  rewrite !bind_Ok.
  destruct (expose_is cur b && source_is cur "selected");
    apply setEntityOverride_filtered_devices.
Qed.

(** C5 fails: the recompute does not look at [filtered_devices].  Selecting
    the only entity of a filtered device with no override gives the device
    an implied override. *)
Lemma filtered_device_is_recomputed :
  "d1" ∈ filtered_devices (_pendingConfig panel_filtered_device)
  /\ owner "light.e1" panel_filtered_device = Some "d1"
  /\ device_overrides (_pendingConfig panel_filtered_device) !! "d1" = None
  /\ (exists p', _handleEntityButtonClick "light.e1" true panel_filtered_device = Ok p'
        /\ device_overrides (_pendingConfig p') !! "d1" = Some (stored_implied true))
  /\ ~ filtered_device_claim_as_stated.
Proof.
  assert (Hin : "d1" ∈ filtered_devices (_pendingConfig panel_filtered_device))
    by (cbn; left).
  split; [exact Hin|]. split; [reflexivity|]. split; [reflexivity|]. split.
  - eexists. split; [vm_compute; reflexivity|]. reflexivity.
  - intros Hclaim.
    assert (E : exists p', _handleEntityButtonClick "light.e1" true panel_filtered_device
                           = Ok p'
                  /\ device_overrides (_pendingConfig p') !! "d1"
                     = Some (stored_implied true)).
    { eexists. split; [vm_compute; reflexivity|]. reflexivity. }
    destruct E as (p' & E & Hd).
    pose proof (Hclaim panel_filtered_device "d1" "light.e1" true p' Hin eq_refl E) as H.
    rewrite H in Hd. discriminate Hd.
Qed.

(** C5, amended: membership in [filtered_devices] does not enter the
    propagation.  A click on an entity of a filtered device leaves the
    device's stored override as it was when the device is selected or when
    all its owned entities are filtered, and the click computes the same
    document whatever [filtered_devices] holds. *)
Theorem filtered_device_frame (p : Panel) (d e : string) (b : bool)
    (fd : list string) :
  d ∈ filtered_devices (_pendingConfig p) ->
  owner e p = Some d ->
  exists p',
    _handleEntityButtonClick e b p = Ok p'
    /\ (device_source_is p d "selected" \/ all_owned_filtered p d ->
        device_overrides (_pendingConfig p') !! d
        = device_overrides (_pendingConfig p) !! d)
    /\ _handleEntityButtonClick e b (with_filtered_devices fd p)
       = Ok (with_filtered_devices fd p').
Proof.
  intros _ Ho.
  destruct (entity_click_shape e b p) as (m' & E & _ & Hact & Hsel).
  eexists. split; [exact E|]. split.
  - cbn. intros [Hs | Hf].
    + rewrite (Hsel d Ho); [reflexivity|]. apply device_source_is_iff, Hs.
    + rewrite (Hact d Ho); [reflexivity|]. apply all_owned_filtered_active, Hf.
  - rewrite entity_click_filtered_devices, E. reflexivity.
Qed.

Lemma filtered_device_frame_witness :
  "d1" ∈ filtered_devices (_pendingConfig panel_filtered_selected)
  /\ owner "light.e1" panel_filtered_selected = Some "d1"
  /\ exists p',
       _handleEntityButtonClick "light.e1" true panel_filtered_selected = Ok p'
       /\ device_overrides (_pendingConfig p') !! "d1" = Some (stored_selected false)
       /\ _handleEntityButtonClick "light.e1" true
            (with_filtered_devices [] panel_filtered_selected)
          = Ok (with_filtered_devices [] p').
Proof.
  assert (Hin : "d1" ∈ filtered_devices (_pendingConfig panel_filtered_selected))
    by (cbn; left).
  split; [exact Hin|]. split; [reflexivity|].
  destruct (filtered_device_frame panel_filtered_selected "d1" "light.e1" true []
              Hin eq_refl) as (p' & E & Hd & Hfd).
  exists p'. split; [exact E|]. split; [|exact Hfd].
  rewrite Hd; [reflexivity|]. left.
  eexists. split; [reflexivity | reflexivity].
Defined.

(** ** The auto-alias pass *)

Lemma generateAliasSuggestions_length baseName existing n :
  length (generateAliasSuggestions baseName existing n) <= n.
Proof. unfold generateAliasSuggestions. apply List.firstn_le_length. Qed.

Lemma autoAlias_loop_spec p exposed ec ec' :
  autoAlias_loop p exposed ec = Ok ec' ->
  forall k,
    ec' !! k = ec !! k
    \/ (k ∈ exposed /\ has_aliases (entry_of ec k) = false
        /\ exists suggestions,
             ec' !! k = Some (set_aliases suggestions (entry_of ec k))
             /\ 0 < length suggestions <= 5).
Proof.
  revert ec. induction exposed as [|id rest IH]; intros ec; simpl.
  - intros [= <-] k. left. reflexivity.
  - fold (entry_of ec id).
    assert (Hskip : autoAlias_loop p rest ec = Ok ec' ->
              forall k, ec' !! k = ec !! k
                \/ (k ∈ id :: rest /\ has_aliases (entry_of ec k) = false
                    /\ exists suggestions,
                         ec' !! k = Some (set_aliases suggestions (entry_of ec k))
                         /\ 0 < length suggestions <= 5)).
    { intros E k. destruct (IH ec E k) as [H | (Hin & Hna & Hs)];
        [left; exact H | right]. split; [right; exact Hin | auto]. }
    destruct (has_aliases (entry_of ec id)) eqn:Hhas; [exact Hskip|].
    destruct (find_entity id p) as [entity|]; [|exact Hskip].
    destruct (base_name (entry_of ec id) entity id) as [baseName|err];
      [|discriminate].
    rewrite bind_Ok.
    destruct (0 <? length (generateAliasSuggestions baseName [] 5))%nat eqn:Hlen;
      [|exact Hskip].
    apply Nat.ltb_lt in Hlen.
    pose proof (generateAliasSuggestions_length baseName [] 5) as Hle.
    intros E k.
    destruct (IH _ E k) as [H | (Hin & Hna & sugg & Hs & Hb)].
    + destruct (decide (k = id)) as [->|Hne].
      * right. split; [left|]. split; [exact Hhas|].
        eexists. split; [rewrite H; apply lookup_insert_eq|]. lia.
      * left. rewrite H. apply lookup_insert_ne. congruence.
    + destruct (decide (k = id)) as [->|Hne].
      * exfalso. unfold entry_of in Hna. rewrite lookup_insert_eq in Hna.
        simpl in Hna. apply Nat.ltb_ge in Hna. lia.
      * right. unfold entry_of in *.
        rewrite lookup_insert_ne in Hna, Hs by congruence.
        split; [right; exact Hin|]. split; [exact Hna|]. eauto.
Qed.

Lemma autoAlias_loop_returns p exposed ec :
  (forall id, id ∈ exposed -> has_object_id id) ->
  returns (autoAlias_loop p exposed ec).
Proof.
  revert ec. induction exposed as [|id rest IH]; intros ec Hwf; simpl.
  - eexists. reflexivity.
  - assert (Hrest : forall ec0, returns (autoAlias_loop p rest ec0))
      by (intros ec0; apply IH; intros id' H; apply Hwf; right; exact H).
    destruct (has_aliases _); [apply Hrest|].
    destruct (find_entity id p) as [entity|]; [|apply Hrest].
    assert (Hb : returns (base_name (default empty_entity_config (ec !! id)) entity id)).
    { unfold base_name. destruct (nonempty _); [eexists; reflexivity|].
      destruct (nonempty _); [eexists; reflexivity|].
      unfold fallback_name. destruct (Hwf id (list_elem_of_here _ _)) as [o Ho].
      rewrite Ho. eexists. reflexivity. }
    destruct Hb as [baseName ->]. rewrite bind_Ok.
    destruct (0 <? _)%nat; apply Hrest.
Qed.

(** C10: the auto-alias pass keeps manual configuration.  With
    [auto_aliases] switched off the document is returned as it is.
    Otherwise the pass returns (for identifiers of the form
    [domain.object]), changes nothing but [entity_config], leaves every
    entry with a non-empty alias list as it is, and an entry that differs
    afterwards belongs to an exposed entity without aliases and has received
    between one and five generated aliases, its other fields kept. *)
Theorem auto_aliases_preserve_manual (config : Config) (p : Panel) :
  (auto_aliases config = Some false -> _applyAutoAliases config p = Ok config)
  /\ ((forall id, id ∈ _preview_exposed p -> has_object_id id) ->
      returns (_applyAutoAliases config p))
  /\ (forall config', _applyAutoAliases config p = Ok config' ->
      config' = set_entity_config (entity_config config') config
      /\ (forall id c, entity_config config !! id = Some c ->
            has_aliases c = true -> entity_config config' !! id = Some c)
      /\ (forall id, entity_config config' !! id <> entity_config config !! id ->
            id ∈ _preview_exposed p
            /\ has_aliases (entry_of (entity_config config) id) = false
            /\ exists suggestions,
                 entity_config config' !! id
                 = Some (set_aliases suggestions (entry_of (entity_config config) id))
                 /\ 0 < length suggestions <= 5)).
Proof.
  unfold _applyAutoAliases. split; [|split].
  - intros H. rewrite bool_decide_eq_true_2 by exact H. reflexivity.
  - intros Hwf. destruct (bool_decide _); [eexists; reflexivity|].
    destruct (length _ =? 0)%nat; [eexists; reflexivity|].
    destruct (autoAlias_loop_returns p (_preview_exposed p) (entity_config config) Hwf)
      as [ec ->].
    eexists. reflexivity.
  - intros config' E.
    assert (Hsame : config' = config ->
      config' = set_entity_config (entity_config config') config
      /\ (forall id c, entity_config config !! id = Some c ->
            has_aliases c = true -> entity_config config' !! id = Some c)
      /\ (forall id, entity_config config' !! id <> entity_config config !! id ->
            id ∈ _preview_exposed p
            /\ has_aliases (entry_of (entity_config config) id) = false
            /\ exists suggestions,
                 entity_config config' !! id
                 = Some (set_aliases suggestions (entry_of (entity_config config) id))
                 /\ 0 < length suggestions <= 5)).
    { intros ->. split; [destruct config; reflexivity|].
      split; [auto | intros id Hne; contradiction]. }
    destruct (bool_decide _); [injection E as <-; apply Hsame; reflexivity|].
    destruct (length _ =? 0)%nat; [injection E as <-; apply Hsame; reflexivity|].
    destruct (autoAlias_loop p (_preview_exposed p) (entity_config config))
      as [ec|err] eqn:Hloop; [|discriminate].
    rewrite bind_Ok in E. injection E as <-.
    pose proof (autoAlias_loop_spec _ _ _ _ Hloop) as Hspec.
    split; [reflexivity|]. cbn. split.
    + intros id c Hc Hhas.
      destruct (Hspec id) as [H | (_ & Hna & _)]; [congruence|].
      unfold entry_of in Hna. rewrite Hc in Hna. simpl in Hna. congruence.
    + intros id Hne. destruct (Hspec id) as [H | H]; [contradiction | exact H].
Qed.

Lemma auto_aliases_preserve_manual_witness :
  _applyAutoAliases (config_manual (Some false)) panel_preview
  = Ok (config_manual (Some false))
  /\ exists config',
       _applyAutoAliases (config_manual None) panel_preview = Ok config'
       /\ entity_config config' !! "light.e2" = Some manual_entry
       /\ entity_config config' !! "light.e1"
          = Some {| ec_name := None;
                    ec_aliases := Some ["Desk Lights"; "Desk lamp"; "Desk lights";
                                        "the Desk Light"];
                    ec_room := None |}.
Proof.
  split.
  - destruct (auto_aliases_preserve_manual (config_manual (Some false)) panel_preview)
      as (Hoff & _). apply Hoff. reflexivity.
  - destruct (auto_aliases_preserve_manual (config_manual None) panel_preview)
      as (_ & Hret & Hres).
    destruct Hret as [config' E].
    { intros id Hid. cbn in Hid. destruct (elem_of_pair _ _ _ Hid) as [-> | ->];
        eexists; reflexivity. }
    exists config'. split; [exact E|].
    destruct (Hres config' E) as (_ & Hmanual & _). split.
    + apply Hmanual; reflexivity.
    + vm_compute in E. injection E as <-. reflexivity.
Defined.

(** * Further properties of the panel code *)

(** ** Strings *)

Lemma str_app_cons (c : ascii) (s1 s2 : string) :
  (String c s1 ++ s2)%string = String c (s1 ++ s2)%string.
Proof. reflexivity. Qed.

Lemma str_app_nil_l (s : string) : (EmptyString ++ s)%string = s.
Proof. reflexivity. Qed.

Lemma str_length_app (s1 s2 : string) :
  String.length (s1 ++ s2)%string = String.length s1 + String.length s2.
Proof.
  induction s1 as [|c s1 IH]; [reflexivity|].
  rewrite str_app_cons. simpl. rewrite IH. reflexivity.
Qed.

Lemma str_app_assoc (s1 s2 s3 : string) :
  ((s1 ++ s2) ++ s3 = s1 ++ (s2 ++ s3))%string.
Proof.
  induction s1 as [|c s1 IH]; [reflexivity|].
  rewrite !str_app_cons, IH. reflexivity.
Qed.

Lemma toLowerCase_length (s : string) :
  String.length (Str.toLowerCase s) = String.length s.
Proof. induction s as [|c s IH]; simpl; [reflexivity | rewrite IH; reflexivity]. Qed.

Lemma substring_full (s : string) : String.substring 0 (String.length s) s = s.
Proof. induction s as [|c s IH]; simpl; [reflexivity | rewrite IH; reflexivity]. Qed.

Lemma substring_app_skip (pre suf : string) :
  String.substring (String.length pre) (String.length suf) (pre ++ suf)%string = suf.
Proof.
  induction pre as [|c pre IH]; [apply substring_full|].
  rewrite str_app_cons. simpl. exact IH.
Qed.

Lemma substring_split (n : nat) (s : string) :
  n <= String.length s ->
  s = (String.substring 0 n s ++ String.substring n (String.length s - n) s)%string.
Proof.
  revert s. induction n as [|n IH]; intros s Hn.
  - rewrite Nat.sub_0_r, substring_full. destruct s; reflexivity.
  - destruct s as [|c s]; simpl in *; [lia|].
    rewrite str_app_cons. rewrite <- IH by lia. reflexivity.
Qed.

Lemma substring_prefix_length (n : nat) (s : string) :
  n <= String.length s -> String.length (String.substring 0 n s) = n.
Proof.
  revert s. induction n as [|n IH]; intros s Hn.
  - destruct s; reflexivity.
  - destruct s as [|c s]; simpl in *; [lia|]. rewrite IH by lia. reflexivity.
Qed.

Lemma endsWith_iff (s suf : string) :
  Str.endsWith s suf = true <-> exists pre, s = (pre ++ suf)%string.
Proof.
  unfold Str.endsWith. rewrite andb_true_iff, Nat.leb_le, String.eqb_eq. split.
  - intros [Hle Hsub].
    exists (String.substring 0 (String.length s - String.length suf) s).
    rewrite (substring_split (String.length s - String.length suf) s) at 1 by lia.
    replace (String.length s - (String.length s - String.length suf))
      with (String.length suf) by lia.
    rewrite Hsub. reflexivity.
  - intros [pre ->]. rewrite str_length_app. split; [lia|].
    replace (String.length pre + String.length suf - String.length suf)
      with (String.length pre) by lia.
    apply substring_app_skip.
Qed.

Lemma endsWith_app (a b suf : string) :
  Str.endsWith b suf = true -> Str.endsWith (a ++ b)%string suf = true.
Proof.
  rewrite !endsWith_iff. intros [pre ->]. exists (a ++ pre)%string.
  symmetry. apply str_app_assoc.
Qed.

Lemma endsWith_length (s suf : string) :
  Str.endsWith s suf = true -> String.length suf <= String.length s.
Proof. unfold Str.endsWith. rewrite andb_true_iff, Nat.leb_le. tauto. Qed.

Lemma dropEnd_length (k : nat) (s : string) :
  String.length (Str.dropEnd k s) = String.length s - k.
Proof. unfold Str.dropEnd. apply substring_prefix_length. lia. Qed.

(** ** Plural and singular *)

(** X1: [pluralize] always returns a strictly longer word that ends in
    [s]; in particular the plural never equals the word, not even up to
    case. *)
Theorem pluralize_longer_and_ends_in_s (word : string) :
  String.length word < String.length (pluralize word)
  /\ Str.endsWith (pluralize word) "s" = true
  /\ Str.toLowerCase (pluralize word) <> Str.toLowerCase word.
Proof.
  assert (H : String.length word < String.length (pluralize word)
              /\ Str.endsWith (pluralize word) "s" = true).
  { unfold pluralize.
    destruct (Str.endsWith (Str.toLowerCase word) "y" && _) eqn:Hy.
    { apply andb_true_iff in Hy as [Hy _]. apply endsWith_length in Hy.
      rewrite toLowerCase_length in Hy. simpl in Hy.
      rewrite str_length_app, dropEnd_length. simpl.
      split; [lia | apply endsWith_app; reflexivity]. }
    destruct (Str.endsWith (Str.toLowerCase word) "s" || _ || _ || _).
    { rewrite str_length_app. simpl. split; [lia | apply endsWith_app; reflexivity]. }
    destruct (Str.endsWith (Str.toLowerCase word) "f") eqn:Hf.
    { apply endsWith_length in Hf. rewrite toLowerCase_length in Hf. simpl in Hf.
      rewrite str_length_app, dropEnd_length. simpl.
      split; [lia | apply endsWith_app; reflexivity]. }
    destruct (Str.endsWith (Str.toLowerCase word) "fe") eqn:Hfe.
    { apply endsWith_length in Hfe. rewrite toLowerCase_length in Hfe. simpl in Hfe.
      rewrite str_length_app, dropEnd_length. simpl.
      split; [lia | apply endsWith_app; reflexivity]. }
    rewrite str_length_app. simpl. split; [lia | apply endsWith_app; reflexivity]. }
  destruct H as [Hlen Hs]. split; [exact Hlen|]. split; [exact Hs|].
  intros Heq. apply (f_equal String.length) in Heq.
  rewrite !toLowerCase_length in Heq. lia.
Qed.

(** X2: [singularize] never returns a longer word, and a word that does
    not end in [s] or [S] is returned as it is. *)
Theorem singularize_not_longer (word : string) :
  String.length (singularize word) <= String.length word
  /\ (Str.endsWith (Str.toLowerCase word) "s" = false -> singularize word = word).
Proof.
  split.
  - unfold singularize.
    destruct (Str.endsWith (Str.toLowerCase word) "ies") eqn:H1.
    { apply endsWith_length in H1. rewrite toLowerCase_length in H1. simpl in H1.
      rewrite str_length_app, dropEnd_length. simpl. lia. }
    destruct (Str.endsWith (Str.toLowerCase word) "ves") eqn:H2.
    { apply endsWith_length in H2. rewrite toLowerCase_length in H2. simpl in H2.
      rewrite str_length_app, dropEnd_length. simpl. lia. }
    destruct (Str.endsWith (Str.toLowerCase word) "es" && _).
    { rewrite dropEnd_length. lia. }
    destruct (Str.endsWith (Str.toLowerCase word) "s" && _).
    { rewrite dropEnd_length. lia. }
    lia.
  - intros Hs. unfold singularize.
    assert (Hno : forall pre, Str.endsWith (Str.toLowerCase word) (pre ++ "s")%string = false).
    { intros pre. destruct (Str.endsWith _ (pre ++ "s")%string) eqn:E; [|reflexivity].
      apply endsWith_iff in E as [q E].
      assert (Str.endsWith (Str.toLowerCase word) "s" = true)
        by (apply endsWith_iff; exists (q ++ pre)%string; rewrite E; symmetry;
            apply str_app_assoc).
      congruence. }
    pose proof (Hno "ie") as E1. pose proof (Hno "ve") as E2.
    pose proof (Hno "e") as E3.
    change ("ie" ++ "s")%string with "ies" in E1.
    change ("ve" ++ "s")%string with "ves" in E2.
    change ("e" ++ "s")%string with "es" in E3.
    rewrite E1, E2, E3, Hs. reflexivity.
Qed.

Lemma singularize_not_longer_witness :
  Str.endsWith (Str.toLowerCase "Lamp") "s" = false /\ singularize "Lamp" = "Lamp".
Proof.
  split; [reflexivity|].
  apply (proj2 (singularize_not_longer "Lamp")). reflexivity.
Defined.

(** ** Generated suggestions *)

Lemma set_add_NoDup x l : NoDup l -> NoDup (set_add x l).
Proof.
  intros H. unfold set_add. case_bool_decide as Hx; [exact H|].
  apply NoDup_app. split; [exact H|]. split; [|apply NoDup_singleton].
  intros y Hy Hy'. apply list_elem_of_singleton in Hy'. subst. contradiction.
Qed.

Lemma set_add_elem x l : x ∈ set_add x l.
Proof.
  unfold set_add. case_bool_decide as Hx; [exact Hx|].
  apply elem_of_app. right. left.
Qed.

Lemma add_variations_NoDup table baseName l :
  NoDup l -> NoDup (add_variations table baseName l).
Proof.
  unfold add_variations. revert l.
  induction table as [|[word syns] table IH]; intros l Hl; simpl; [exact Hl|].
  apply IH. destruct (Str.includes _ _); [|exact Hl].
  clear IH. revert l Hl. induction syns as [|syn syns IHs]; intros l Hl; simpl;
    [exact Hl|]. apply IHs, set_add_NoDup, Hl.
Qed.

Lemma filter_NoDup {A} (f : A -> bool) (l : list A) :
  NoDup l -> NoDup (List.filter f l).
Proof.
  induction l as [|x l IH]; intros H; simpl; [exact H|].
  apply NoDup_cons in H as [Hx Hl]. destruct (f x); [|apply IH, Hl].
  apply NoDup_cons. split; [|apply IH, Hl].
  intros Hin. apply Hx. apply list_elem_of_In, filter_In in Hin.
  apply list_elem_of_In. tauto.
Qed.

Lemma firstn_NoDup {A} n (l : list A) : NoDup l -> NoDup (firstn n l).
Proof.
  intros H. rewrite <- (firstn_skipn n l) in H.
  apply NoDup_app in H. tauto.
Qed.

Lemma firstn_elem {A} n (l : list A) x : x ∈ firstn n l -> x ∈ l.
Proof.
  intros H. rewrite <- (firstn_skipn n l). apply elem_of_app. left. exact H.
Qed.

Lemma generateAliasSuggestions_elem baseName existingAliases maxSuggestions s :
  s ∈ generateAliasSuggestions baseName existingAliases maxSuggestions ->
  Str.toLowerCase s <> Str.toLowerCase baseName
  /\ (Str.toLowerCase s ∉ List.map Str.toLowerCase existingAliases)
  /\ (s ∉ existingAliases).
Proof.
  intros Hs. unfold generateAliasSuggestions in Hs. cbv zeta in Hs.
  apply firstn_elem, list_elem_of_In, filter_In in Hs. destruct Hs as [_ Hs].
  apply andb_true_iff in Hs as [H1 H2].
  apply negb_true_iff, String.eqb_neq in H1.
  apply negb_true_iff, bool_decide_eq_false in H2.
  split; [exact H1|]. split; [exact H2|].
  intros Hin. apply H2. apply list_elem_of_fmap. exists s. split; [reflexivity | exact Hin].
Qed.

(** X3: the suggestions are pairwise distinct, at most [maxSuggestions],
    and none of them equals the base name or an existing alias, comparing
    without regard to case. *)
Theorem suggestions_are_new_and_distinct (baseName : string)
    (existingAliases : list string) (maxSuggestions : nat) :
  NoDup (generateAliasSuggestions baseName existingAliases maxSuggestions)
  /\ (length (generateAliasSuggestions baseName existingAliases maxSuggestions)
      <= maxSuggestions)
  /\ forall s, s ∈ generateAliasSuggestions baseName existingAliases maxSuggestions ->
       Str.toLowerCase s <> Str.toLowerCase baseName
       /\ (Str.toLowerCase s ∉ List.map Str.toLowerCase existingAliases)
       /\ (s ∉ existingAliases).
Proof.
  split; [|split].
  - unfold generateAliasSuggestions. cbv zeta.
    apply firstn_NoDup, filter_NoDup.
    destruct (negb (Str.startsWith _ _)); apply set_add_NoDup;
      do 2 apply add_variations_NoDup;
      repeat match goal with
             | |- NoDup (if ?c then _ else _) => destruct c
             | |- NoDup (set_add _ _) => apply set_add_NoDup
             end; apply NoDup_nil; exact I.
  - apply generateAliasSuggestions_length.
  - intros s. apply generateAliasSuggestions_elem.
Qed.

Lemma suggestions_are_new_and_distinct_witness :
  "Kitchen Lights" ∈ generateAliasSuggestions "Kitchen Light" ["kitchen lamp"] 8
  /\ ("Kitchen Lights" ∉ ["kitchen lamp"]).
Proof.
  assert (Hin : "Kitchen Lights"
                ∈ generateAliasSuggestions "Kitchen Light" ["kitchen lamp"] 8)
    by (vm_compute; left).
  split; [exact Hin|].
  destruct (suggestions_are_new_and_distinct "Kitchen Light" ["kitchen lamp"] 8)
    as (_ & _ & H).
  apply (H "Kitchen Lights" Hin).
Defined.

Lemma substring_length (n m : nat) (s : string) :
  String.length (String.substring n m s) = Nat.min m (String.length s - n).
Proof.
  revert m s. induction n as [|n IH]; intros m s.
  - revert s. induction m as [|m IHm]; intros s; destruct s as [|c s]; simpl;
      try reflexivity. rewrite IHm. rewrite Nat.sub_0_r. reflexivity.
  - destruct s as [|c s]; simpl; [lia | apply IH].
Qed.

Lemma prefix_length (p s : string) :
  String.prefix p s = true -> String.length p <= String.length s.
Proof.
  revert s. induction p as [|c p IH]; intros s; [simpl; lia|].
  destruct s as [|c' s]; simpl; [discriminate|].
  destruct (ascii_dec c c'); [|discriminate].
  intros H. apply IH in H. lia.
Qed.

Lemma generateAliasSuggestions_nonempty (baseName : string) (maxSuggestions : nat) :
  0 < maxSuggestions ->
  generateAliasSuggestions baseName [] maxSuggestions <> [].
Proof.
  intros Hmax. unfold generateAliasSuggestions. cbv zeta.
  match goal with
  | |- firstn _ (List.filter ?P (if ?c then set_add ?v1 ?l else set_add ?v2 ?l)) <> [] =>
      set (keep := P); set (rest := l);
      assert (Hv : exists v, v ∈ (if c then set_add v1 rest else set_add v2 rest)
                             /\ keep v = true)
  end.
  { destruct (negb (Str.startsWith (Str.toLowerCase baseName) "the ")) eqn:Hthe.
    - eexists. split; [apply set_add_elem|]. subst keep. cbv beta.
      apply andb_true_iff. split;
        [|apply negb_true_iff, bool_decide_eq_false, not_elem_of_nil].
      apply negb_true_iff, String.eqb_neq.
      intros Heq. apply (f_equal String.length) in Heq.
      rewrite !toLowerCase_length, str_length_app in Heq. simpl in Heq. lia.
    - apply negb_false_iff in Hthe. unfold Str.startsWith in Hthe.
      apply prefix_length in Hthe. rewrite toLowerCase_length in Hthe. simpl in Hthe.
      eexists. split; [apply set_add_elem|]. subst keep. cbv beta.
      apply andb_true_iff. split;
        [|apply negb_true_iff, bool_decide_eq_false, not_elem_of_nil].
      apply negb_true_iff, String.eqb_neq.
      intros Heq. apply (f_equal String.length) in Heq.
      rewrite !toLowerCase_length in Heq. unfold Str.dropStart in Heq.
      rewrite substring_length in Heq. lia. }
  destruct Hv as (v & Hin & Hkeep).
  assert (Hf : v ∈ List.filter keep
                 (if negb (Str.startsWith (Str.toLowerCase baseName) "the ")
                  then set_add ("the " ++ baseName)%string rest
                  else set_add (Str.dropStart 4 baseName) rest)).
  { apply list_elem_of_In, filter_In. split; [apply list_elem_of_In, Hin | exact Hkeep]. }
  destruct (List.filter keep _) as [|x l]; [inversion Hf|].
  destruct maxSuggestions; [lia | discriminate].
Qed.

(** X4: asked for at least one suggestion and given no existing aliases,
    [generateAliasSuggestions] always finds one, whatever the name. *)
Theorem suggestions_never_empty (baseName : string) (maxSuggestions : nat) :
  0 < maxSuggestions ->
  generateAliasSuggestions baseName [] maxSuggestions <> [].
Proof. apply generateAliasSuggestions_nonempty. Qed.

Lemma suggestions_never_empty_witness :
  generateAliasSuggestions "the " [] 5 <> [].
Proof. apply suggestions_never_empty. lia. Defined.

(** ** The auto-alias pass, continued *)

Lemma autoAlias_loop_keeps p exposed ec ec' k :
  autoAlias_loop p exposed ec = Ok ec' ->
  has_aliases (entry_of ec k) = true -> ec' !! k = ec !! k.
Proof.
  intros E Hhas. destruct (autoAlias_loop_spec _ _ _ _ E k) as [H | (_ & Hna & _)];
    [exact H | congruence].
Qed.

Lemma autoAlias_loop_covers p exposed ec ec' :
  autoAlias_loop p exposed ec = Ok ec' ->
  forall id, id ∈ exposed -> is_Some (find_entity id p) ->
    has_aliases (entry_of ec' id) = true.
Proof.
  revert ec. induction exposed as [|id0 rest IH]; intros ec E id Hin Hfind;
    [inversion Hin|].
  simpl in E. fold (entry_of ec id0) in E.
  assert (Hdone : forall ec1, autoAlias_loop p rest ec1 = Ok ec' ->
            has_aliases (entry_of ec1 id0) = true ->
            has_aliases (entry_of ec' id) = true).
  { intros ec1 E1 H1. apply elem_of_cons in Hin as [-> | Hin].
    - unfold entry_of in *. rewrite (autoAlias_loop_keeps _ _ _ _ _ E1 H1). exact H1.
    - apply (IH ec1 E1 id Hin Hfind). }
  destruct (has_aliases (entry_of ec id0)) eqn:Hhas; [apply (Hdone ec E Hhas)|].
  destruct (find_entity id0 p) as [entity|] eqn:Hf.
  - destruct (base_name (entry_of ec id0) entity id0) as [baseName|err];
      [|discriminate].
    rewrite bind_Ok in E.
    pose proof (generateAliasSuggestions_nonempty baseName 5 ltac:(lia)) as Hne.
    destruct (generateAliasSuggestions baseName [] 5) as [|s l] eqn:Hs;
      [contradiction|].
    cbn [length Nat.ltb Nat.leb] in E.
    apply (Hdone _ E). unfold entry_of. rewrite lookup_insert_eq. reflexivity.
  - apply elem_of_cons in Hin as [-> | Hin].
    + rewrite Hf in Hfind. destruct Hfind as [? [=]].
    + apply (IH ec E id Hin Hfind).
Qed.

Lemma autoAlias_loop_settled p exposed ec :
  (forall id, id ∈ exposed ->
     has_aliases (entry_of ec id) = true \/ find_entity id p = None) ->
  autoAlias_loop p exposed ec = Ok ec.
Proof.
  induction exposed as [|id rest IH]; intros H; simpl; [reflexivity|].
  fold (entry_of ec id).
  assert (Hrest : autoAlias_loop p rest ec = Ok ec)
    by (apply IH; intros id' Hid'; apply H; right; exact Hid').
  destruct (H id (list_elem_of_here _ _)) as [-> | ->]; [exact Hrest|].
  destruct (has_aliases (entry_of ec id)); exact Hrest.
Qed.

(** X5: when the pass runs (auto-aliases not switched off) and returns,
    every exposed entity that is in the registry ends up with a non-empty
    alias list, its own or a generated one. *)
Theorem auto_aliases_cover_exposed (config config' : Config) (p : Panel) :
  auto_aliases config <> Some false ->
  _applyAutoAliases config p = Ok config' ->
  forall id, id ∈ _preview_exposed p -> is_Some (find_entity id p) ->
    has_aliases (entry_of (entity_config config') id) = true.
Proof.
  intros Hauto E id Hin Hfind. unfold _applyAutoAliases in E.
  rewrite bool_decide_eq_false_2 in E by exact Hauto.
  destruct (_preview_exposed p) as [|id0 rest] eqn:Hex; [inversion Hin|].
  cbn [length Nat.eqb] in E.
  destruct (autoAlias_loop p (id0 :: rest) (entity_config config)) as [ec|err] eqn:Hloop;
    [|discriminate].
  rewrite bind_Ok in E. injection E as <-. cbn.
  apply (autoAlias_loop_covers _ _ _ _ Hloop id Hin Hfind).
Qed.

Lemma auto_aliases_cover_exposed_witness :
  exists config',
    _applyAutoAliases (config_manual None) panel_preview = Ok config'
    /\ has_aliases (entry_of (entity_config config') "light.e1") = true
    /\ has_aliases (entry_of (entity_config config') "light.e2") = true.
Proof.
  assert (E : exists config', _applyAutoAliases (config_manual None) panel_preview
                              = Ok config')
    by (eexists; vm_compute; reflexivity).
  destruct E as [config' E]. exists config'. split; [exact E|].
  assert (Hauto : auto_aliases (config_manual None) <> Some false) by discriminate.
  split; apply (auto_aliases_cover_exposed _ _ _ Hauto E).
  - left.
  - eexists. reflexivity.
  - right. left.
  - eexists. reflexivity.
Defined.

(** X6: the pass is idempotent: run on its own result it returns that
    result unchanged. *)
Theorem auto_aliases_idempotent (config config' : Config) (p : Panel) :
  _applyAutoAliases config p = Ok config' ->
  _applyAutoAliases config' p = Ok config'.
Proof.
  intros E. unfold _applyAutoAliases in E.
  case_bool_decide as Hauto.
  { injection E as <-. unfold _applyAutoAliases.
    rewrite bool_decide_eq_true_2 by exact Hauto. reflexivity. }
  destruct (length (_preview_exposed p) =? 0)%nat eqn:Hlen.
  { injection E as <-. unfold _applyAutoAliases.
    rewrite bool_decide_eq_false_2 by exact Hauto. rewrite Hlen. reflexivity. }
  destruct (autoAlias_loop p (_preview_exposed p) (entity_config config))
    as [ec|err] eqn:Hloop; [|discriminate].
  rewrite bind_Ok in E. injection E as <-.
  unfold _applyAutoAliases. cbn [auto_aliases set_entity_config entity_config].
  rewrite bool_decide_eq_false_2 by exact Hauto. rewrite Hlen.
  rewrite autoAlias_loop_settled; [reflexivity|].
  intros id Hin. destruct (find_entity id p) as [entity|] eqn:Hf;
    [left | right; reflexivity].
  apply (autoAlias_loop_covers _ _ _ _ Hloop id Hin). rewrite Hf. eauto.
Qed.

Lemma auto_aliases_idempotent_witness :
  exists config',
    _applyAutoAliases (config_manual None) panel_preview = Ok config'
    /\ _applyAutoAliases config' panel_preview = Ok config'.
Proof.
  assert (E : exists config', _applyAutoAliases (config_manual None) panel_preview
                              = Ok config')
    by (eexists; vm_compute; reflexivity).
  destruct E as [config' E]. exists config'. split; [exact E|].
  apply (auto_aliases_idempotent _ _ _ E).
Defined.

(** ** The recompute as a fixed point *)

Lemma scan_loop_ext p p' es st :
  (forall k, entity_overrides (_pendingConfig p') !! k
             = entity_overrides (_pendingConfig p) !! k) ->
  scan_loop p' es st = scan_loop p es st.
Proof.
  intros H. revert st. induction es as [|e es IH]; intros st; [reflexivity|].
  simpl. unfold _getEntityOverrideInfo, stored. rewrite H.
  destruct (overrideInfo _) as [[o|]|]; simpl; try reflexivity.
  destruct (negb (strict_eq (source o) (VStr "selected"))); [reflexivity|].
  destruct (strict_eq (firstValue st) VNull); [apply IH|].
  destruct (negb (strict_eq (expose o) (firstValue st))); [reflexivity | apply IH].
Qed.

Lemma recalculate_eq d p :
  exists st,
    scan_loop p (activeEntities d p)
      {| allSelected := true; allSameValue := true; firstValue := VNull |} = Ok st
    /\ _recalculateDeviceState d p
       = Ok (if (length (activeEntities d p) =? 0)%nat
                || source_is (deviceInfo p d) "selected"
             then p
             else with_config
                    (set_device_overrides (recalculated_overrides p d st)
                                          (_pendingConfig p)) p).
Proof.
  destruct (scan_loop_returns p (activeEntities d p)
              {| allSelected := true; allSameValue := true; firstValue := VNull |})
    as [st Hst].
  exists st. split; [exact Hst|].
  unfold _recalculateDeviceState. cbv zeta.
  destruct (length (activeEntities d p) =? 0)%nat; [reflexivity|].
  rewrite getDeviceInfo_eq, bind_Ok. simpl orb.
  destruct (source_is (deviceInfo p d) "selected"); [reflexivity|].
  rewrite Hst, bind_Ok. reflexivity.
Qed.

Lemma recalculate_fixed d p p' :
  _recalculateDeviceState d p = Ok p' -> _recalculateDeviceState d p' = Ok p'.
Proof.
  intros E. destruct (recalculate_eq d p) as (st & Hst & E1).
  rewrite E1 in E. injection E as <-.
  destruct ((length (activeEntities d p) =? 0)%nat
            || source_is (deviceInfo p d) "selected") eqn:Hearly; [exact E1|].
  apply orb_false_iff in Hearly as [Hlen Hsel].
  set (p' := with_config (set_device_overrides (recalculated_overrides p d st)
                                               (_pendingConfig p)) p).
  destruct (recalculate_eq d p') as (st' & Hst' & E2).
  rewrite (scan_loop_ext p p') in Hst' by reflexivity.
  change (activeEntities d p') with (activeEntities d p) in *.
  rewrite Hst in Hst'. injection Hst' as <-.
  assert (Hinfo : deviceInfo p' d
                  = info_of (stored (recalculated_overrides p d st) d)) by reflexivity.
  assert (Hrec : recalculated_overrides p' d st
                 = if agreed st
                   then <[d := override_obj (firstValue st) (VStr "implied")]>
                          (recalculated_overrides p d st)
                   else if source_is (deviceInfo p' d) "implied"
                        then delete d (recalculated_overrides p d st)
                        else recalculated_overrides p d st) by reflexivity.
  rewrite E2, Hlen, Hrec. simpl orb. clear E2 Hrec.
  unfold recalculated_overrides in *.
  destruct (agreed st) eqn:Hag.
  - assert (Hi : deviceInfo p' d
                 = Some {| expose := firstValue st; source := VStr "implied" |}).
    { rewrite Hinfo. rewrite (stored_lookup _ _ _ (lookup_insert_eq _ _ _)).
      reflexivity. }
    rewrite Hi. simpl. f_equal. subst p'. cbn. rewrite insert_insert_eq. reflexivity.
  - destruct (source_is (deviceInfo p d) "implied") eqn:Himp.
    + assert (Hi : deviceInfo p' d = None).
      { rewrite Hinfo. rewrite (stored_lookup_None _ _ (lookup_delete_eq _ _)).
        reflexivity. }
      rewrite Hi. simpl. f_equal.
    + assert (Hi : deviceInfo p' d = deviceInfo p d) by reflexivity.
      rewrite Hi, Hsel, Himp. f_equal.
Qed.

Lemma recalculate_mark_changed d q :
  _recalculateDeviceState d (mark_changed q)
  = q' ← _recalculateDeviceState d q; Ok (mark_changed q').
Proof.
  unfold _recalculateDeviceState.
  change (activeEntities d (mark_changed q)) with (activeEntities d q).
  destruct (length (activeEntities d q) =? 0)%nat; [reflexivity|].
  change (_getDeviceOverrideInfo d (mark_changed q)) with (_getDeviceOverrideInfo d q).
  destruct (_getDeviceOverrideInfo d q) as [deviceOverride|]; [|reflexivity].
  rewrite !bind_Ok.
  destruct (source_is deviceOverride "selected"); [reflexivity|].
  rewrite (scan_loop_ext q (mark_changed q)) by reflexivity.
  destruct (scan_loop q (activeEntities d q) _) as [st|]; reflexivity.
Qed.

Lemma entity_click_unfold e b p d :
  owner e p = Some d ->
  _handleEntityButtonClick e b p
  = p2 ← _recalculateDeviceState d
           (with_config (set_entity_overrides (clicked_entity_overrides e b p)
                                              (_pendingConfig p)) p);
    Ok (mark_changed p2).
Proof.
  intros Ho. unfold _handleEntityButtonClick, clicked_entity_overrides.
  rewrite getEntityInfo_eq, bind_Ok.
  destruct (expose_is (entityInfo p e) b && source_is (entityInfo p e) "selected");
    unfold _setEntityOverride;
    match goal with
    | |- context [owner e ?q] => change (owner e q) with (owner e p)
    end; rewrite Ho; reflexivity.
Qed.

Lemma entity_click_no_owner e b p :
  owner e p = None ->
  _handleEntityButtonClick e b p
  = Ok (mark_changed
          (with_config (set_entity_overrides (clicked_entity_overrides e b p)
                                             (_pendingConfig p)) p)).
Proof.
  intros Ho. unfold _handleEntityButtonClick, clicked_entity_overrides.
  rewrite getEntityInfo_eq, bind_Ok.
  destruct (expose_is (entityInfo p e) b && source_is (entityInfo p e) "selected");
    unfold _setEntityOverride;
    match goal with
    | |- context [owner e ?q] => change (owner e q) with (owner e p)
    end; rewrite Ho; reflexivity.
Qed.

(** X7: the upward recompute is idempotent, and a click on an entity leaves
    its owning device at a fixed point of the recompute: recomputing the
    device once more changes nothing. *)
Theorem recalculate_idempotent (p : Panel) (d : string) :
  (exists p', _recalculateDeviceState d p = Ok p'
     /\ _recalculateDeviceState d p' = Ok p')
  /\ (forall e b, owner e p = Some d ->
      exists p', _handleEntityButtonClick e b p = Ok p'
        /\ _recalculateDeviceState d p' = Ok p').
Proof.
  split.
  - destruct (recalculate_shape d p) as (m' & E & _).
    eexists. split; [exact E|]. apply (recalculate_fixed _ _ _ E).
  - intros e b Ho. rewrite (entity_click_unfold e b p d Ho).
    set (p1 := with_config _ p).
    destruct (recalculate_shape d p1) as (m' & E & _).
    rewrite E, bind_Ok. eexists. split; [reflexivity|].
    rewrite recalculate_mark_changed, (recalculate_fixed _ _ _ E). reflexivity.
Qed.

Lemma recalculate_idempotent_witness :
  exists p', _handleEntityButtonClick "light.e2" true panel_scenario = Ok p'
    /\ device_overrides (_pendingConfig p') !! "d1" = Some (stored_implied true)
    /\ _recalculateDeviceState "d1" p' = Ok p'.
Proof.
  destruct (recalculate_idempotent panel_scenario "d1") as [_ H].
  destruct (H "light.e2" true eq_refl) as (p' & E & Hfix).
  exists p'. split; [exact E|]. split; [|exact Hfix].
  vm_compute in E. injection E as <-. reflexivity.
Defined.

(** ** The document stays within the data model *)

Lemma well_formed_info v :
  well_formed_override v ->
  exists b s, info_of v = Some {| expose := VBool b; source := VStr s |}.
Proof.
  intros (b & s & -> & Hs). exists b, s.
  apply overrideInfo_stored_obj. destruct Hs as [-> | ->]; discriminate.
Qed.

Lemma well_formed_selected b : well_formed_override (stored_selected b).
Proof. exists b, "selected". split; [reflexivity | left; reflexivity]. Qed.

Lemma well_formed_implied b : well_formed_override (stored_implied b).
Proof. exists b, "implied". split; [reflexivity | right; reflexivity]. Qed.

Lemma well_formed_scan p es st :
  (forall k v, entity_overrides (_pendingConfig p) !! k = Some v ->
     well_formed_override v) ->
  scan_loop p es {| allSelected := true; allSameValue := true; firstValue := VNull |}
  = Ok st ->
  agreed st = true -> exists b, firstValue st = VBool b.
Proof.
  intros Hwf Hst Hag.
  destruct (scan_loop_agreed_inv p es VNull st) as (b & Hb & _); [| | exact Hst | exact Hag |].
  - intros e i _ Hi _. unfold entityInfo, stored in Hi.
    destruct (entity_overrides (_pendingConfig p) !! entity_id e) as [v|] eqn:Hv;
      [|discriminate].
    destruct (well_formed_info v (Hwf _ _ Hv)) as (b & s & Hinfo).
    simpl in Hi. rewrite Hinfo in Hi. injection Hi as <-. exists b. reflexivity.
  - left. reflexivity.
  - exists b. exact Hb.
Qed.

Lemma well_formed_recalculate d p p' :
  well_formed_document p ->
  _recalculateDeviceState d p = Ok p' -> well_formed_document p'.
Proof.
  intros [Hwe Hwd] E. destruct (recalculate_eq d p) as (st & Hst & E1).
  rewrite E1 in E. injection E as <-.
  destruct (_ || _); [split; assumption|].
  split; [exact Hwe|]. cbn. intros k v. unfold recalculated_overrides.
  destruct (agreed st) eqn:Hag.
  - destruct (well_formed_scan p _ st Hwe Hst Hag) as [b ->].
    destruct (decide (k = d)) as [->|Hne].
    + rewrite lookup_insert_eq. intros [= <-]. apply well_formed_implied.
    + rewrite lookup_insert_ne by congruence. apply Hwd.
  - destruct (source_is (deviceInfo p d) "implied"); [|apply Hwd].
    destruct (decide (k = d)) as [->|Hne].
    + rewrite lookup_delete_eq. discriminate.
    + rewrite lookup_delete_ne by congruence. apply Hwd.
Qed.

Lemma well_formed_mark_changed p :
  well_formed_document p -> well_formed_document (mark_changed p).
Proof. intros H. exact H. Qed.

Lemma well_formed_edit ed p :
  well_formed_document p ->
  exists p', apply_edit ed p = Ok p' /\ well_formed_document p'.
Proof.
  intros [Hwe Hwd]. destruct ed as [e b | d b]; simpl.
  - assert (Hw1 : well_formed_document
                    (with_config (set_entity_overrides (clicked_entity_overrides e b p)
                                                       (_pendingConfig p)) p)).
    { split; [|exact Hwd]. cbn. intros k v. unfold clicked_entity_overrides.
      destruct (expose_is _ _ && source_is _ _).
      - destruct (decide (k = e)) as [->|Hne].
        + rewrite lookup_delete_eq. discriminate.
        + rewrite lookup_delete_ne by congruence. apply Hwe.
      - destruct (decide (k = e)) as [->|Hne].
        + rewrite lookup_insert_eq. intros [= <-]. apply well_formed_selected.
        + rewrite lookup_insert_ne by congruence. apply Hwe. }
    destruct (owner e p) as [d|] eqn:Ho.
    + rewrite (entity_click_unfold e b p d Ho).
      destruct (recalculate_shape d
                  (with_config (set_entity_overrides (clicked_entity_overrides e b p)
                                                     (_pendingConfig p)) p))
        as (m' & E & _).
      rewrite E, bind_Ok. eexists. split; [reflexivity|].
      apply well_formed_mark_changed, (well_formed_recalculate d _ _ Hw1 E).
    + rewrite (entity_click_no_owner e b p Ho). eexists. split; [reflexivity|].
      apply well_formed_mark_changed, Hw1.
  - destruct (device_click_shape d b p) as (m' & E & Hm').
    eexists. split; [exact E|]. split; cbn.
    + intros k v. rewrite Hm'.
      destruct (targeted p (deviceEntities d p) k); [|apply Hwe].
      unfold propagated. destruct (clicked_device_target d b p) as [b'|].
      * destruct (negb _ || _); [|apply Hwe].
        intros [= <-]. apply well_formed_implied.
      * destruct (source_is _ _); [discriminate | apply Hwe].
    + intros k v. unfold clicked_device_overrides.
      destruct (device_selected_with p d b).
      * destruct (decide (k = d)) as [->|Hne].
        -- rewrite lookup_delete_eq. discriminate.
        -- rewrite lookup_delete_ne by congruence. apply Hwd.
      * destruct (decide (k = d)) as [->|Hne].
        -- rewrite lookup_insert_eq. intros [= <-]. apply well_formed_selected.
        -- rewrite lookup_insert_ne by congruence. apply Hwd.
Qed.

(** X8: button clicks keep the override dictionaries within the data model.
    If every stored override is an [{expose, source}] object with a boolean
    and source [selected] or [implied], then any sequence of entity and
    device clicks returns, and the same holds of the resulting document. *)
Theorem clicks_keep_document_well_formed (p : Panel) (eds : list Edit) :
  well_formed_document p ->
  exists p', run eds p = Ok p' /\ well_formed_document p'.
Proof.
  revert p. induction eds as [|ed eds IH]; intros p Hwf.
  - exists p. split; [reflexivity | exact Hwf].
  - destruct (well_formed_edit ed p Hwf) as (p1 & E1 & Hwf1).
    destruct (IH p1 Hwf1) as (p' & E' & Hwf').
    exists p'. split; [simpl; rewrite E1; exact E' | exact Hwf'].
Qed.

Lemma well_formed_panel_scenario : well_formed_document panel_scenario.
Proof.
  split; cbn; intros k v H.
  - destruct (decide (k = "light.e1")) as [->|Hne].
    + rewrite lookup_singleton_eq in H. injection H as <-. apply well_formed_selected.
    + rewrite lookup_singleton_ne in H by congruence. discriminate.
  - rewrite lookup_empty in H. discriminate.
Qed.

Lemma clicks_keep_document_well_formed_witness :
  exists p',
    run [EntityClick "light.e2" true; DeviceClick "d1" false] panel_scenario = Ok p'
    /\ well_formed_document p'.
Proof.
  apply clicks_keep_document_well_formed, well_formed_panel_scenario.
Defined.

(** ** Clicking twice *)

(** X9: the entity button is a toggle on the entity alone.  Two clicks on
    the same button leave every other entity as it was; they bring an entity
    that was selected with the clicked value back to that selection, and
    leave an entity that was in any other state (unset, implied, selected
    with the other value) without an override. *)
Theorem entity_double_click (p : Panel) (e : string) (b : bool) :
  exists p1 p2,
    _handleEntityButtonClick e b p = Ok p1
    /\ _handleEntityButtonClick e b p1 = Ok p2
    /\ (forall k, k <> e ->
          entity_overrides (_pendingConfig p2) !! k
          = entity_overrides (_pendingConfig p) !! k)
    /\ (_getEntityOverrideInfo e p = Ok (Some (selected b)) ->
          entity_overrides (_pendingConfig p2) !! e = Some (stored_selected b))
    /\ (_getEntityOverrideInfo e p <> Ok (Some (selected b)) ->
          entity_overrides (_pendingConfig p2) !! e = None).
Proof.
  destruct (entity_click_shape e b p) as (m1 & E1 & _).
  set (p1 := mark_changed
               (with_config
                  (set_device_overrides m1
                     (set_entity_overrides (clicked_entity_overrides e b p)
                                           (_pendingConfig p))) p)) in *.
  destruct (entity_click_shape e b p1) as (m2 & E2 & _).
  exists p1. eexists. split; [exact E1|]. split; [exact E2|]. clear E1 E2.
  read_fields.
  assert (Hinfo1 : entityInfo p1 e
                   = info_of (stored (clicked_entity_overrides e b p) e)) by reflexivity.
  assert (Hmap1 : entity_overrides (_pendingConfig p1) = clicked_entity_overrides e b p)
    by reflexivity.
  unfold clicked_entity_overrides at 1 2 3. rewrite Hinfo1, Hmap1. clear Hinfo1 Hmap1.
  unfold clicked_entity_overrides.
  rewrite getEntityInfo_eq.
  destruct (expose_is (entityInfo p e) b && source_is (entityInfo p e) "selected")
    eqn:Hc.
  - rewrite (stored_lookup_None _ _ (lookup_delete_eq _ _)). simpl.
    split; [|split].
    + intros k Hne. rewrite lookup_insert_ne, lookup_delete_ne by congruence. reflexivity.
    + intros _. apply lookup_insert_eq.
    + intros Hn. exfalso. apply Hn. f_equal. apply is_selected_iff, Hc.
  - rewrite (stored_lookup _ _ _ (lookup_insert_eq _ _ _)).
    assert (Hs : info_of (stored_selected b) = Some (selected b))
      by (destruct b; reflexivity).
    rewrite Hs.
    assert (Hsel : expose_is (Some (selected b)) b
                   && source_is (Some (selected b)) "selected" = true)
      by (apply is_selected_iff; reflexivity).
    rewrite Hsel. split; [|split].
    + intros k Hne. rewrite lookup_delete_ne, lookup_insert_ne by congruence. reflexivity.
    + intros [= Hi]. apply is_selected_iff in Hi. congruence.
    + intros _. apply lookup_delete_eq.
Qed.

(** An implied entity does not come back: two clicks on "exclude" leave
    [light.e2] without an override. *)
Lemma entity_double_click_witness :
  exists p1 p2,
    _handleEntityButtonClick "light.e2" false panel_device_selected = Ok p1
    /\ _handleEntityButtonClick "light.e2" false p1 = Ok p2
    /\ entity_overrides (_pendingConfig p2) !! "light.e2" = None
    /\ entity_overrides (_pendingConfig p2) !! "light.e1" = Some (stored_selected true).
Proof.
  destruct (entity_double_click panel_device_selected "light.e2" false)
    as (p1 & p2 & E1 & E2 & Hother & _ & Hoff).
  exists p1, p2. split; [exact E1|]. split; [exact E2|]. split.
  - apply Hoff. vm_compute. discriminate.
  - rewrite Hother by discriminate. reflexivity.
Defined.

(** X10: on a device without an override none of whose non-filtered owned
    entities is implied (each has no stored override, or a normalised one
    with another source), clicking a device button twice restores both
    override dictionaries exactly. *)
Theorem device_double_click_restores (p : Panel) (d : string) (b : bool) :
  device_overrides (_pendingConfig p) !! d = None ->
  (forall k, propagation_target p d k ->
     entity_overrides (_pendingConfig p) !! k = None
     \/ exists i, _getEntityOverrideInfo k p = Ok (Some i)
                  /\ source i <> VStr "implied") ->
  exists p1 p2,
    _handleDeviceButtonClick d b p = Ok p1
    /\ _handleDeviceButtonClick d b p1 = Ok p2
    /\ entity_overrides (_pendingConfig p2) = entity_overrides (_pendingConfig p)
    /\ device_overrides (_pendingConfig p2) = device_overrides (_pendingConfig p).
Proof.
  intros Hdev Hent.
  destruct (device_click_shape d b p) as (m1 & E1 & Hm1).
  set (p1 := mark_changed
               (with_config
                  (set_entity_overrides m1
                     (set_device_overrides (clicked_device_overrides d b p)
                                           (_pendingConfig p))) p)) in *.
  destruct (device_click_shape d b p1) as (m2 & E2 & Hm2).
  exists p1. eexists. split; [exact E1|]. split; [exact E2|]. clear E1 E2.
  read_fields.
  assert (Hsel0 : device_selected_with p d b = false).
  { unfold device_selected_with, deviceInfo.
    rewrite (stored_lookup_None _ _ Hdev). reflexivity. }
  assert (Hc0 : clicked_device_overrides d b p
                = <[d := stored_selected b]> (device_overrides (_pendingConfig p)))
    by (unfold clicked_device_overrides; rewrite Hsel0; reflexivity).
  assert (Ht0 : clicked_device_target d b p = Some b)
    by (unfold clicked_device_target; rewrite Hsel0; reflexivity).
  assert (Hsel1 : device_selected_with p1 d b = true).
  { unfold device_selected_with.
    change (deviceInfo p1 d)
      with (info_of (stored (clicked_device_overrides d b p) d)).
    rewrite Hc0, (stored_lookup _ _ _ (lookup_insert_eq _ _ _)).
    assert (Hs : info_of (stored_selected b) = Some (selected b))
      by (destruct b; reflexivity).
    rewrite Hs. apply is_selected_iff. reflexivity. }
  split.
  - apply map_eq. intros k. rewrite Hm2.
    change (targeted p1 (deviceEntities d p1) k)
      with (targeted p (deviceEntities d p) k).
    change (entity_overrides (_pendingConfig p1) !! k) with (m1 !! k).
    change (entityInfo p1 k) with (info_of (default VUndef (m1 !! k))).
    unfold clicked_device_target. rewrite Hsel1.
    rewrite Hm1, Ht0.
    destruct (targeted p (deviceEntities d p) k) eqn:Ht; [|reflexivity].
    apply targeted_iff in Ht.
    destruct (Hent k Ht) as [Hnone | (i & Hi & Hs)].
    + unfold entityInfo, stored. rewrite Hnone. simpl.
      destruct b; reflexivity.
    + rewrite getEntityInfo_eq in Hi. injection Hi as Hi.
      assert (Himp : source_is (entityInfo p k) "implied" = false).
      { rewrite Hi. simpl. destruct (strict_eq (source i) (VStr "implied")) eqn:E;
          [apply strict_eq_str in E; contradiction | reflexivity]. }
      unfold propagated at 2. rewrite Himp, Hi.
      rewrite (bool_decide_eq_true_2 (is_Some (Some i))) by eauto. simpl.
      unfold entityInfo, stored in Hi. unfold propagated. rewrite Hi.
      simpl. destruct (strict_eq (source i) (VStr "implied")) eqn:E;
        [apply strict_eq_str in E; contradiction | reflexivity].
  - unfold clicked_device_overrides at 1. rewrite Hsel1.
    change (device_overrides (_pendingConfig p1))
      with (clicked_device_overrides d b p).
    rewrite Hc0. apply delete_insert_id, Hdev.
Qed.

Lemma device_double_click_restores_witness :
  exists p1 p2,
    _handleDeviceButtonClick "d1" false panel_scenario = Ok p1
    /\ _handleDeviceButtonClick "d1" false p1 = Ok p2
    /\ entity_overrides (_pendingConfig p2)
       = entity_overrides (_pendingConfig panel_scenario)
    /\ device_overrides (_pendingConfig p2)
       = device_overrides (_pendingConfig panel_scenario).
Proof.
  apply device_double_click_restores; [reflexivity|].
  intros k [(e & He & _ & <-) _]. cbn in He.
  destruct (elem_of_pair _ _ _ He) as [-> | ->].
  - right. eexists. split; [reflexivity | discriminate].
  - left. reflexivity.
Defined.

(** ** Filtering items from the list *)

Lemma remove_first_elem_other x y l : y <> x -> (y ∈ remove_first x l <-> y ∈ l).
Proof.
  intros Hne. induction l as [|z l IH]; simpl; [reflexivity|].
  case_bool_decide as Hz.
  - subst z. rewrite elem_of_cons. split; [auto | intros [?|?]; [contradiction | assumption]].
  - rewrite !elem_of_cons, IH. reflexivity.
Qed.

Lemma remove_first_NoDup x l : NoDup l -> NoDup (remove_first x l) /\ x ∉ remove_first x l.
Proof.
  induction l as [|z l IH]; intros H; simpl.
  - split; [exact H | apply not_elem_of_nil].
  - apply NoDup_cons in H as [Hz Hl]. case_bool_decide as Hzx.
    + subst z. split; assumption.
    + destruct (IH Hl) as [Hnd Hx]. split.
      * apply NoDup_cons. split; [|exact Hnd].
        rewrite remove_first_elem_other by exact Hzx. exact Hz.
      * rewrite elem_of_cons. intros [Heq | Hin]; [congruence | contradiction].
Qed.

Lemma toggle_member_other x y l : y <> x -> (y ∈ toggle_member x l <-> y ∈ l).
Proof.
  intros Hne. unfold toggle_member. case_bool_decide.
  - apply remove_first_elem_other, Hne.
  - rewrite elem_of_app, list_elem_of_singleton. tauto.
Qed.

Lemma toggle_member_NoDup x l :
  NoDup l -> NoDup (toggle_member x l) /\ (x ∈ toggle_member x l <-> x ∉ l).
Proof.
  intros H. unfold toggle_member. case_bool_decide as Hx.
  - destruct (remove_first_NoDup x l H) as [Hnd Hn]. split; [exact Hnd | tauto].
  - split.
    + apply NoDup_app. split; [exact H|]. split; [|apply NoDup_singleton].
      intros y Hy Hy'. apply list_elem_of_singleton in Hy'. subst. contradiction.
    + rewrite elem_of_app, list_elem_of_singleton. tauto.
Qed.

Lemma bool_decide_ext_iff (P Q : Prop) `{Decision P, Decision Q} :
  (P <-> Q) -> bool_decide P = bool_decide Q.
Proof. intros H1. apply bool_decide_ext, H1. Qed.

(** X11: the filter toggles touch nothing but their own list and the
    changed flag: overrides, entity configuration and the other list stay as
    they are and every other identifier keeps its filtered state.  On a list
    without duplicates the toggle flips the filtered state of its
    identifier and the list stays without duplicates. *)
Theorem filter_toggle_flips (p : Panel) (x : string) :
  (entity_overrides (_pendingConfig (_toggleEntityFiltered x p))
     = entity_overrides (_pendingConfig p)
   /\ device_overrides (_pendingConfig (_toggleEntityFiltered x p))
     = device_overrides (_pendingConfig p)
   /\ entity_config (_pendingConfig (_toggleEntityFiltered x p))
     = entity_config (_pendingConfig p)
   /\ filtered_devices (_pendingConfig (_toggleEntityFiltered x p))
     = filtered_devices (_pendingConfig p)
   /\ _hasChanges (_toggleEntityFiltered x p) = true
   /\ (forall y, y <> x ->
         _isEntityFiltered y (_toggleEntityFiltered x p) = _isEntityFiltered y p)
   /\ (NoDup (filtered_entities (_pendingConfig p)) ->
         NoDup (filtered_entities (_pendingConfig (_toggleEntityFiltered x p)))
         /\ _isEntityFiltered x (_toggleEntityFiltered x p)
            = negb (_isEntityFiltered x p)))
  /\ (entity_overrides (_pendingConfig (_toggleDeviceFiltered x p))
     = entity_overrides (_pendingConfig p)
   /\ device_overrides (_pendingConfig (_toggleDeviceFiltered x p))
     = device_overrides (_pendingConfig p)
   /\ entity_config (_pendingConfig (_toggleDeviceFiltered x p))
     = entity_config (_pendingConfig p)
   /\ filtered_entities (_pendingConfig (_toggleDeviceFiltered x p))
     = filtered_entities (_pendingConfig p)
   /\ _hasChanges (_toggleDeviceFiltered x p) = true
   /\ (forall y, y <> x ->
         _isDeviceFiltered y (_toggleDeviceFiltered x p) = _isDeviceFiltered y p)
   /\ (NoDup (filtered_devices (_pendingConfig p)) ->
         NoDup (filtered_devices (_pendingConfig (_toggleDeviceFiltered x p)))
         /\ _isDeviceFiltered x (_toggleDeviceFiltered x p)
            = negb (_isDeviceFiltered x p))).
Proof.
  split; (do 5 (split; [reflexivity|])); split.
  - intros y Hne. unfold _isEntityFiltered. cbn.
    apply bool_decide_ext_iff, toggle_member_other, Hne.
  - intros Hnd. cbn. destruct (toggle_member_NoDup x _ Hnd) as [H1 H2].
    split; [exact H1|]. unfold _isEntityFiltered. cbn.
    rewrite <- bool_decide_not. apply bool_decide_ext_iff, H2.
  - intros y Hne. unfold _isDeviceFiltered. cbn.
    apply bool_decide_ext_iff, toggle_member_other, Hne.
  - intros Hnd. cbn. destruct (toggle_member_NoDup x _ Hnd) as [H1 H2].
    split; [exact H1|]. unfold _isDeviceFiltered. cbn.
    rewrite <- bool_decide_not. apply bool_decide_ext_iff, H2.
Qed.

Lemma filter_toggle_flips_witness :
  _isEntityFiltered "light.e1" (_toggleEntityFiltered "light.e1" panel_all_filtered)
  = false
  /\ _isEntityFiltered "light.e2" (_toggleEntityFiltered "light.e1" panel_all_filtered)
     = true
  /\ _isDeviceFiltered "d1" (_toggleDeviceFiltered "d1" panel_all_filtered) = true.
Proof.
  destruct (filter_toggle_flips panel_all_filtered "light.e1")
    as [(_ & _ & _ & _ & _ & Hother & Hflip) _].
  destruct (filter_toggle_flips panel_all_filtered "d1")
    as [_ (_ & _ & _ & _ & _ & _ & Hflipd)].
  assert (Hnd : NoDup (filtered_entities (_pendingConfig panel_all_filtered))).
  { cbn. apply NoDup_cons. split; [|apply NoDup_singleton].
    rewrite list_elem_of_singleton. discriminate. }
  assert (Hndd : NoDup (filtered_devices (_pendingConfig panel_all_filtered)))
    by (cbn; constructor).
  split; [|split].
  - rewrite (proj2 (Hflip Hnd)). reflexivity.
  - rewrite Hother by discriminate. reflexivity.
  - rewrite (proj2 (Hflipd Hndd)). reflexivity.
Defined.

Lemma remove_first_snoc x l : x ∉ l -> remove_first x (l ++ [x]) = l.
Proof.
  induction l as [|z l IH]; intros H; simpl.
  - rewrite bool_decide_eq_true_2 by reflexivity. reflexivity.
  - rewrite not_elem_of_cons in H. destruct H as [Hne Hl].
    rewrite bool_decide_eq_false_2 by congruence. rewrite IH by exact Hl. reflexivity.
Qed.

Lemma remove_first_Permutation x l : x ∈ l -> remove_first x l ++ [x] ≡ₚ l.
Proof.
  induction l as [|z l IH]; intros H; [inversion H|]. simpl.
  case_bool_decide as Hz.
  - subst z. symmetry. apply Permutation_cons_append.
  - apply elem_of_cons in H as [Heq | Hin]; [congruence|].
    simpl. rewrite IH by exact Hin. reflexivity.
Qed.

(** X12: toggling a filter twice.  If the identifier was not filtered the
    list comes back exactly; if it was (on a list without duplicates) the
    list comes back up to order, the identifier having moved to the end.
    Either way every identifier has its filtered state back. *)
Theorem filter_toggle_twice (p : Panel) (x : string) :
  (x ∉ filtered_entities (_pendingConfig p) ->
     filtered_entities (_pendingConfig (_toggleEntityFiltered x (_toggleEntityFiltered x p)))
     = filtered_entities (_pendingConfig p))
  /\ (NoDup (filtered_entities (_pendingConfig p)) ->
     filtered_entities (_pendingConfig (_toggleEntityFiltered x (_toggleEntityFiltered x p)))
     ≡ₚ filtered_entities (_pendingConfig p)
     /\ forall y, _isEntityFiltered y (_toggleEntityFiltered x (_toggleEntityFiltered x p))
                  = _isEntityFiltered y p).
Proof.
  assert (Hperm : forall l, NoDup l -> toggle_member x (toggle_member x l) ≡ₚ l).
  { intros l Hnd. unfold toggle_member at 2. case_bool_decide as Hx.
    - destruct (remove_first_NoDup x l Hnd) as [_ Hn].
      unfold toggle_member. rewrite bool_decide_eq_false_2 by exact Hn.
      apply remove_first_Permutation, Hx.
    - unfold toggle_member.
      rewrite bool_decide_eq_true_2 by (apply elem_of_app; right; left).
      rewrite remove_first_snoc by exact Hx. reflexivity. }
  split.
  - intros Hx. cbn. unfold toggle_member at 2.
    rewrite bool_decide_eq_false_2 by exact Hx. unfold toggle_member.
    rewrite bool_decide_eq_true_2 by (apply elem_of_app; right; left).
    apply remove_first_snoc, Hx.
  - intros Hnd. cbn. split; [apply Hperm, Hnd|].
    intros y. unfold _isEntityFiltered. cbn.
    apply bool_decide_ext_iff. rewrite (Hperm _ Hnd). reflexivity.
Qed.

Lemma filter_toggle_twice_witness :
  filtered_entities
    (_pendingConfig (_toggleEntityFiltered "light.e1"
                       (_toggleEntityFiltered "light.e1" panel_all_filtered)))
  = ["light.e2"; "light.e1"]
  /\ filtered_entities
       (_pendingConfig (_toggleEntityFiltered "light.e1"
                          (_toggleEntityFiltered "light.e1" panel_scenario)))
     = filtered_entities (_pendingConfig panel_scenario).
Proof.
  split; [reflexivity|].
  apply (proj1 (filter_toggle_twice panel_scenario "light.e1")).
  cbn. apply not_elem_of_nil.
Defined.

(** X13: hiding an entity freezes its override.  Once an entity has been
    put on the filtered list, no click on a device button writes its
    override, whichever device and whatever the entity's state. *)
Theorem filtered_entity_is_frozen (p : Panel) (x d : string) (b : bool) :
  x ∉ filtered_entities (_pendingConfig p) ->
  exists p',
    _handleDeviceButtonClick d b (_toggleEntityFiltered x p) = Ok p'
    /\ entity_overrides (_pendingConfig p') !! x
       = entity_overrides (_pendingConfig p) !! x.
Proof.
  intros Hx.
  destruct (device_click_shape d b (_toggleEntityFiltered x p)) as (m' & E & Hm').
  eexists. split; [exact E|]. cbn. rewrite Hm'.
  assert (Hf : _isEntityFiltered x (_toggleEntityFiltered x p) = true).
  { unfold _isEntityFiltered. cbn. apply bool_decide_eq_true.
    unfold toggle_member. rewrite bool_decide_eq_false_2 by exact Hx.
    apply elem_of_app. right. left. }
  unfold targeted. rewrite Hf, andb_false_r. reflexivity.
Qed.

Lemma filtered_entity_is_frozen_witness :
  exists p',
    _handleDeviceButtonClick "d1" false (_toggleEntityFiltered "light.e2" panel_scenario)
    = Ok p'
    /\ entity_overrides (_pendingConfig p') !! "light.e2" = None.
Proof.
  destruct (filtered_entity_is_frozen panel_scenario "light.e2" "d1" false)
    as (p' & E & H); [cbn; apply not_elem_of_nil|].
  exists p'. split; [exact E|]. rewrite H. reflexivity.
Defined.

(** ** Tabs and unsaved changes *)

Lemma setTab_frame tab n :
  nav_panel (_setTab tab n) = nav_panel n
  /\ _config (_setTab tab n) = _config n
  /\ _migrationNeeded (_setTab tab n) = _migrationNeeded n.
Proof.
  unfold _setTab. destruct (_migrationNeeded n && _); [auto|].
  destruct (_hasChanges (nav_panel n) && _); auto.
Qed.

Lemma setTab_pinned tab n :
  (_hasChanges (nav_panel n) = true -> _activeTab (_setTab tab n) = _activeTab n)
  /\ (_migrationNeeded n = true ->
      _activeTab (_setTab tab n) = _activeTab n
      \/ _activeTab (_setTab tab n) = "migration").
Proof.
  unfold _setTab. split.
  - intros Hc. rewrite Hc. destruct (_migrationNeeded n && _); [reflexivity|].
    destruct (String.eqb tab (_activeTab n)) eqn:E; simpl; [|reflexivity].
    apply String.eqb_eq, E.
  - intros Hm. rewrite Hm. destruct (String.eqb tab "migration") eqn:E; simpl;
      [|left; reflexivity].
    apply String.eqb_eq in E. subst tab.
    destruct (_hasChanges (nav_panel n) && _); [left | right]; reflexivity.
Qed.

(** X14: tab requests never touch the documents, and while there are
    unsaved changes no run of tab requests changes the active tab; while a
    migration is pending the active tab can only stay or become
    [migration]. *)
Theorem unsaved_changes_pin_the_tab (n : Nav) (tabs : list string) :
  nav_panel (setTabs tabs n) = nav_panel n
  /\ _config (setTabs tabs n) = _config n
  /\ (_hasChanges (nav_panel n) = true ->
      _activeTab (setTabs tabs n) = _activeTab n)
  /\ (_migrationNeeded n = true ->
      _activeTab (setTabs tabs n) = _activeTab n
      \/ _activeTab (setTabs tabs n) = "migration").
Proof.
  unfold setTabs. revert n. induction tabs as [|tab tabs IH]; intros n; simpl.
  - repeat split; auto.
  - destruct (IH (_setTab tab n)) as (Hp & Hc & Hpin & Hmig).
    destruct (setTab_frame tab n) as (Hp1 & Hc1 & Hm1).
    destruct (setTab_pinned tab n) as (Hpin1 & Hmig1).
    split; [congruence|]. split; [congruence|]. split.
    + intros Hch. rewrite Hpin by congruence. apply Hpin1, Hch.
    + intros Hm. destruct (Hmig ltac:(congruence)) as [H | H]; [|right; exact H].
      rewrite H. apply Hmig1, Hm.
Qed.

(** A panel with unsaved changes on the first tab. *)
Lemma unsaved_changes_pin_the_tab_witness :
  _activeTab
    (setTabs ["bulk_rules"; "settings"]
       {| nav_panel := panel_preview; _config := config_manual None;
          _activeTab := "devices_entities"; _pendingNavigation := None;
          _showUnsavedDialog := false; _migrationNeeded := false |})
  = "devices_entities".
Proof.
  apply (unsaved_changes_pin_the_tab
           {| nav_panel := panel_preview; _config := config_manual None;
              _activeTab := "devices_entities"; _pendingNavigation := None;
              _showUnsavedDialog := false; _migrationNeeded := false |}).
  reflexivity.
Defined.

(** X15: the unsaved-changes dialog.  From a panel with unsaved changes and
    no dialog open, a tab request followed by "Stay Here" gives back the
    panel as it was; followed by "Discard Changes" (no migration pending) it
    ends on the requested tab with the pending document reset to the
    persisted one, no unsaved changes, the dialog closed and no navigation
    pending. *)
Theorem unsaved_dialog_flows (n : Nav) (tab : string) :
  _hasChanges (nav_panel n) = true ->
  _showUnsavedDialog n = false ->
  _pendingNavigation n = None ->
  _cancelNavigation (_setTab tab n) = n
  /\ (_migrationNeeded n = false ->
      _activeTab (_confirmNavigation (_setTab tab n)) = tab
      /\ _pendingConfig (nav_panel (_confirmNavigation (_setTab tab n))) = _config n
      /\ _hasChanges (nav_panel (_confirmNavigation (_setTab tab n))) = false
      /\ _showUnsavedDialog (_confirmNavigation (_setTab tab n)) = false
      /\ _pendingNavigation (_confirmNavigation (_setTab tab n)) = None).
Proof.
  intros Hc Hd Hp. unfold _setTab. rewrite Hc. split.
  - destruct n as [pn cfg act pend dlg mig]. simpl in *. subst dlg pend.
    destruct (mig && _); [reflexivity|].
    destruct (String.eqb tab act) eqn:E; simpl; [|reflexivity].
    apply String.eqb_eq in E. subst. reflexivity.
  - intros Hm. rewrite Hm. simpl.
    destruct (String.eqb tab (_activeTab n)) eqn:E; simpl.
    + rewrite Hp. apply String.eqb_eq in E. auto.
    + auto.
Qed.

Lemma unsaved_dialog_flows_witness :
  _activeTab
    (_confirmNavigation
       (_setTab "settings"
          {| nav_panel := panel_preview; _config := config_manual (Some false);
             _activeTab := "devices_entities"; _pendingNavigation := None;
             _showUnsavedDialog := false; _migrationNeeded := false |}))
  = "settings"
  /\ _pendingConfig
       (nav_panel
          (_confirmNavigation
             (_setTab "settings"
                {| nav_panel := panel_preview; _config := config_manual (Some false);
                   _activeTab := "devices_entities"; _pendingNavigation := None;
                   _showUnsavedDialog := false; _migrationNeeded := false |})))
     = config_manual (Some false).
Proof.
  destruct (unsaved_dialog_flows
              {| nav_panel := panel_preview; _config := config_manual (Some false);
                 _activeTab := "devices_entities"; _pendingNavigation := None;
                 _showUnsavedDialog := false; _migrationNeeded := false |}
              "settings" eq_refl eq_refl eq_refl) as [_ H].
  destruct (H eq_refl) as (H1 & H2 & _). split; [exact H1 | exact H2].
Defined.

(** ** The entity configuration dialog *)

Lemma nonempty_idem (s : option string) : nonempty (nonempty s) = nonempty s.
Proof.
  destruct s as [x|]; simpl; [|reflexivity].
  destruct (String.eqb x "") eqn:E; simpl; [reflexivity | rewrite E; reflexivity].
Qed.

Lemma nonempty_not_empty (s : option string) : nonempty s <> Some EmptyString.
Proof.
  destruct s as [x|]; simpl; [|discriminate].
  destruct (String.eqb x "") eqn:E; [discriminate|].
  apply String.eqb_neq in E. congruence.
Qed.

Lemma nonempty_round (s : option string) :
  s <> Some EmptyString ->
  nonempty (Some (default EmptyString (nonempty s))) = s.
Proof.
  intros H. destruct s as [x|]; simpl; [|reflexivity].
  destruct (String.eqb x "") eqn:E.
  - apply String.eqb_eq in E. congruence.
  - simpl. rewrite E. reflexivity.
Qed.

Lemma draft_entry_normal (c : EntityConfig) :
  normal_entry c ->
  draft_entry (Some (default EmptyString (nonempty (ec_name c))))
              (default [] (ec_aliases c))
              (Some (default EmptyString (nonempty (ec_room c))))
  = Some c.
Proof.
  intros (Hn & Ha & Hr & Hne). unfold draft_entry. cbv zeta.
  rewrite (nonempty_round _ Hn), (nonempty_round _ Hr).
  assert (Hal : (if (0 <? length (default [] (ec_aliases c)))%nat
                 then Some (default [] (ec_aliases c)) else None) = ec_aliases c).
  { destruct (ec_aliases c) as [[|a l]|]; simpl; try reflexivity. congruence. }
  rewrite Hal. cbn [ec_name ec_aliases ec_room].
  destruct c as [[n|] [l|] [r|]]; simpl in *; try reflexivity.
  exfalso. apply Hne. reflexivity.
Qed.

Lemma draft_entry_is_normal name aliases room c :
  draft_entry name aliases room = Some c -> normal_entry c.
Proof.
  unfold draft_entry. cbv zeta. cbn [ec_name ec_aliases ec_room].
  destruct (_ || _ || _) eqn:Hany; [|discriminate].
  intros [= <-]. unfold normal_entry. cbn [ec_name ec_aliases ec_room].
  split; [apply nonempty_not_empty|]. split.
  { destruct aliases; simpl; [discriminate|]. discriminate. }
  split; [apply nonempty_not_empty|].
  intros Heq. unfold empty_entity_config in Heq. injection Heq as H1 H2 H3.
  rewrite H1, H2, H3 in Hany. discriminate.
Qed.

(** X16: opening the dialog and saving it without an edit writes back what
    was there.  For an entity with no entry, or with an entry in the form
    the dialog writes, the entity configuration is unchanged afterwards and
    the dialog is closed; the panel is marked as changed all the same. *)
Theorem open_then_save_round_trip (g : Dialog) (entity : Entity) :
  entity_config (_pendingConfig (dlg_panel g)) !! entity_id entity = None
  \/ (exists c, entity_config (_pendingConfig (dlg_panel g)) !! entity_id entity = Some c
                /\ normal_entry c) ->
  exists g',
    _saveEntityConfig (_openEntityConfigDialog entity g) = Ok g'
    /\ entity_config (_pendingConfig (dlg_panel g'))
       = entity_config (_pendingConfig (dlg_panel g))
    /\ _hasChanges (dlg_panel g') = true
    /\ _editingEntity g' = None
    /\ _entityConfigDraft g' = empty_draft.
Proof.
  intros H. unfold _saveEntityConfig, _openEntityConfigDialog.
  cbn [_editingEntity _entityConfigDraft aliases_of draft_aliases draft_name
       draft_room dlg_panel]. rewrite bind_Ok.
  eexists. split; [reflexivity|]. split; [|auto].
  cbn [dlg_panel _closeEntityConfigDialog mark_changed with_config _pendingConfig
       set_entity_config entity_config].
  unfold _getEntityConfig.
  destruct H as [Hnone | (c & Hc & Hnorm)].
  - rewrite Hnone. simpl. apply delete_id, Hnone.
  - rewrite Hc. change (default empty_entity_config (Some c)) with c.
    rewrite (draft_entry_normal c Hnorm). apply insert_id, Hc.
Qed.

(** A dialog over the sample panel, nothing being edited. *)
Lemma open_then_save_round_trip_witness :
  exists g',
    _saveEntityConfig
      (_openEntityConfigDialog e2
         {| dlg_panel := panel_preview; _editingEntity := None;
            _entityConfigDraft := empty_draft |}) = Ok g'
    /\ entity_config (_pendingConfig (dlg_panel g'))
       = entity_config (_pendingConfig panel_preview).
Proof.
  destruct (open_then_save_round_trip
              {| dlg_panel := panel_preview; _editingEntity := None;
                 _entityConfigDraft := empty_draft |} e2) as (g' & E & H & _).
  - right. exists manual_entry. split; [reflexivity|].
    repeat split; discriminate.
  - exists g'. split; [exact E | exact H].
Defined.

(** X17: whatever the draft holds, a save that returns writes only the entry
    of the edited entity, and that entry is either removed or in normal
    form (no empty name, alias list or room, and not empty as a whole);
    [_hasEntityConfig] then holds exactly when the entry is there. *)
Theorem save_writes_normal_entry (g g' : Dialog) :
  _saveEntityConfig g = Ok g' ->
  exists entity,
    _editingEntity g = Some entity
    /\ (forall k, k <> entity_id entity ->
          entity_config (_pendingConfig (dlg_panel g')) !! k
          = entity_config (_pendingConfig (dlg_panel g)) !! k)
    /\ (forall c, entity_config (_pendingConfig (dlg_panel g')) !! entity_id entity
                  = Some c -> normal_entry c)
    /\ _hasEntityConfig (entity_id entity) (dlg_panel g')
       = bool_decide (is_Some (entity_config (_pendingConfig (dlg_panel g'))
                                 !! entity_id entity))
    /\ entity_overrides (_pendingConfig (dlg_panel g'))
       = entity_overrides (_pendingConfig (dlg_panel g))
    /\ device_overrides (_pendingConfig (dlg_panel g'))
       = device_overrides (_pendingConfig (dlg_panel g)).
Proof.
  unfold _saveEntityConfig. destruct (_editingEntity g) as [entity|]; [|discriminate].
  destruct (aliases_of (_entityConfigDraft g)) as [aliases|]; [|discriminate].
  rewrite bind_Ok. intros [= <-]. exists entity. split; [reflexivity|].
  cbn [dlg_panel _closeEntityConfigDialog mark_changed with_config _pendingConfig
       set_entity_config entity_config entity_overrides device_overrides].
  unfold _hasEntityConfig, _getEntityConfig.
  cbn [dlg_panel _closeEntityConfigDialog mark_changed with_config _pendingConfig
       set_entity_config entity_config].
  destruct (draft_entry _ aliases _) as [c|] eqn:Hentry.
  - split; [intros k Hk; apply lookup_insert_ne; congruence|].
    rewrite lookup_insert_eq.
    pose proof (draft_entry_is_normal _ _ _ _ Hentry) as Hnorm.
    split; [intros c' [= <-]; exact Hnorm|]. split; [|auto].
    rewrite (bool_decide_eq_true_2 (is_Some (Some c))) by eauto. cbn [default].
    unfold draft_entry in Hentry. cbv zeta in Hentry.
    cbn [ec_name ec_aliases ec_room] in Hentry.
    destruct (_ || _ || _) eqn:Hany in Hentry; [|discriminate].
    injection Hentry as <-. cbn [id ec_name ec_aliases ec_room has_aliases].
    rewrite !nonempty_idem.
    destruct (bool_decide (is_Some (nonempty (draft_name (_entityConfigDraft g)))));
      [reflexivity|].
    destruct (bool_decide (is_Some (nonempty (draft_room (_entityConfigDraft g)))));
      [apply orb_true_r|].
    destruct (0 <? length aliases)%nat eqn:Hl.
    + unfold has_aliases. cbn [ec_aliases]. rewrite Hl. reflexivity.
    + rewrite (bool_decide_eq_false_2 (is_Some None)) in Hany by (intros [? [=]]).
      discriminate.
  - split; [intros k Hk; apply lookup_delete_ne; congruence|].
    rewrite lookup_delete_eq. split; [discriminate|]. split; [|auto].
    rewrite (bool_decide_eq_false_2 (is_Some None)) by (intros [? [=]]). reflexivity.
Qed.

Lemma save_writes_normal_entry_witness :
  exists g',
    _saveEntityConfig
      {| dlg_panel := panel_preview; _editingEntity := Some e1;
         _entityConfigDraft :=
           {| draft_name := Some ""; draft_aliases := Some ["desk"];
              draft_room := Some ""; _newAlias := Some "" |} |} = Ok g'
    /\ _hasEntityConfig "light.e1" (dlg_panel g') = true.
Proof.
  assert (E : exists g',
             _saveEntityConfig
               {| dlg_panel := panel_preview; _editingEntity := Some e1;
                  _entityConfigDraft :=
                    {| draft_name := Some ""; draft_aliases := Some ["desk"];
                       draft_room := Some ""; _newAlias := Some "" |} |} = Ok g')
    by (eexists; reflexivity).
  destruct E as [g' E]. exists g'. split; [exact E|].
  destruct (save_writes_normal_entry _ g' E) as (entity & He & _ & _ & Hhas & _).
  injection He as <-. change (entity_id e1) with "light.e1" in Hhas.
  rewrite Hhas. vm_compute in E. injection E as <-. reflexivity.
Defined.

(** X18: editing the alias list of the draft.  On a draft whose alias list
    has no duplicates the three edits return and keep it so: [_addAlias]
    appends the trimmed input unless it is blank or already listed (a blank
    input changes nothing), [_addSuggestedAlias] makes the alias listed, and
    [_removeAlias] removes the alias and nothing else. *)
Theorem alias_edits_keep_distinct (g : Dialog) (aliases : list string) :
  draft_aliases (_entityConfigDraft g) = Some aliases ->
  NoDup aliases ->
  (exists g' l',
     _addAlias g = Ok g' /\ draft_aliases (_entityConfigDraft g') = Some l'
     /\ NoDup l'
     /\ (nonempty (trim <$> _newAlias (_entityConfigDraft g)) = None -> g' = g)
     /\ (forall a, nonempty (trim <$> _newAlias (_entityConfigDraft g)) = Some a ->
           (a ∈ l') /\ a <> EmptyString))
  /\ (forall a, exists g' l',
     _addSuggestedAlias a g = Ok g' /\ draft_aliases (_entityConfigDraft g') = Some l'
     /\ NoDup l' /\ (a ∈ l') /\ (forall x, x ∈ aliases -> x ∈ l'))
  /\ (forall a, exists g' l',
     _removeAlias a g = Ok g' /\ draft_aliases (_entityConfigDraft g') = Some l'
     /\ NoDup l' /\ (a ∉ l') /\ (forall x, x <> a -> (x ∈ l' <-> x ∈ aliases))).
Proof.
  intros Hal Hnd.
  assert (Hsnoc : forall a, a ∉ aliases -> NoDup (aliases ++ [a])).
  { intros a Ha. apply NoDup_app. split; [exact Hnd|]. split; [|apply NoDup_singleton].
    intros y Hy Hy'. apply list_elem_of_singleton in Hy'. subst. contradiction. }
  split; [|split].
  - unfold _addAlias.
    destruct (nonempty (trim <$> _newAlias (_entityConfigDraft g))) as [alias|] eqn:Hn.
    + unfold aliases_of. rewrite Hal, bind_Ok. case_bool_decide as Hin.
      * exists g, aliases. split; [reflexivity|]. split; [exact Hal|].
        split; [exact Hnd|]. split; [discriminate|].
        intros a [= <-]. split; [exact Hin|].
        intros ->. exact (nonempty_not_empty _ Hn).
      * eexists. exists (aliases ++ [alias]). split; [reflexivity|].
        split; [reflexivity|]. split; [apply Hsnoc, Hin|]. split; [discriminate|].
        intros a [= <-]. split; [apply elem_of_app; right; left|].
        intros ->. exact (nonempty_not_empty _ Hn).
    + exists g, aliases. split; [reflexivity|]. split; [exact Hal|].
      split; [exact Hnd|]. split; [reflexivity | discriminate].
  - intros a. unfold _addSuggestedAlias, aliases_of. rewrite Hal, bind_Ok.
    case_bool_decide as Hin.
    + exists g, aliases. split; [reflexivity|]. split; [exact Hal|].
      split; [exact Hnd|]. split; [exact Hin | auto].
    + eexists. exists (aliases ++ [a]). split; [reflexivity|].
      split; [reflexivity|]. split; [apply Hsnoc, Hin|].
      split; [apply elem_of_app; right; left|].
      intros x Hx. apply elem_of_app. left. exact Hx.
  - intros a. unfold _removeAlias, aliases_of. rewrite Hal, bind_Ok.
    eexists. eexists. split; [reflexivity|]. split; [reflexivity|].
    split; [apply filter_NoDup, Hnd|]. split.
    + intros Hin. apply list_elem_of_In, filter_In in Hin. destruct Hin as [_ Hin].
      rewrite String.eqb_refl in Hin. discriminate.
    + intros x Hx. rewrite !list_elem_of_In, filter_In.
      apply String.eqb_neq in Hx. rewrite Hx. simpl. tauto.
Qed.

Lemma alias_edits_keep_distinct_witness :
  exists g' l',
    _addAlias
      {| dlg_panel := panel_preview; _editingEntity := Some e2;
         _entityConfigDraft :=
           {| draft_name := Some ""; draft_aliases := Some ["hall lamp"];
              draft_room := Some "Hall"; _newAlias := Some "  lamp " |} |} = Ok g'
    /\ draft_aliases (_entityConfigDraft g') = Some l'
    /\ NoDup l' /\ ("lamp" ∈ l').
Proof.
  destruct (alias_edits_keep_distinct
              {| dlg_panel := panel_preview; _editingEntity := Some e2;
                 _entityConfigDraft :=
                   {| draft_name := Some ""; draft_aliases := Some ["hall lamp"];
                      draft_room := Some "Hall"; _newAlias := Some "  lamp " |} |}
              ["hall lamp"] eq_refl (NoDup_singleton _))
    as [(g' & l' & E & Hl & Hnd & _ & Hin) _].
  exists g', l'. split; [exact E|]. split; [exact Hl|]. split; [exact Hnd|].
  apply (Hin "lamp"). reflexivity.
Defined.

(** X19: a suggestion shown in the dialog is never already among the
    draft's aliases, so clicking it always appends it, and once added it is
    not suggested again. *)
Theorem suggested_alias_is_new (g : Dialog) (aliases suggestions : list string)
    (s : string) :
  draft_aliases (_entityConfigDraft g) = Some aliases ->
  _generateAliasSuggestions g = Ok suggestions ->
  s ∈ suggestions ->
  (s ∉ aliases)
  /\ exists g' suggestions',
       _addSuggestedAlias s g = Ok g'
       /\ draft_aliases (_entityConfigDraft g') = Some (aliases ++ [s])
       /\ _generateAliasSuggestions g' = Ok suggestions'
       /\ (s ∉ suggestions').
Proof.
  intros Hal Hgen Hs. unfold _generateAliasSuggestions in Hgen.
  match type of Hgen with
  | (?m ≫= _) = _ => destruct m as [baseName|err] eqn:Hbase; [|discriminate]
  end.
  rewrite bind_Ok, Hal in Hgen. injection Hgen as <-.
  destruct (generateAliasSuggestions_elem _ _ _ _ Hs) as (_ & _ & Hnew).
  split; [exact Hnew|].
  unfold _addSuggestedAlias, aliases_of. rewrite Hal, bind_Ok.
  rewrite bool_decide_eq_false_2 by exact Hnew.
  eexists. eexists. split; [reflexivity|]. split; [reflexivity|].
  unfold _generateAliasSuggestions.
  cbn [_entityConfigDraft with_draft with_aliases draft_name draft_aliases
       _editingEntity].
  rewrite Hbase, bind_Ok. split; [reflexivity|].
  intros Hin. destruct (generateAliasSuggestions_elem _ _ _ _ Hin) as (_ & _ & Hn).
  apply Hn. apply elem_of_app. right. left.
Qed.

Lemma suggested_alias_is_new_witness :
  ("Desk Lights" ∉ ["desk lamp"])
  /\ exists g' suggestions',
       _addSuggestedAlias "Desk Lights"
         {| dlg_panel := panel_preview; _editingEntity := Some e1;
            _entityConfigDraft :=
              {| draft_name := Some ""; draft_aliases := Some ["desk lamp"];
                 draft_room := Some ""; _newAlias := Some "" |} |} = Ok g'
       /\ draft_aliases (_entityConfigDraft g') = Some (["desk lamp"] ++ ["Desk Lights"])
       /\ _generateAliasSuggestions g' = Ok suggestions'
       /\ ("Desk Lights" ∉ suggestions').
Proof.
  apply (suggested_alias_is_new
           {| dlg_panel := panel_preview; _editingEntity := Some e1;
              _entityConfigDraft :=
                {| draft_name := Some ""; draft_aliases := Some ["desk lamp"];
                   draft_room := Some ""; _newAlias := Some "" |} |}
           ["desk lamp"]
           ["Desk Lights"; "Desk lights"; "the Desk Light"]).
  - reflexivity.
  - vm_compute. reflexivity.
  - left.
Defined.

(** ** The device and entity list *)








(** ** Device clicks and the recompute *)

(** X22: a device click never recomputes the device.  When a device that is
    selected with the clicked value is toggled off while all its
    non-filtered owned entities (at least one) are selected with one value,
    the device is left without an override, although the recompute run on
    the result would make it implied with that value. *)
Theorem device_toggle_off_is_not_recomputed (p : Panel) (d : string) (b v : bool) :
  _getDeviceOverrideInfo d p = Ok (Some (selected b)) ->
  activeEntities d p <> [] ->
  all_active_selected p d v ->
  exists p' p'',
    _handleDeviceButtonClick d b p = Ok p'
    /\ device_overrides (_pendingConfig p') !! d = None
    /\ _recalculateDeviceState d p' = Ok p''
    /\ device_overrides (_pendingConfig p'') !! d = Some (stored_implied v).
Proof.
  intros Hdev Hne Hall.
  destruct (device_click_shape d b p) as (m' & E & Hm').
  set (p' := mark_changed
               (with_config
                  (set_entity_overrides m'
                     (set_device_overrides (clicked_device_overrides d b p)
                                           (_pendingConfig p))) p)) in *.
  rewrite getDeviceInfo_eq in Hdev. injection Hdev as Hdev.
  assert (Hsel : device_selected_with p d b = true)
    by (unfold device_selected_with; apply is_selected_iff, Hdev).
  assert (Hdel : device_overrides (_pendingConfig p') !! d = None).
  { cbn. unfold clicked_device_overrides. rewrite Hsel. apply lookup_delete_eq. }
  assert (Hent : forall e, e ∈ activeEntities d p ->
            entityInfo p' (entity_id e) = Some (selected v)).
  { intros e He. specialize (Hall e He). rewrite getEntityInfo_eq in Hall.
    injection Hall as Hall. unfold entityInfo, stored. cbn. rewrite Hm'.
    destruct (targeted p (deviceEntities d p) (entity_id e)).
    - rewrite propagated_selected by (rewrite Hall; reflexivity). exact Hall.
    - exact Hall. }
  destruct (recalculate_eq d p') as (st & Hst & E2).
  change (activeEntities d p') with (activeEntities d p) in *.
  rewrite (scan_loop_agree p' v (activeEntities d p) VNull Hent (or_introl eq_refl))
    in Hst.
  injection Hst as <-.
  assert (Hlen : (length (activeEntities d p) =? 0)%nat = false)
    by (destruct (activeEntities d p); [contradiction | reflexivity]).
  assert (Hinfo : deviceInfo p' d = None)
    by (unfold deviceInfo; rewrite (stored_lookup_None _ _ Hdel); reflexivity).
  rewrite Hlen, Hinfo in E2. simpl orb in E2.
  exists p'. eexists. split; [exact E|]. split; [exact Hdel|].
  split; [exact E2|]. cbn. unfold recalculated_overrides, agreed.
  destruct (activeEntities d p) as [|e0 es]; [contradiction|].
  cbn. apply lookup_insert_eq.
Qed.

(** The device and both entities are selected for exposure. *)
Lemma device_toggle_off_is_not_recomputed_witness :
  exists p' p'',
    _handleDeviceButtonClick "d1" true
      (panel_of [e1; e2]
         {["light.e1" := stored_selected true; "light.e2" := stored_selected true]}
         {["d1" := stored_selected true]} [] []) = Ok p'
    /\ device_overrides (_pendingConfig p') !! "d1" = None
    /\ _recalculateDeviceState "d1" p' = Ok p''
    /\ device_overrides (_pendingConfig p'') !! "d1" = Some (stored_implied true).
Proof.
  apply device_toggle_off_is_not_recomputed.
  - reflexivity.
  - vm_compute. discriminate.
  - intros e He.
    assert (Hact : activeEntities "d1"
                     (panel_of [e1; e2]
                        {["light.e1" := stored_selected true;
                          "light.e2" := stored_selected true]}
                        {["d1" := stored_selected true]} [] []) = [e1; e2])
      by (vm_compute; reflexivity).
    rewrite Hact in He. destruct (elem_of_pair _ _ _ He) as [-> | ->]; reflexivity.
Defined.

(** X23: after "Expose All" or "Exclude All" (the device not being selected
    with that value already) every non-filtered owned entity has an
    override, and every such entity whose override is implied carries the
    clicked value: no implied entity is left with the opposite value. *)
Theorem device_select_covers_entities (p : Panel) (d : string) (b : bool) :
  _getDeviceOverrideInfo d p <> Ok (Some (selected b)) ->
  exists p',
    _handleDeviceButtonClick d b p = Ok p'
    /\ forall k, propagation_target p d k ->
         exists i, _getEntityOverrideInfo k p' = Ok (Some i)
                   /\ (source i = VStr "implied" -> expose i = VBool b).
Proof.
  intros Hn.
  destruct (device_click_shape d b p) as (m' & E & Hm').
  eexists. split; [exact E|]. intros k Ht.
  rewrite getEntityInfo_eq. unfold entityInfo, stored. cbn. rewrite Hm'.
  apply targeted_iff in Ht. rewrite Ht.
  assert (Hsel : device_selected_with p d b = false).
  { destruct (device_selected_with p d b) eqn:Hs; [|reflexivity].
    exfalso. apply Hn. rewrite getDeviceInfo_eq. f_equal.
    apply is_selected_iff, Hs. }
  unfold clicked_device_target. rewrite Hsel. unfold propagated.
  destruct (negb (bool_decide (is_Some (entityInfo p k)))
            || source_is (entityInfo p k) "implied") eqn:Hc.
  - exists (implied b). split; [destruct b; reflexivity|]. reflexivity.
  - apply orb_false_iff in Hc as [Hsome Himp].
    apply negb_false_iff, bool_decide_eq_true in Hsome. destruct Hsome as [i Hi].
    exists i. split; [f_equal; exact Hi|].
    intros Hs. rewrite Hi in Himp. simpl in Himp.
    rewrite Hs in Himp. discriminate.
Qed.

Lemma device_select_covers_entities_witness :
  exists p',
    _handleDeviceButtonClick "d1" false panel_scenario = Ok p'
    /\ exists i, _getEntityOverrideInfo "light.e2" p' = Ok (Some i)
                 /\ (source i = VStr "implied" -> expose i = VBool false).
Proof.
  destruct (device_select_covers_entities panel_scenario "d1" false)
    as (p' & E & H); [vm_compute; discriminate|].
  exists p'. split; [exact E|]. apply H, target_e2.
Defined.
